(** * Indicator and consensus engine: a shallow embedding

    The Python sources embedded here are
      - [app/utils/strategy.py]              (module [Strategy]),
      - [app/coinbase_/websocket_analyser.py] (module [WebSocketAnalyzer]),
      - [app/coinbase_/market_analyser.py]    (module [MarketAnalyzer]),
      - [app/agents/analizer_agent.py]        (module [AnalyzerAgent]),
      - [app/utils/email_notifier.py]         (module [EmailNotifier]),
      - the message loop of [app/agents/data_fetcher_agent.py]
        (module [DataFetcherAgent]).

    Numbers.  The program computes on binary64 floats.  For the columns of
    the frames, which go through pandas, the embedding keeps the special
    values of that arithmetic (NaN, the two infinities, the negative zero)
    and replaces the finite floats by exact rationals: there rounding is not
    modelled, and the statements made are those that rounding leaves alone.
    The risk gate of the streaming analyzer compares a rounded product with
    the number it was derived from; it is embedded on binary64 itself. *)

From Stdlib Require Import PrimFloat.
From Stdlib Require Import String Ascii.
From Stdlib Require Import QArith Qabs Qminmax ZArith Lia Lqa List Bool.
Import ListNotations.

Open Scope Q_scope.

(** ** Python exceptions and results *)

Inductive exn : Type :=
| IndexError
| TypeError
| ValueError
| ZeroDivisionError.

Inductive res (A : Type) : Type :=
| Ok (a : A)
| Raise (e : exn).

Arguments Ok {A} a.
Arguments Raise {A} e.

Definition bind {A B : Type} (m : res A) (k : A -> res B) : res B :=
  match m with
  | Ok a => k a
  | Raise e => Raise e
  end.

Notation "x <- m ;; k" := (bind m (fun x => k))
  (at level 61, m at next level, right associativity).

(** ** Floats: exact rationals with the IEEE special values *)

Module F.

(** [Fin q] with [q == 0] is the positive zero; [NZero] is [-0.0]. *)
Inductive fval : Type :=
| Fin (q : Q)
| NZero
| PInf
| NInf
| NaN.

Definition Qis0 (q : Q) : bool := Qeq_bool q 0.
Definition Qltb (a b : Q) : bool := negb (Qle_bool b a).

Definition is_nan (x : fval) : bool :=
  match x with NaN => true | _ => false end.

Definition is_inf (x : fval) : bool :=
  match x with PInf | NInf => true | _ => false end.

Definition is_zero (x : fval) : bool :=
  match x with Fin q => Qis0 q | NZero => true | _ => false end.

(** sign bit: [true] for negative values, the negative zero included *)
Definition sgn (x : fval) : bool :=
  match x with
  | Fin q => Qltb q 0
  | NZero | NInf => true
  | PInf | NaN => false
  end.

Definition zero_of (neg : bool) : fval := if neg then NZero else Fin 0.
Definition inf_of (neg : bool) : fval := if neg then NInf else PInf.

(** the rational value of a finite float *)
Definition to_Q (x : fval) : option Q :=
  match x with
  | Fin q => Some q
  | NZero => Some 0
  | _ => None
  end.

Definition neg (x : fval) : fval :=
  match x with
  | Fin q => if Qis0 q then NZero else Fin (- q)
  | NZero => Fin 0
  | PInf => NInf
  | NInf => PInf
  | NaN => NaN
  end.

Definition abs (x : fval) : fval :=
  match x with
  | Fin q => Fin (Qabs q)
  | NZero => Fin 0
  | PInf | NInf => PInf
  | NaN => NaN
  end.

Definition add (x y : fval) : fval :=
  match x, y with
  | NaN, _ | _, NaN => NaN
  | PInf, NInf | NInf, PInf => NaN
  | PInf, _ | _, PInf => PInf
  | NInf, _ | _, NInf => NInf
  | NZero, NZero => NZero
  | NZero, Fin b => Fin b
  | Fin a, NZero => Fin a
  | Fin a, Fin b => Fin (a + b)
  end.

Definition sub (x y : fval) : fval := add x (neg y).

Definition mul (x y : fval) : fval :=
  match x, y with
  | NaN, _ | _, NaN => NaN
  | _, _ =>
      let s := xorb (sgn x) (sgn y) in
      if is_inf x || is_inf y then
        if is_zero x || is_zero y then NaN else inf_of s
      else if is_zero x || is_zero y then zero_of s
      else match to_Q x, to_Q y with
           | Some a, Some b => Fin (a * b)
           | _, _ => NaN
           end
  end.

Definition div (x y : fval) : fval :=
  match x, y with
  | NaN, _ | _, NaN => NaN
  | _, _ =>
      let s := xorb (sgn x) (sgn y) in
      if is_inf x then (if is_inf y then NaN else inf_of s)
      else if is_inf y then zero_of s
      else if is_zero y then (if is_zero x then NaN else inf_of s)
      else if is_zero x then zero_of s
      else match to_Q x, to_Q y with
           | Some a, Some b => Fin (a / b)
           | _, _ => NaN
           end
  end.

(** the order of the floats; every comparison with NaN is false *)
Definition ltb (x y : fval) : bool :=
  match x, y with
  | NaN, _ | _, NaN => false
  | PInf, _ => false
  | _, PInf => true
  | _, NInf => false
  | NInf, _ => true
  | _, _ =>
      match to_Q x, to_Q y with
      | Some a, Some b => Qltb a b
      | _, _ => false
      end
  end.

Definition gtb (x y : fval) : bool := ltb y x.

End F.

Export F.

(** [has_value x q]: the float [x] is finite and its value is [q]. *)
Definition has_value (x : fval) (q : Q) : Prop :=
  exists q', F.to_Q x = Some q' /\ q' == q.


(** ** numpy: the two transcendental functions the sources call

    [np.sqrt] (inside the rolling standard deviation) and [np.log] are not
    rational functions; the development is parametric in them. *)

Class Numerics : Type := {
  sqrtQ : Q -> Q;        (* square root of a non-negative finite number *)
  logF : fval -> fval    (* [np.log], special values included *)
}.

(** ** pandas: the Series operations used by the sources

    A Series is the list of its values in index order; every Series of a
    frame shares the frame's index, so elementwise operations are zips. *)

Module Pd.

Definition Series : Type := list fval.

Definition of_list (qs : list Q) : Series := map Fin qs.

Fixpoint map2 {A B C : Type} (f : A -> B -> C) (xs : list A) (ys : list B) : list C :=
  match xs, ys with
  | x :: xs', y :: ys' => f x y :: map2 f xs' ys'
  | _, _ => []
  end.

Definition sadd : Series -> Series -> Series := map2 F.add.
Definition ssub : Series -> Series -> Series := map2 F.sub.
Definition sdiv : Series -> Series -> Series := map2 F.div.
Definition sneg : Series -> Series := map F.neg.
Definition sabs : Series -> Series := map F.abs.
Definition sgt : Series -> Series -> list bool := map2 F.gtb.
Definition gt_c (xs : Series) (c : fval) : list bool := map (fun x => F.gtb x c) xs.
Definition lt_c (xs : Series) (c : fval) : list bool := map (fun x => F.ltb x c) xs.
Definition c_mul (c : fval) (xs : Series) : Series := map (F.mul c) xs.
Definition mul_c (xs : Series) (c : fval) : Series := map (fun x => F.mul x c) xs.
Definition c_add (c : fval) (xs : Series) : Series := map (F.add c) xs.
Definition c_sub (c : fval) (xs : Series) : Series := map (F.sub c) xs.
Definition c_div (c : fval) (xs : Series) : Series := map (F.div c) xs.
Definition div_c (xs : Series) (c : fval) : Series := map (fun x => F.div x c) xs.
Definition band : list bool -> list bool -> list bool := map2 andb.

(** [s.shift(k)]: the values move [k] places down ([k >= 0]) or up. *)
Definition shift (k : Z) (xs : Series) : Series :=
  let n := length xs in
  if (0 <=? k)%Z
  then firstn n (repeat NaN (Z.to_nat k) ++ xs)
  else skipn (Z.to_nat (- k)) xs ++ repeat NaN (Nat.min n (Z.to_nat (- k))).

(** [s.diff()] *)
Definition diff (xs : Series) : Series := ssub xs (shift 1 xs).

(** [s.where(cond, other)] *)
Definition where_ (xs : Series) (cond : list bool) (other : fval) : Series :=
  map2 (fun x (c : bool) => if c then x else other) xs cond.

(** [s.iloc[-1]] and [s.iloc[-2]] *)
Fixpoint iloc_last {A : Type} (xs : list A) : res A :=
  match xs with
  | [] => Raise IndexError
  | [x] => Ok x
  | _ :: t => iloc_last t
  end.

Definition iloc_last2 {A : Type} (xs : list A) : res A :=
  iloc_last (removelast xs).

Definition isna (xs : Series) : list bool := map F.is_nan xs.
Definition all (bs : list bool) : bool := forallb (fun b => b) bs.
Definition any (bs : list bool) : bool := existsb (fun b => b) bs.

Definition dropna (xs : Series) : Series :=
  filter (fun x => negb (F.is_nan x)) xs.

(** [s.fillna(method='bfill')] *)
Fixpoint bfill (xs : Series) : Series :=
  match xs with
  | [] => []
  | x :: t =>
      let t' := bfill t in
      (if F.is_nan x then match t' with y :: _ => y | [] => NaN end else x) :: t'
  end.

(** [s.replace([np.inf, -np.inf], np.nan)] *)
Definition replace_inf_nan (xs : Series) : Series :=
  map (fun x => if F.is_inf x then NaN else x) xs.

(** [pd.concat([a, b, c], axis=1).max(axis=1)]: NaN cells are skipped *)
Definition fmax_skipna (x y : fval) : fval :=
  if F.is_nan x then y
  else if F.is_nan y then x
  else if F.ltb x y then y else x.

Definition row_max3 (a b c : Series) : Series :=
  map2 fmax_skipna (map2 fmax_skipna a b) c.

(** *** Rolling windows

    The window that ends at position [i] holds the last [w] values up to
    [i].  The rolling aggregations take infinities for missing values,
    like NaN; a window with fewer than [min_periods] observations gives
    NaN. *)

Definition window_at {A : Type} (w : nat) (xs : list A) (i : nat) : list A :=
  skipn (S i - w) (firstn (S i) xs).

Fixpoint observations (win : Series) : list Q :=
  match win with
  | [] => []
  | Fin q :: t => q :: observations t
  | NZero :: t => 0 :: observations t
  | _ :: t => observations t
  end.

Definition rolling (w minp : nat) (agg : list Q -> fval) (xs : Series) : Series :=
  map (fun i =>
         let obs := observations (window_at w xs i) in
         if (length obs <? minp)%nat then NaN else agg obs)
      (seq 0 (length xs)).

Definition Qsum (qs : list Q) : Q := fold_right Qplus 0 qs.
Definition Qlen (qs : list Q) : Q := inject_Z (Z.of_nat (length qs)).

Definition agg_sum (qs : list Q) : fval := Fin (Qsum qs).

Definition agg_mean (qs : list Q) : fval :=
  match qs with
  | [] => NaN
  | _ => Fin (Qsum qs / Qlen qs)
  end.

Definition agg_max (qs : list Q) : fval :=
  match qs with
  | [] => NaN
  | q :: t => Fin (fold_left Qmax t q)
  end.

Definition agg_min (qs : list Q) : fval :=
  match qs with
  | [] => NaN
  | q :: t => Fin (fold_left Qmin t q)
  end.

(** sample variance, [ddof = 1] *)
Definition Qvar (qs : list Q) : Q :=
  let m := Qsum qs / Qlen qs in
  Qsum (map (fun q => (q - m) * (q - m)) qs) / (Qlen qs - 1).

Definition agg_std `{Numerics} (qs : list Q) : fval :=
  match qs with
  | [] | [_] => NaN
  | _ => Fin (sqrtQ (Qvar qs))
  end.

(** [s.rolling(window=w).f()]: [min_periods] defaults to the window *)
Definition rolling_mean (w : nat) : Series -> Series := rolling w w agg_mean.
Definition rolling_sum (w : nat) : Series -> Series := rolling w w agg_sum.
Definition rolling_max (w : nat) : Series -> Series := rolling w w agg_max.
Definition rolling_min (w : nat) : Series -> Series := rolling w w agg_min.
Definition rolling_std `{Numerics} (w : nat) : Series -> Series := rolling w w agg_std.

(** [s.rolling(window=w, min_periods=1).f()], for a window that pandas
    accepts *)
Definition rolling_mean1 (w : nat) : Series -> Series := rolling w 1 agg_mean.
Definition rolling_sum1 (w : nat) : Series -> Series := rolling w 1 agg_sum.

(** [s.rolling(window=w, min_periods=m)] is refused with ValueError when
    [m] exceeds the window. *)
Definition check_min_periods (w m : nat) : res unit :=
  if (w <? m)%nat then Raise ValueError else Ok tt.

(** *** [s.ewm(span=n, adjust=False).mean()] on a Series without gaps:
    [y_0 = x_0], [y_t = (1 - a) y_(t-1) + a x_t] with [a = 2 / (n + 1)]. *)

Fixpoint ewm_from (a : Q) (prev : Q) (xs : list Q) : list Q :=
  match xs with
  | [] => []
  | x :: t => let y := (1 - a) * prev + a * x in y :: ewm_from a y t
  end.

Definition ewm_mean (span : Q) (xs : list Q) : list Q :=
  match xs with
  | [] => []
  | x :: t => x :: ewm_from (2 / (span + 1)) x t
  end.

(** *** [s.median()]: the middle of the sorted values, NaN skipped *)

Fixpoint insert_sorted (x : fval) (xs : Series) : Series :=
  match xs with
  | [] => [x]
  | y :: t => if F.ltb y x then y :: insert_sorted x t else x :: xs
  end.

Definition sort (xs : Series) : Series := fold_right insert_sorted [] xs.

Definition median (xs : Series) : fval :=
  let s := sort (dropna xs) in
  let n := length s in
  match n with
  | O => NaN
  | _ =>
      if Nat.even n
      then F.div (F.add (nth (n / 2 - 1) s NaN) (nth (n / 2) s NaN)) (Fin 2)
      else nth (n / 2) s NaN
  end.

End Pd.

(** ** Python values, as far as the strategies return them *)

#[warnings="-register-all"]
Inductive pyval : Type :=
| PyStr (s : string)
| PyNone
| PyFloat (x : fval)
| PyTuple (vs : list pyval)
| PySeries (name : option string) (xs : Pd.Series).

(** How a float and the rows of a non-empty Series are printed is left to
    the printer; the frame of a tuple and the footer of a Series are fixed. *)
Class Printer : Type := {
  repr_float : fval -> string;
  repr_rows : Pd.Series -> string
}.

Section Str.

Context `{Printer}.

Definition series_footer (name : option string) : string :=
  (match name with
   | Some n => "Name: " ++ n ++ ", "
   | None => EmptyString
   end ++ "dtype: float64")%string.

Definition series_str (name : option string) (xs : Pd.Series) : string :=
  match xs with
  | [] => ("Series([], " ++ series_footer name ++ ")")%string
  | _ => (repr_rows xs ++ series_footer name)%string
  end.

Fixpoint py_repr (v : pyval) : string :=
  match v with
  | PyStr s => ("'" ++ s ++ "'")%string
  | PyNone => "None"%string
  | PyFloat x => repr_float x
  | PyTuple vs =>
      ("(" ++ match vs with
              | [v1] => py_repr v1 ++ ","
              | _ => String.concat ", " (map py_repr vs)
              end ++ ")")%string
  | PySeries name xs => series_str name xs
  end.

(** [str(v)] *)
Definition py_str (v : pyval) : string :=
  match v with
  | PyStr s => s
  | _ => py_repr v
  end.

End Str.

(** ** The frame of observations *)

Record row : Type := { close : Q; high : Q; low : Q }.

Definition DataFrame : Type := list row.

Definition col (f : row -> Q) (hd : DataFrame) : Pd.Series := Pd.of_list (map f hd).

Definition Qnat (n : nat) : Q := inject_Z (Z.of_nat n).

(** ** app/utils/strategy.py *)

Module Strategy.
Section Strategy.

Context `{Numerics}.

Definition rsi_series (hd : DataFrame) (period : nat) : Pd.Series :=
  let delta := Pd.diff (col close hd) in
  let gain := Pd.rolling_mean period (Pd.where_ delta (Pd.gt_c delta (Fin 0)) (Fin 0)) in
  let loss := Pd.sneg (Pd.rolling_mean period (Pd.where_ delta (Pd.lt_c delta (Fin 0)) (Fin 0))) in
  let rs := Pd.sdiv gain loss in
  Pd.c_sub (Fin 100) (Pd.c_div (Fin 100) (Pd.c_add (Fin 1) rs)).

Definition calculate_rsi (hd : DataFrame) (period : nat) : res (string * pyval) :=
  if (length hd <? period)%nat then Ok ("NEUTRAL"%string, PyNone)
  else
    let rsi := rsi_series hd period in
    r <- Pd.iloc_last rsi ;;
    let signal :=
      if F.gtb r (Fin 70) then "SELL"%string
      else if F.ltb r (Fin 30) then "BUY"%string
      else "NEUTRAL"%string in
    Ok (signal, PyFloat r).

(** [ewm(span=n)] refuses a span below one. *)
Definition ewm (span : nat) (xs : list Q) : res (list Q) :=
  if (span <? 1)%nat then Raise ValueError else Ok (Pd.ewm_mean (Qnat span) xs).

Definition macd_lines (hd : DataFrame) (short_period long_period signal_period : nat)
  : res (list Q * list Q) :=
  short_ema <- ewm short_period (map close hd) ;;
  long_ema <- ewm long_period (map close hd) ;;
  let macd := Pd.map2 Qminus short_ema long_ema in
  signal_line <- ewm signal_period macd ;;
  Ok (macd, signal_line).

Definition calculate_macd (hd : DataFrame) (short_period long_period signal_period : nat)
  : res (string * pyval) :=
  if (length hd <? long_period)%nat then Ok ("NEUTRAL"%string, PyNone)
  else
    ms <- macd_lines hd short_period long_period signal_period ;;
    m <- Pd.iloc_last (fst ms) ;;
    s <- Pd.iloc_last (snd ms) ;;
    let signal :=
      if F.Qltb s m then "BUY"%string
      else if F.Qltb m s then "SELL"%string
      else "NEUTRAL"%string in
    Ok (signal, PyFloat (Fin m)).

Definition calculate_sma (hd : DataFrame) (period : nat) : res (string * pyval) :=
  if (length hd <? period)%nat then Ok ("NEUTRAL"%string, PyNone)
  else
    let sma_series := Pd.rolling_mean period (col close hd) in
    latest_price <- Pd.iloc_last (col close hd) ;;
    latest_sma <- Pd.iloc_last sma_series ;;
    let signal := if F.gtb latest_price latest_sma then "BUY"%string else "SELL"%string in
    Ok (signal, PyFloat latest_sma).

Definition bollinger_series (hd : DataFrame) (period : nat) (num_std_dev : Q)
  : Pd.Series * Pd.Series * Pd.Series :=
  let sma := Pd.rolling_mean period (col close hd) in
  let rolling_std := Pd.rolling_std period (col close hd) in
  let upper_band := Pd.sadd sma (Pd.mul_c rolling_std (Fin num_std_dev)) in
  let lower_band := Pd.ssub sma (Pd.mul_c rolling_std (Fin num_std_dev)) in
  (sma, upper_band, lower_band).

Definition calculate_bollinger_bands (hd : DataFrame) (period : nat) (num_std_dev : Q)
  : res (string * pyval) :=
  if (length hd <? period)%nat then Ok ("NEUTRAL"%string, PyTuple [PyNone; PyNone])
  else
    let '(_, upper_band, lower_band) := bollinger_series hd period num_std_dev in
    c <- Pd.iloc_last (col close hd) ;;
    l <- Pd.iloc_last lower_band ;;
    u <- Pd.iloc_last upper_band ;;
    let signal :=
      if F.ltb c l then "BUY"%string
      else if F.gtb c u then "SELL"%string
      else "NEUTRAL"%string in
    Ok (signal, PyTuple [PyFloat u; PyFloat l]).

(** The function the module calls [calculate_adx]; its body computes the
    Ichimoku lines, needs 52 observations and ignores [period]. *)
Definition calculate_adx (hd : DataFrame) (period : nat) : res (string * pyval) :=
  if (length hd <? 52)%nat then Ok ("NEUTRAL"%string, PyNone)
  else
    let mid w :=
      Pd.div_c (Pd.sadd (Pd.rolling_max w (col high hd)) (Pd.rolling_min w (col low hd)))
               (Fin 2) in
    let tenkan_sen := mid 9%nat in
    let kijun_sen := mid 26%nat in
    let senkou_span_a := Pd.shift 26 (Pd.div_c (Pd.sadd tenkan_sen kijun_sen) (Fin 2)) in
    c <- Pd.iloc_last (col close hd) ;;
    a <- Pd.iloc_last senkou_span_a ;;
    t <- Pd.iloc_last tenkan_sen ;;
    k <- Pd.iloc_last kijun_sen ;;
    let signal :=
      if F.gtb c a && F.gtb t k then "BUY"%string
      else if F.ltb c a && F.ltb t k then "SELL"%string
      else "NEUTRAL"%string in
    Ok (signal, PyNone).

Definition calculate_vtr (hd : DataFrame) (period : nat) : res (string * pyval) :=
  if (length hd <? period)%nat then Ok ("NEUTRAL"%string, PyNone)
  else
    let log_returns := map logF (Pd.sdiv (col close hd) (Pd.shift 1 (col close hd))) in
    let volatility :=
      Pd.mul_c (Pd.rolling_std period log_returns) (Fin (sqrtQ (Qnat period))) in
    v <- Pd.iloc_last volatility ;;
    let signal := if F.ltb v (Pd.median volatility) then "BUY"%string else "SELL"%string in
    Ok (signal, PyFloat v).

(** [%K].  The quotient is exact here and rounded in the program, where a
    [%K] of 100 can come out as the next float above it: what is stated of
    [%K] below is its NaN structure and its sign, not an upper bound. *)
Definition stochastic_k (hd : DataFrame) (period : nat) : Pd.Series :=
  let lowest_low := Pd.rolling_min period (col low hd) in
  let highest_high := Pd.rolling_max period (col high hd) in
  Pd.sdiv (Pd.c_mul (Fin 100) (Pd.ssub (col close hd) lowest_low))
          (Pd.ssub highest_high lowest_low).

Definition calculate_stochastic (hd : DataFrame) (period smooth_k smooth_d : nat)
  : res (string * pyval) :=
  if (length hd <? period)%nat then Ok ("NEUTRAL"%string, PyTuple [PyNone; PyNone])
  else
    let k := stochastic_k hd period in
    let d := Pd.rolling_mean smooth_d k in
    kl <- Pd.iloc_last k ;;
    dl <- Pd.iloc_last d ;;
    let signal :=
      if F.gtb kl dl then "BUY"%string
      else if F.ltb kl dl then "SELL"%string
      else "NEUTRAL"%string in
    Ok (signal, PyTuple [PyFloat kl; PyFloat dl]).

End Strategy.

Definition check_risk (balance price risk_threshold : Q) : string * option Q :=
  if Qle_bool balance 0 || Qle_bool price 0 then ("Invalid Input"%string, None)
  else
    let risk_amount := balance * risk_threshold / 100 in
    let position_size := risk_amount / price in
    ("Position Size"%string, Some position_size).

End Strategy.

(** ** app/coinbase_/websocket_analyser.py *)

Module WebSocketAnalyzer.

(** the object: [self.*].  The three numbers of the risk gate are binary64
    values: Python floats, or Python ints that binary64 holds exactly (on
    those the gate computes the same numbers as long as
    [balance * risk_threshold] stays below [2^53]). *)
Record t : Type := {
  risk_threshold : float;
  balance : float;
  period : nat;
  price : option float;       (* [None] is the constructor's default *)
  historical_data : DataFrame
}.

(** One ticker of a batch, after [float(ticker.get(key, 0))]. *)
Record ticker : Type := { t_price : Q; high_24_h : Q; low_24_h : Q }.

(** [websocket_data]: the list under ['events'], each event with the list
    under ['tickers'] (a missing key reads as the empty list). *)
Definition message : Type := list (list ticker).

Definition set_data (self : t) (hd : DataFrame) : t :=
  {| risk_threshold := risk_threshold self; balance := balance self;
     period := period self; price := price self; historical_data := hd |}.

Definition add_ticker (hd : DataFrame) (k : ticker) : DataFrame :=
  if F.Qis0 (t_price k) then hd
  else hd ++ [{| close := t_price k; high := high_24_h k; low := low_24_h k |}].

Definition update_data (self : t) (websocket_data : message) : res t :=
  match websocket_data with
  | [] => Raise IndexError
  | tickers :: _ => Ok (set_data self (fold_left add_ticker tickers (historical_data self)))
  end.

Section Methods.

Context `{Numerics} `{Printer}.

Definition signal_of_rsi (r : fval) : string :=
  if F.gtb r (Fin 70) then "SELL"%string
  else if F.ltb r (Fin 30) then "BUY"%string
  else "NEUTRAL"%string.

(** Unlike [Strategy.rsi_series], the losses are negated before the
    rolling mean is taken. *)
Definition rsi_series (hd : DataFrame) (period : nat) : Pd.Series :=
  let delta := Pd.diff (col close hd) in
  let gain := Pd.rolling_mean period (Pd.where_ delta (Pd.gt_c delta (Fin 0)) (Fin 0)) in
  let loss := Pd.rolling_mean period (Pd.sneg (Pd.where_ delta (Pd.lt_c delta (Fin 0)) (Fin 0))) in
  let rs := Pd.sdiv gain loss in
  Pd.c_sub (Fin 100) (Pd.c_div (Fin 100) (Pd.c_add (Fin 1) rs)).

Definition calculate_rsi (self : t) : res pyval :=
  r <- Pd.iloc_last (rsi_series (historical_data self) (period self)) ;;
  Ok (PyStr (signal_of_rsi r)).

Definition calculate_macd (self : t) (short_period long_period signal_period : nat)
  : res pyval :=
  ms <- Strategy.macd_lines (historical_data self) short_period long_period signal_period ;;
  m <- Pd.iloc_last (fst ms) ;;
  s <- Pd.iloc_last (snd ms) ;;
  Ok (PyStr (if F.Qltb s m then "BUY"
             else if F.Qltb m s then "SELL"
             else "NEUTRAL")%string).

Definition calculate_sma (self : t) : res (string * pyval) :=
  let hd := historical_data self in
  if (length hd <? period self)%nat then Ok ("NEUTRAL"%string, PyNone)
  else
    let sma_series := Pd.rolling_mean (period self) (col close hd) in
    if Pd.all (Pd.isna sma_series) then Ok ("NEUTRAL"%string, PyNone)
    else
      latest_price <- Pd.iloc_last (col close hd) ;;
      latest_sma <- Pd.iloc_last sma_series ;;
      Ok (if F.gtb latest_price latest_sma then "BUY"%string else "SELL"%string,
          PyFloat latest_sma).

Definition calculate_bollinger_bands (self : t) (num_std_dev : Q) : res pyval :=
  let hd := historical_data self in
  sv <- calculate_sma self ;;
  let '(sma, sma_val) := sv in
  let rolling_std := Pd.rolling_std (period self) (col close hd) in
  match sma_val with
  | PyFloat sma_val =>
      if String.eqb sma "Neutral" && Pd.any (Pd.isna rolling_std) then Ok (PyStr "Error")
      else
        let upper_band := Pd.c_add sma_val (Pd.mul_c rolling_std (Fin num_std_dev)) in
        let lower_band := Pd.c_sub sma_val (Pd.mul_c rolling_std (Fin num_std_dev)) in
        c <- Pd.iloc_last (col close hd) ;;
        l <- Pd.iloc_last lower_band ;;
        if F.ltb c l then Ok (PyStr "BUY")
        else
          u <- Pd.iloc_last upper_band ;;
          if F.gtb c u then Ok (PyStr "SELL") else Ok (PyStr "NEUTRAL")
  | _ => Ok (PyStr "Error")
  end.

Definition adx_series (hd : DataFrame) (period : nat) : Pd.Series :=
  let high := col high hd in
  let low := col low hd in
  let close := col close hd in
  let tr :=
    Pd.row_max3 (Pd.ssub high low)
                (Pd.sabs (Pd.ssub high (Pd.shift 1 close)))
                (Pd.sabs (Pd.ssub low (Pd.shift 1 close))) in
  let atr := Pd.rolling_mean period tr in
  let plus_dm := Pd.diff high in
  let minus_dm := Pd.diff low in
  let plus_dm := Pd.where_ plus_dm (Pd.gt_c plus_dm (Fin 0)) (Fin 0) in
  let minus_dm := Pd.where_ minus_dm (Pd.gt_c minus_dm (Fin 0)) (Fin 0) in
  let plus_di := Pd.c_mul (Fin 100) (Pd.sdiv (Pd.rolling_sum period plus_dm) atr) in
  let minus_di := Pd.c_mul (Fin 100) (Pd.sdiv (Pd.rolling_sum period minus_dm) atr) in
  Pd.rolling_mean period
    (Pd.mul_c (Pd.sdiv (Pd.sabs (Pd.ssub plus_di minus_di))
                       (Pd.sabs (Pd.sadd plus_di minus_di)))
              (Fin 100)).

Definition calculate_adx (self : t) : res pyval :=
  a <- Pd.iloc_last (adx_series (historical_data self) (period self)) ;;
  if F.gtb a (Fin 25) then Ok (PyStr "BUY") else Ok (PyStr "SELL").

Definition calculate_vtr (self : t) : res pyval :=
  Ok (PySeries (Some "close"%string)
               (Pd.rolling_std (period self) (col close (historical_data self)))).

Definition calculate_stochastic_oscillator (self : t) : res pyval :=
  let hd := historical_data self in
  let low_min := Pd.rolling_min (period self) (col low hd) in
  let high_max := Pd.rolling_max (period self) (col high hd) in
  let close_prices := col close hd in
  Ok (PySeries None
        (Pd.sdiv (Pd.c_mul (Fin 100) (Pd.ssub close_prices low_min))
                 (Pd.ssub high_max low_min))).

Definition run_strategies (self : t) : res (list pyval) :=
  r1 <- calculate_rsi self ;;
  r2 <- calculate_macd self 12 26 9 ;;
  r3 <- calculate_sma self ;;
  r4 <- calculate_bollinger_bands self 2 ;;
  r5 <- calculate_adx self ;;
  r6 <- calculate_vtr self ;;
  r7 <- calculate_stochastic_oscillator self ;;
  Ok [r1; r2; PyTuple [PyStr (fst r3); snd r3]; r4; r5; r6; r7].

Definition count_str (tag : string) (strategy_results : list pyval) : nat :=
  length (filter (fun result => String.eqb (py_str result) tag) strategy_results).

Definition calculate_signal (strategy_results : list pyval) : string :=
  let buy_count := count_str "BUY" strategy_results in
  let sell_count := count_str "SELL" strategy_results in
  if (5 <=? buy_count)%nat then "BUY"%string
  else if (4 <=? sell_count)%nat then "SELL"%string
  else "NEUTRAL"%string.

(** Python raises on a division by either zero; every other operation on
    floats returns (a NaN or an infinity included). *)
Definition calculate_position_size (self : t) : res float :=
  let risk_amount := (balance self * risk_threshold self / 100)%float in
  match price self with
  | None => Raise TypeError
  | Some p =>
      if (p =? 0)%float then Raise ZeroDivisionError else Ok (risk_amount / p)%float
  end.

Definition check_risk (self : t) : res bool :=
  position_size <- calculate_position_size self ;;
  let risk_amount := (balance self * risk_threshold self / 100)%float in
  match price self with
  | None => Raise TypeError
  | Some p => if (risk_amount <? position_size * p)%float then Ok false else Ok true
  end.

(** [analyze]: the updated object and what the call returns or raises *)
Definition analyze (self : t) (websocket_data : message) : t * res string :=
  match update_data self websocket_data with
  | Raise e => (self, Raise e)
  | Ok self' =>
      (self',
       strategy_results <- run_strategies self' ;;
       let signal := calculate_signal strategy_results in
       ok <- check_risk self' ;;
       if ok : bool then Ok signal else Ok "No Action"%string)
  end.

End Methods.

End WebSocketAnalyzer.

(** ** app/coinbase_/market_analyser.py *)

Module MarketAnalyzer.

Record t : Type := {
  historical_data : DataFrame;
  price : Q;
  volume : Q;
  price_percentage_change_24h : Q;
  portfolio_value : Q;
  risk_percentage : Q;
  loss_percentage : Q;
  period : nat
}.

(** the dictionary [analyze] returns *)
Record analysis : Type := {
  decision : string;
  position_size : Q;
  stop_loss : Q;
  rsi_signal : string;
  macd_signal : string;
  sma_signal : string;
  bollinger_signal : string;
  adx_signal : string;
  vtr_signal : string
}.

Section Methods.

Context `{Numerics}.

Definition calculate_rsi (self : t) : Pd.Series :=
  WebSocketAnalyzer.rsi_series (historical_data self) (period self).

Definition calculate_macd (self : t) (short_period long_period signal_period : nat)
  : res (Pd.Series * Pd.Series) :=
  ms <- Strategy.macd_lines (historical_data self) short_period long_period signal_period ;;
  Ok (Pd.of_list (fst ms), Pd.of_list (snd ms)).

Definition calculate_sma (self : t) : Pd.Series :=
  Pd.rolling_mean (period self) (col close (historical_data self)).

Definition calculate_bollinger_bands (self : t) (num_std_dev : Q)
  : Pd.Series * Pd.Series :=
  let sma := calculate_sma self in
  let rolling_std := Pd.rolling_std (period self) (col close (historical_data self)) in
  let upper_band := Pd.sadd sma (Pd.mul_c rolling_std (Fin num_std_dev)) in
  let lower_band := Pd.ssub sma (Pd.mul_c rolling_std (Fin num_std_dev)) in
  (upper_band, lower_band).

(** *** ADX, step by step as [calculate_adx] computes it *)

Definition true_range (hd : DataFrame) : Pd.Series :=
  let tr1 := Pd.ssub (col high hd) (col low hd) in
  let tr2 := Pd.sabs (Pd.ssub (col high hd) (Pd.shift 1 (col close hd))) in
  let tr3 := Pd.sabs (Pd.ssub (col low hd) (Pd.shift 1 (col close hd))) in
  Pd.row_max3 tr1 tr2 tr3.

Definition average_true_range (hd : DataFrame) (period : nat) : Pd.Series :=
  Pd.bfill (Pd.rolling_mean1 period (true_range hd)).

(** [plus_dm] is filtered first; the filter of [minus_dm] then reads the
    filtered [plus_dm], the variable having been assigned anew. *)
Definition directional_movement (hd : DataFrame) : Pd.Series * Pd.Series :=
  let plus_dm := Pd.diff (col high hd) in
  let minus_dm := Pd.diff (col low hd) in
  let plus_dm :=
    Pd.where_ plus_dm (Pd.band (Pd.sgt plus_dm minus_dm) (Pd.gt_c plus_dm (Fin 0))) (Fin 0) in
  let minus_dm :=
    Pd.where_ minus_dm (Pd.band (Pd.sgt minus_dm plus_dm) (Pd.gt_c minus_dm (Fin 0))) (Fin 0) in
  (plus_dm, minus_dm).

Definition directional_indicator (dm atr : Pd.Series) (period : nat) : Pd.Series :=
  Pd.c_mul (Fin 100) (Pd.sdiv (Pd.rolling_sum1 period dm) atr).

Definition directional_index (plus_di minus_di : Pd.Series) : Pd.Series :=
  let dx := Pd.c_mul (Fin 100)
              (Pd.sdiv (Pd.sabs (Pd.ssub plus_di minus_di)) (Pd.sadd plus_di minus_di)) in
  Pd.bfill (Pd.replace_inf_nan dx).

(** The first [rolling(window=self.period, min_periods=1)] is that of the
    ATR; with period 0 it raises, and the later ones are not reached. *)
Definition calculate_adx (self : t) : res (Pd.Series * Pd.Series * Pd.Series) :=
  let hd := historical_data self in
  _ <- Pd.check_min_periods (period self) 1 ;;
  let atr := average_true_range hd (period self) in
  let '(plus_dm, minus_dm) := directional_movement hd in
  let plus_di := directional_indicator plus_dm atr (period self) in
  let minus_di := directional_indicator minus_dm atr (period self) in
  let dx := directional_index plus_di minus_di in
  let adx := Pd.bfill (Pd.rolling_mean1 (period self) dx) in
  Ok (adx, plus_di, minus_di).

Definition calculate_vtr (self : t) : Pd.Series :=
  Pd.rolling_std (period self) (col close (historical_data self)).

Definition calculate_stochastic_oscillator (self : t) : Pd.Series :=
  let hd := historical_data self in
  let low_min := Pd.rolling_min (period self) (col low hd) in
  let high_max := Pd.rolling_max (period self) (col high hd) in
  Pd.sdiv (Pd.c_mul (Fin 100) (Pd.ssub (col close hd) low_min)) (Pd.ssub high_max low_min).

(** *** Signals.  Each branch is guarded by the length tests of the
    source; [stx.iloc[-1]] is not. *)

Definition eval_rsi (rsi : Pd.Series) : res string :=
  if (0 <? length rsi)%nat then
    r <- Pd.iloc_last rsi ;;
    Ok (if F.ltb r (Fin 30) then "Oversold"
        else if F.gtb r (Fin 70) then "Overbought" else "Neutral")%string
  else Ok "No Data Available"%string.

Definition eval_macd (macd signal_line : Pd.Series) : res string :=
  if (0 <? length macd)%nat && (0 <? length signal_line)%nat then
    m <- Pd.iloc_last macd ;;
    s <- Pd.iloc_last signal_line ;;
    Ok (if F.gtb m s then "Bullish" else "Bearish")%string
  else Ok "No Data Available"%string.

Definition eval_sma (sma : Pd.Series) : res string :=
  if (1 <? length sma)%nat then
    a <- Pd.iloc_last sma ;;
    b <- Pd.iloc_last2 sma ;;
    Ok (if F.gtb a b then "Bullish" else "Bearish")%string
  else Ok "No Data Available"%string.

Definition eval_bollinger (self : t) (upper_band lower_band : Pd.Series) : res string :=
  if (0 <? length upper_band)%nat && (0 <? length lower_band)%nat then
    l <- Pd.iloc_last lower_band ;;
    if F.ltb (Fin (price self)) l then Ok "Buy"%string
    else
      u <- Pd.iloc_last upper_band ;;
      Ok (if F.gtb (Fin (price self)) u then "Sell" else "Neutral")%string
  else Ok "No Data Available"%string.

Definition eval_adx (adx : Pd.Series) : res string :=
  if (0 <? length adx)%nat then
    a <- Pd.iloc_last adx ;;
    Ok (if F.gtb a (Fin 25) then "Strong Trend" else "Weak Trend")%string
  else Ok "No Data Available"%string.

Definition eval_vtr (vtr : Pd.Series) : res string :=
  if (0 <? length vtr)%nat then
    v <- Pd.iloc_last vtr ;;
    Ok (if F.gtb v (Fin 1) then "High Volatility" else "Low Volatility")%string
  else Ok "No Data Available"%string.

Definition eval_stochastic (stx : Pd.Series) : res string :=
  s <- Pd.iloc_last stx ;;
  Ok (if F.gtb s (Fin 80) then "Overbought"
      else if F.ltb s (Fin 20) then "Oversold" else "Neutral")%string.

(** The tuple [evaluate_signals] returns, as the list of its items:
    [stochastic_signal] is computed and left out of it. *)
Definition evaluate_signals (self : t)
    (rsi macd signal_line sma upper_band lower_band adx vtr stx : Pd.Series)
  : res (list string) :=
  let rsi := Pd.dropna rsi in
  let macd := Pd.dropna macd in
  let signal_line := Pd.dropna signal_line in
  let sma := Pd.dropna sma in
  let upper_band := Pd.dropna upper_band in
  let lower_band := Pd.dropna lower_band in
  let adx := Pd.dropna adx in
  let vtr := Pd.dropna vtr in
  let stx := Pd.dropna stx in
  rsi_signal <- eval_rsi rsi ;;
  macd_signal <- eval_macd macd signal_line ;;
  sma_signal <- eval_sma sma ;;
  bollinger_signal <- eval_bollinger self upper_band lower_band ;;
  adx_signal <- eval_adx adx ;;
  vtr_signal <- eval_vtr vtr ;;
  stochastic_signal <- eval_stochastic stx ;;
  Ok [rsi_signal; macd_signal; sma_signal; bollinger_signal; adx_signal; vtr_signal].

Definition calculate_position_size (self : t) : res Q :=
  let risk_amount := portfolio_value self * risk_percentage self in
  if F.Qis0 (price self) then Raise ZeroDivisionError
  else Ok (risk_amount / price self).

Definition calculate_stop_loss (self : t) : Q :=
  price self * (1 - loss_percentage self).

Definition make_decision
    (rsi_signal macd_signal sma_signal bollinger_signal adx_signal vtr_signal : string)
  : string :=
  if String.eqb rsi_signal "Oversold" && String.eqb macd_signal "Bullish"
     && String.eqb sma_signal "Bullish" && String.eqb bollinger_signal "Buy"
  then "Buy"%string
  else if String.eqb rsi_signal "Overbought" && String.eqb macd_signal "Bearish"
          && String.eqb sma_signal "Bearish" && String.eqb bollinger_signal "Sell"
  then "Sell"%string
  else "Hold"%string.

(** [a, b, c, d, e, f, g = items]: the assignment to seven targets *)
Definition unpack7 {A : Type} (items : list A) : res (A * A * A * A * A * A * A) :=
  match items with
  | [a; b; c; d; e; f; g] => Ok (a, b, c, d, e, f, g)
  | _ => Raise ValueError
  end.

(** [plot_indicators] only draws; it is left out. *)
Definition analyze (self : t) : res analysis :=
  let rsi := calculate_rsi self in
  ms <- calculate_macd self 12 26 9 ;;
  let '(macd, signal_line) := ms in
  let sma := calculate_sma self in
  let '(upper_band, lower_band) := calculate_bollinger_bands self 2 in
  lines <- calculate_adx self ;;
  let '(adx, plus_di, minus_di) := lines in
  let vtr := calculate_vtr self in
  let stx := calculate_stochastic_oscillator self in
  signals <- evaluate_signals self rsi macd signal_line sma upper_band lower_band adx vtr stx ;;
  sigs <- unpack7 signals ;;
  let '(rsi_signal, macd_signal, sma_signal, bollinger_signal, adx_signal, vtr_signal,
        stochastic_signal) := sigs in
  position_size <- calculate_position_size self ;;
  let stop_loss := calculate_stop_loss self in
  let decision :=
    make_decision rsi_signal macd_signal sma_signal bollinger_signal adx_signal vtr_signal in
  Ok {| decision := decision; position_size := position_size; stop_loss := stop_loss;
        rsi_signal := rsi_signal; macd_signal := macd_signal; sma_signal := sma_signal;
        bollinger_signal := bollinger_signal; adx_signal := adx_signal;
        vtr_signal := vtr_signal |}.

End Methods.

End MarketAnalyzer.

(** ** app/agents/analizer_agent.py: [AnalyzerAgent.analyze]

    The tools are the functions of [Strategy], called with their default
    parameters.  The call to the language model happens after the vote and
    its answer is not part of the returned dictionary; it is left out. *)

Module AnalyzerAgent.

(** the two shapes of the returned dictionary *)
Inductive outcome : Type :=
| Final (final_signal : string) (message : string)
| Report (analyzer_signal : string) (position_size : Q)
         (indicators : list (string * (string * pyval))).

Definition count_tag (tag : string) (analysis_results : list (string * (string * pyval)))
  : nat :=
  length (filter (fun kv => String.eqb (fst (snd kv)) tag) analysis_results).

Definition vote (analysis_results : list (string * (string * pyval))) : string :=
  let buy_signals := count_tag "BUY" analysis_results in
  let sell_signals := count_tag "SELL" analysis_results in
  if (3 <=? buy_signals)%nat then "BUY"%string
  else if (3 <=? sell_signals)%nat then "SELL"%string
  else "HOLD"%string.

Section Analyze.

Context `{Numerics}.

Definition run_tools (hd : DataFrame) : res (list (string * (string * pyval))) :=
  rsi <- Strategy.calculate_rsi hd 14 ;;
  macd <- Strategy.calculate_macd hd 12 26 9 ;;
  sma <- Strategy.calculate_sma hd 14 ;;
  bb <- Strategy.calculate_bollinger_bands hd 14 2 ;;
  vtr <- Strategy.calculate_vtr hd 14 ;;
  sto <- Strategy.calculate_stochastic hd 14 3 3 ;;
  Ok [("RSI", rsi); ("MACD", macd); ("SMA", sma); ("Bollinger Bands", bb);
      ("VTR (Volatility)", vtr); ("Stochastic", sto)]%string.

Definition analyze (historical_data : DataFrame) (account_balance risk_threshold : Q)
  : res outcome :=
  if (length historical_data <? 14)%nat then Ok (Final "HOLD" "Insufficient data")
  else
    analysis_results <- run_tools historical_data ;;
    let analyzer_signal := vote analysis_results in
    last_close <- Pd.iloc_last (map close historical_data) ;;
    match snd (Strategy.check_risk account_balance last_close risk_threshold) with
    | None => Ok (Final "HOLD" "Invalid input for position size calculation")
    | Some position_size => Ok (Report analyzer_signal position_size analysis_results)
    end.

End Analyze.

End AnalyzerAgent.

(** ** Closed formulas, position by position

    What the specification says of each indicator, written on the positions
    [0 .. n-1] of a frame.  The [w] positions that end at [t] are
    [t + 1 - w .. t]. *)

Module Formula.

Definition row0 : row := {| close := 0; high := 0; low := 0 |}.

Definition price_at (f : row -> Q) (hd : DataFrame) (t : nat) : Q := f (nth t hd row0).

Definition sum_over (f : nat -> Q) (w t : nat) : Q :=
  Pd.Qsum (map f (seq (S t - w) w)).

Definition mean_over (f : nat -> Q) (w t : nat) : Q := sum_over f w t / Qnat w.

(** *** RSI.  Position 0 has no predecessor; its delta counts as 0. *)

Definition delta (hd : DataFrame) (t : nat) : Q :=
  match t with
  | O => 0
  | S t' => price_at close hd t - price_at close hd t'
  end.

Definition gain (hd : DataFrame) (t : nat) : Q :=
  if F.Qltb 0 (delta hd t) then delta hd t else 0.

Definition loss (hd : DataFrame) (t : nat) : Q :=
  if F.Qltb (delta hd t) 0 then - delta hd t else 0.

Definition avg_gain (hd : DataFrame) (period t : nat) : Q := mean_over (gain hd) period t.
Definition avg_loss (hd : DataFrame) (period t : nat) : Q := mean_over (loss hd) period t.

Definition rsi (hd : DataFrame) (period t : nat) : Q :=
  100 - 100 / (1 + avg_gain hd period t / avg_loss hd period t).

(** the float [strategy.calculate_rsi] computes from the mean gain [g] and
    the mean [l] of the non-positive deltas: [100 - 100 / (1 + g / -l)] *)
Definition rsi_of (g l : Q) : fval :=
  F.sub (Fin 100) (F.div (Fin 100) (F.add (Fin 1) (F.div (Fin g) (F.neg (Fin l))))).

(** *** SMA *)

Definition sma (hd : DataFrame) (period t : nat) : Q :=
  mean_over (price_at close hd) period t.

(** *** ADX, for positions [t >= 1] *)

Definition true_range (hd : DataFrame) (t : nat) : Q :=
  Qmax (Qmax (price_at high hd t - price_at low hd t)
             (Qabs (price_at high hd t - price_at close hd (pred t))))
       (Qabs (price_at low hd t - price_at close hd (pred t))).

Definition high_diff (hd : DataFrame) (t : nat) : Q :=
  price_at high hd t - price_at high hd (pred t).

Definition low_diff (hd : DataFrame) (t : nat) : Q :=
  price_at low hd t - price_at low hd (pred t).

(** kept only when positive and greater than the other one, else 0 *)
Definition plus_dm (hd : DataFrame) (t : nat) : Q :=
  if F.Qltb 0 (high_diff hd t) && F.Qltb (low_diff hd t) (high_diff hd t)
  then high_diff hd t else 0.

Definition minus_dm (hd : DataFrame) (t : nat) : Q :=
  if F.Qltb 0 (low_diff hd t) && F.Qltb (high_diff hd t) (low_diff hd t)
  then low_diff hd t else 0.

(** a position where both differences are positive and equal *)
Definition tie (hd : DataFrame) (t : nat) : Prop :=
  0 < high_diff hd t /\ high_diff hd t == low_diff hd t.

Definition atr (hd : DataFrame) (period t : nat) : Q :=
  mean_over (true_range hd) period t.

Definition plus_di (hd : DataFrame) (period t : nat) : Q :=
  100 * (sum_over (plus_dm hd) period t / atr hd period t).

Definition minus_di (hd : DataFrame) (period t : nat) : Q :=
  100 * (sum_over (minus_dm hd) period t / atr hd period t).

Definition dx (hd : DataFrame) (period t : nat) : Q :=
  100 * (Qabs (plus_di hd period t - minus_di hd period t)
         / (plus_di hd period t + minus_di hd period t)).

Definition adx (hd : DataFrame) (period t : nat) : Q :=
  mean_over (dx hd period) period t.

End Formula.

(** ** Concrete inputs for the examples *)

Module Sample.

Definition obs (c h l : Q) : row := {| close := c; high := h; low := l |}.

(** the integer square root of the numerator over the denominator squared *)
Definition approx_sqrt (q : Q) : Q :=
  let r := Qred q in
  Qmake (Z.sqrt (Qnum r * Zpos (Qden r))) (Qden r).

Definition numerics : Numerics :=
  {| sqrtQ := approx_sqrt; logF := fun _ => NaN |}.

Definition printer : Printer :=
  {| repr_float := fun _ => "nan"%string; repr_rows := fun _ => "0    NaN"%string |}.

(** [WebSocketAnalyzer(risk_threshold, balance, period=14, price)] holding [hd] *)
Definition streaming (b r p : float) (hd : DataFrame) : WebSocketAnalyzer.t :=
  {| WebSocketAnalyzer.risk_threshold := r;
     WebSocketAnalyzer.balance := b;
     WebSocketAnalyzer.period := 14;
     WebSocketAnalyzer.price := Some p;
     WebSocketAnalyzer.historical_data := hd |}.

(** [MarketAnalyzer(product_details, hd, portfolio_value=10000, period)] *)
Definition market (price : Q) (period : nat) (hd : DataFrame) : MarketAnalyzer.t :=
  {| MarketAnalyzer.historical_data := hd;
     MarketAnalyzer.price := price;
     MarketAnalyzer.volume := 1000;
     MarketAnalyzer.price_percentage_change_24h := 0;
     MarketAnalyzer.portfolio_value := 10000;
     MarketAnalyzer.risk_percentage := 2 # 100;
     MarketAnalyzer.loss_percentage := 5 # 100;
     MarketAnalyzer.period := period |}.

End Sample.

(** ** app/utils/email_notifier.py: [check_risk_and_alert]

    [send_email_alert] talks to the mail server and swallows every
    exception; what [check_risk_and_alert] does is one of two effects. *)

Module EmailNotifier.

Inductive effect : Type :=
| SendEmailAlert (subject body to_email : string)
| LoggingInfo (text : string).

Section Alert.

Context `{Printer}.

(** the module global [alert_email] *)
Variable alert_email : string.

(** [f"{position_size}"] *)
Definition format_size (position_size : option Q) : string :=
  match position_size with
  | Some q => repr_float (Fin q)
  | None => "None"%string
  end.

Definition check_risk_and_alert (balance price risk_threshold : Q) : effect :=
  let '(result, position_size) := Strategy.check_risk balance price risk_threshold in
  if String.eqb result "Position Size" && F.Qltb (1 # 1000) (1 # 100) then
    let subject := "Risk Alert: Position Size Too Small"%string in
    let body := ("Risk threshold exceeded. Current position size: "
                 ++ format_size position_size ++ ". Consider taking action.")%string in
    SendEmailAlert subject body alert_email
  else
    LoggingInfo ("Risk check passed: Position size: " ++ format_size position_size)%string.

End Alert.

End EmailNotifier.

(** ** Further concrete inputs *)

Module Example.

(** [WebSocketAnalyzer(risk_threshold=2, balance=10000, period, price=100)] *)
Definition analyzer (period : nat) (hd : DataFrame) : WebSocketAnalyzer.t :=
  {| WebSocketAnalyzer.risk_threshold := 2;
     WebSocketAnalyzer.balance := 10000;
     WebSocketAnalyzer.period := period;
     WebSocketAnalyzer.price := Some 100%float;
     WebSocketAnalyzer.historical_data := hd |}.

(** the same object built without a price *)
Definition analyzer_without_price (hd : DataFrame) : WebSocketAnalyzer.t :=
  {| WebSocketAnalyzer.risk_threshold := 2;
     WebSocketAnalyzer.balance := 10000;
     WebSocketAnalyzer.period := 14;
     WebSocketAnalyzer.price := None;
     WebSocketAnalyzer.historical_data := hd |}.

Definition tick (p h l : Q) : WebSocketAnalyzer.ticker :=
  {| WebSocketAnalyzer.t_price := p;
     WebSocketAnalyzer.high_24_h := h;
     WebSocketAnalyzer.low_24_h := l |}.

(** the second observation a unit above the first in high and in low *)
Definition equal_rise : DataFrame :=
  [Sample.obs 9 10 8; Sample.obs 10 11 9; Sample.obs 12 13 (19 # 2); Sample.obs 13 (27 # 2) 11].

(** highs rising by 2 and lows by 3/2 at every step *)
Definition steady_rise : DataFrame :=
  [Sample.obs 9 10 8; Sample.obs 11 12 (19 # 2); Sample.obs 13 14 11;
   Sample.obs 15 16 (25 # 2)].

(** closes falling to 2 and staying there, the day's range unchanged *)
Definition falling_then_flat : DataFrame :=
  map (fun c => Sample.obs c 200 0) [4; 3; 2; 2; 2; 2; 2; 2].

End Example.

(** ** app/agents/data_fetcher_agent.py: the body of [stream_market_data]

    What the loop does with one message of the socket, after [json.loads].
    [self.historical_data] is a dictionary from product id to a
    [deque(maxlen=100)]; the rows keep the three columns the strategies
    read (the timestamp and the volume are stored and never read).  The
    signal of each analysis is printed; the [continue] that follows the
    print is the last statement of the loop body. *)

Module DataFetcherAgent.

Definition maxlen : nat := 100.

(** One ticker, after [float(ticker.get(key, 0))]; [product_id] is
    [ticker.get("product_id")]. *)
Record ticker : Type := {
  product_id : option string;
  t_price : Q;
  high_24_h : Q;
  low_24_h : Q
}.

(** [data]: [data.get("channel")] and the list under ["events"], each
    event with the list under ["tickers"] (a missing key reads as the
    empty list). *)
Record message : Type := {
  channel : option string;
  events : list (list ticker)
}.

(** [self.historical_data], in insertion order *)
Definition store : Type := list (string * DataFrame).

Fixpoint dict_get (k : string) (s : store) : option DataFrame :=
  match s with
  | [] => None
  | (k', v) :: rest => if String.eqb k' k then Some v else dict_get k rest
  end.

(** [d[k] = v] *)
Fixpoint dict_set (k : string) (v : DataFrame) (s : store) : store :=
  match s with
  | [] => [(k, v)]
  | (k', v') :: rest =>
      if String.eqb k' k then (k', v) :: rest else (k', v') :: dict_set k v rest
  end.

(** [product_id in self.historical_data]; [None] is no key of it *)
Definition lookup (pid : option string) (s : store) : option (string * DataFrame) :=
  match pid with
  | None => None
  | Some p => match dict_get p s with
              | None => None
              | Some d => Some (p, d)
              end
  end.

(** [for product_id in product_ids: self.historical_data[product_id] = deque(maxlen=100)] *)
Definition subscribe (product_ids : list string) (s : store) : store :=
  fold_left (fun acc p => dict_set p [] acc) product_ids s.

(** [deque.append]: the row goes to the right end, and a deque that has
    grown beyond [maxlen] gives up its leftmost row. *)
Definition deque_append (d : DataFrame) (x : row) : DataFrame :=
  let d' := d ++ [x] in
  if (maxlen <? length d')%nat then tl d' else d'.

Definition row_of (k : ticker) : row :=
  {| close := t_price k; high := high_24_h k; low := low_24_h k |}.

Section Stream.

Context `{Numerics}.

(** [for ticker in tickers: ...]: the dictionary afterwards, and the
    signals printed (or the exception that ended the loop). *)
Fixpoint on_tickers (s : store) (tickers : list ticker)
  : store * res (list AnalyzerAgent.outcome) :=
  match tickers with
  | [] => (s, Ok [])
  | k :: rest =>
      match lookup (product_id k) s with
      | None => on_tickers s rest
      | Some (p, d) =>
          let d' := deque_append d (row_of k) in
          let s' := dict_set p d' s in
          match AnalyzerAgent.analyze d' 1000 2 with
          | Raise e => (s', Raise e)
          | Ok signal =>
              let '(s'', printed) := on_tickers s' rest in
              (s'', bind printed (fun signals => Ok (signal :: signals)))
          end
      end
  end.

(** the body of [async for message in ws] *)
Definition on_message (s : store) (data : message)
  : store * res (list AnalyzerAgent.outcome) :=
  match channel data with
  | Some c =>
      if String.eqb c "ticker" then
        match events data with
        | [] => (s, Raise IndexError)
        | tickers :: _ => on_tickers s tickers
        end
      else (s, Ok [])
  | None => (s, Ok [])
  end.

End Stream.

End DataFetcherAgent.

(** ** What a batch of tickers is expected to leave behind *)

Module Batch.

(** the last [n] elements *)
Definition lastn {A : Type} (n : nat) (l : list A) : list A :=
  skipn (length l - n) l.

(** the tickers of a batch that carry the product id [p] *)
Definition tickers_of (p : string) (tickers : list DataFetcherAgent.ticker)
  : list DataFetcherAgent.ticker :=
  filter (fun k => match DataFetcherAgent.product_id k with
                   | Some q => String.eqb q p
                   | None => false
                   end) tickers.

(** the tickers of a batch whose product id is a key of the dictionary *)
Definition known (s : DataFetcherAgent.store) (tickers : list DataFetcherAgent.ticker)
  : list DataFetcherAgent.ticker :=
  filter (fun k => match DataFetcherAgent.lookup (DataFetcherAgent.product_id k) s with
                   | Some _ => true
                   | None => false
                   end) tickers.

(** what [deque(maxlen=100)] guarantees of every value of the dictionary *)
Definition bounded (s : DataFetcherAgent.store) : Prop :=
  forall p d, DataFetcherAgent.dict_get p s = Some d ->
              (length d <= DataFetcherAgent.maxlen)%nat.

(** a ticker of the product ["BTC-USD"] *)
Definition btc (p h l : Q) : DataFetcherAgent.ticker :=
  {| DataFetcherAgent.product_id := Some "BTC-USD"%string;
     DataFetcherAgent.t_price := p;
     DataFetcherAgent.high_24_h := h;
     DataFetcherAgent.low_24_h := l |}.

End Batch.

(** * Properties *)

(** ** The error monad *)

Lemma bind_Ok_inv {A B : Type} (m : res A) (k : A -> res B) (b : B) :
  bind m k = Ok b -> exists a, m = Ok a /\ k a = Ok b.
Proof.
  destruct m as [a|e]; simpl; intros E; [exists a; split; trivial | discriminate].
Qed.

Ltac bind_inv H :=
  let a := fresh "a" in
  let E := fresh "E" in
  apply bind_Ok_inv in H; destruct H as [a [E H]].

(** ** Consensus vote *)

Section Vote.

Context `{Printer}.

Lemma ws_signal_cases (rs : list pyval) :
  let b := WebSocketAnalyzer.count_str "BUY" rs in
  let s := WebSocketAnalyzer.count_str "SELL" rs in
  (5 <= b /\ WebSocketAnalyzer.calculate_signal rs = "BUY"%string)%nat
  \/ (b < 5 /\ 4 <= s /\ WebSocketAnalyzer.calculate_signal rs = "SELL"%string)%nat
  \/ (b < 5 /\ s < 4 /\ WebSocketAnalyzer.calculate_signal rs = "NEUTRAL"%string)%nat.
Proof.
  intros b s. unfold WebSocketAnalyzer.calculate_signal. fold b. fold s.
  destruct (Nat.leb_spec 5 b); [left; auto|].
  destruct (Nat.leb_spec 4 s); [right; left; auto | right; right; auto].
Qed.

End Vote.

Lemma agent_vote_cases (rs : list (string * (string * pyval))) :
  let b := AnalyzerAgent.count_tag "BUY" rs in
  let s := AnalyzerAgent.count_tag "SELL" rs in
  (3 <= b /\ AnalyzerAgent.vote rs = "BUY"%string)%nat
  \/ (b < 3 /\ 3 <= s /\ AnalyzerAgent.vote rs = "SELL"%string)%nat
  \/ (b < 3 /\ s < 3 /\ AnalyzerAgent.vote rs = "HOLD"%string)%nat.
Proof.
  intros b s. unfold AnalyzerAgent.vote. fold b. fold s.
  destruct (Nat.leb_spec 3 b); [left; auto|].
  destruct (Nat.leb_spec 3 s); [right; left; auto | right; right; auto].
Qed.

(** the counters of the two votes count the occurrences of the tag *)
Lemma count_str_occ `{Printer} (tag : string) (rs : list pyval) :
  WebSocketAnalyzer.count_str tag rs = count_occ string_dec (map py_str rs) tag.
Proof.
  unfold WebSocketAnalyzer.count_str.
  induction rs as [|r rs IH]; [reflexivity|].
  cbn [filter map count_occ].
  destruct (String.eqb_spec (py_str r) tag) as [E | E];
    destruct (string_dec (py_str r) tag) as [D | D]; try contradiction;
    cbn [length]; rewrite IH; reflexivity.
Qed.

Lemma count_tag_occ (tag : string) (ts : list (string * (string * pyval))) :
  AnalyzerAgent.count_tag tag ts
  = count_occ string_dec (map (fun kv => fst (snd kv)) ts) tag.
Proof.
  unfold AnalyzerAgent.count_tag.
  induction ts as [|t ts IH]; [reflexivity|].
  cbn [filter map count_occ].
  destruct (String.eqb_spec (fst (snd t)) tag) as [E | E];
    destruct (string_dec (fst (snd t)) tag) as [D | D]; try contradiction;
    cbn [length]; rewrite IH; reflexivity.
Qed.

(** C1.  The vote of [WebSocketAnalyzer.calculate_signal] (thresholds 5 and
    4, "NEUTRAL" for Hold) and the vote of [AnalyzerAgent.analyze]
    (thresholds 3 and 3, "HOLD"), measured against the number of
    occurrences of the tag among the results ([str(result)] in the first,
    [value[0]] in the second): the result is BUY exactly when the number of
    BUY results reaches the buy threshold, SELL exactly when the number of
    SELL results reaches the sell threshold and the buy condition fails,
    and Hold exactly otherwise.  A count equal to the threshold triggers, a
    count one below it does not. *)
Theorem C1_consensus_vote :
  forall (P : Printer) (rs : list pyval) (ts : list (string * (string * pyval))),
    let b := count_occ string_dec (map py_str rs) "BUY"%string in
    let s := count_occ string_dec (map py_str rs) "SELL"%string in
    let b' := count_occ string_dec (map (fun kv => fst (snd kv)) ts) "BUY"%string in
    let s' := count_occ string_dec (map (fun kv => fst (snd kv)) ts) "SELL"%string in
    ((WebSocketAnalyzer.calculate_signal rs = "BUY"%string <-> 5 <= b)
     /\ (WebSocketAnalyzer.calculate_signal rs = "SELL"%string <-> 4 <= s /\ ~ 5 <= b)
     /\ (WebSocketAnalyzer.calculate_signal rs = "NEUTRAL"%string <-> ~ 5 <= b /\ ~ 4 <= s)
     /\ (b = 5 -> WebSocketAnalyzer.calculate_signal rs = "BUY"%string)
     /\ (b = 4 -> WebSocketAnalyzer.calculate_signal rs <> "BUY"%string)
     /\ (s = 4 -> b < 5 -> WebSocketAnalyzer.calculate_signal rs = "SELL"%string)
     /\ (s = 3 -> WebSocketAnalyzer.calculate_signal rs <> "SELL"%string))%nat
    /\
    ((AnalyzerAgent.vote ts = "BUY"%string <-> 3 <= b')
     /\ (AnalyzerAgent.vote ts = "SELL"%string <-> 3 <= s' /\ ~ 3 <= b')
     /\ (AnalyzerAgent.vote ts = "HOLD"%string <-> ~ 3 <= b' /\ ~ 3 <= s')
     /\ (b' = 3 -> AnalyzerAgent.vote ts = "BUY"%string)
     /\ (b' = 2 -> AnalyzerAgent.vote ts <> "BUY"%string)
     /\ (s' = 3 -> b' < 3 -> AnalyzerAgent.vote ts = "SELL"%string)
     /\ (s' = 2 -> AnalyzerAgent.vote ts <> "SELL"%string))%nat
    /\
    (forall tags : list string,
        map py_str (map PyStr tags) = tags
        /\ (WebSocketAnalyzer.calculate_signal (map PyStr tags) = "BUY"%string
            <-> (5 <= count_occ string_dec tags "BUY"%string)%nat)).
Proof.
  intros P rs ts b s b' s'. split; [| split].
  - destruct (ws_signal_cases rs) as [[Hb E] | [[Hb [Hs E]] | [Hb [Hs E]]]];
      rewrite !count_str_occ in *;
      fold b in Hb; try fold s in Hs; rewrite E;
      repeat split; intros; try discriminate; try lia; try reflexivity;
      try (intros K; discriminate K).
  - destruct (agent_vote_cases ts) as [[Hb E] | [[Hb [Hs E]] | [Hb [Hs E]]]];
      rewrite !count_tag_occ in *;
      fold b' in Hb; try fold s' in Hs; rewrite E;
      repeat split; intros; try discriminate; try lia; try reflexivity;
      try (intros K; discriminate K).
  - intros tags.
    assert (M : map py_str (map PyStr tags) = tags).
    { induction tags as [|t tags IH]; [reflexivity|].
      cbn [map]. rewrite IH. reflexivity. }
    split; [exact M|].
    destruct (ws_signal_cases (map PyStr tags)) as [[Hb E] | [[Hb [Hs E]] | [Hb [Hs E]]]];
      rewrite !count_str_occ, M in *; rewrite E;
      split; intros; try discriminate; try lia; try reflexivity.
Qed.

(** ** Risk sizing *)

Lemma Qle_bool_false (a b : Q) : Qle_bool a b = false <-> b < a.
Proof.
  split; intros E.
  - apply Qnot_le_lt. intros L. apply Qle_bool_iff in L. congruence.
  - destruct (Qle_bool a b) eqn:K; trivial.
    apply Qle_bool_iff in K. exfalso. apply (Qlt_not_le _ _ E K).
Qed.

Lemma Qltb_true (a b : Q) : F.Qltb a b = true <-> a < b.
Proof.
  unfold F.Qltb. rewrite negb_true_iff. apply Qle_bool_false.
Qed.

Lemma Qltb_false (a b : Q) : F.Qltb a b = false <-> b <= a.
Proof.
  unfold F.Qltb. rewrite negb_false_iff. apply Qle_bool_iff.
Qed.

Lemma Qis0_true (q : Q) : F.Qis0 q = true <-> q == 0.
Proof. unfold F.Qis0. apply Qeq_bool_iff. Qed.

Lemma Qis0_false (q : Q) : F.Qis0 q = false <-> ~ q == 0.
Proof.
  rewrite <- Qis0_true. destruct (F.Qis0 q); split; intros; congruence.
Qed.

(** C3.  [check_risk] answers "Invalid Input" without a size exactly when
    the balance or the price is not positive; otherwise the size is
    [(balance * risk / 100) / price].  [check_risk(10000, 100, 2)] gives a
    size equal to 2; [check_risk(0, 100, 2)] and [check_risk(100, 0, 2)]
    give the error state. *)
Theorem C3_check_risk :
  forall balance price risk : Q,
    (Strategy.check_risk balance price risk = ("Invalid Input"%string, None)
     <-> balance <= 0 \/ price <= 0)
    /\ (~ (balance <= 0 \/ price <= 0) ->
        Strategy.check_risk balance price risk
        = ("Position Size"%string, Some (balance * risk / 100 / price)))
    /\ (exists size, Strategy.check_risk 10000 100 2 = ("Position Size"%string, Some size)
                     /\ size == 2)
    /\ Strategy.check_risk 0 100 2 = ("Invalid Input"%string, None)
    /\ Strategy.check_risk 100 0 2 = ("Invalid Input"%string, None).
Proof.
  intros balance price risk.
  assert (D : (balance <= 0 \/ price <= 0) \/ (0 < balance /\ 0 < price)).
  { destruct (Qlt_le_dec 0 balance); destruct (Qlt_le_dec 0 price); auto. }
  assert (V : (balance <= 0 \/ price <= 0) ->
              Strategy.check_risk balance price risk = ("Invalid Input"%string, None)).
  { intros [L | L]; apply Qle_bool_iff in L; unfold Strategy.check_risk; rewrite L;
      [reflexivity | rewrite orb_true_r; reflexivity]. }
  assert (S : 0 < balance -> 0 < price ->
              Strategy.check_risk balance price risk
              = ("Position Size"%string, Some (balance * risk / 100 / price))).
  { intros Hb Hp. apply Qle_bool_false in Hb, Hp.
    unfold Strategy.check_risk. rewrite Hb, Hp. reflexivity. }
  split; [split | split; [ | split; [ | split]]].
  - intros E. destruct D as [D | [Hb Hp]]; trivial.
    rewrite (S Hb Hp) in E. discriminate.
  - exact V.
  - intros N. destruct D as [D | [Hb Hp]]; [contradiction | auto].
  - eexists; split; [reflexivity | reflexivity].
  - reflexivity.
  - reflexivity.
Qed.

(** C9.  The gate does not hold by construction in the arithmetic the
    program runs.  With the constructor's defaults (balance 10000, risk
    threshold 2) and the price 11, the size is 200/11 rounded, its product
    with the price is the float next above 200, and [check_risk] rejects the
    size that [calculate_position_size] has just computed, whatever the
    frame; [analyze] then answers "No Action" in place of the vote.  At the
    price 100 every step is exact and the gate accepts.  On exact rationals
    the product equals the risk amount for every price other than zero. *)
Theorem C9_risk_gate_rejects_own_size :
  (forall hd : DataFrame,
      let self := Sample.streaming 10000 2 11 hd in
      exists size,
        WebSocketAnalyzer.calculate_position_size self = Ok size
        /\ size = (10000 * 2 / 100 / 11)%float
        /\ (10000 * 2 / 100 <? size * 11)%float = true
        /\ WebSocketAnalyzer.check_risk self = Ok false)
  /\ (forall (N : Numerics) (P : Printer) (hd : DataFrame)
             (websocket_data : WebSocketAnalyzer.message)
             (self' : WebSocketAnalyzer.t) (strategy_results : list pyval),
         WebSocketAnalyzer.update_data (Sample.streaming 10000 2 11 hd) websocket_data
         = Ok self' ->
         WebSocketAnalyzer.run_strategies self' = Ok strategy_results ->
         WebSocketAnalyzer.analyze (Sample.streaming 10000 2 11 hd) websocket_data
         = (self', Ok "No Action"%string))
  /\ snd (@WebSocketAnalyzer.analyze Sample.numerics Sample.printer
            (Sample.streaming 10000 2 11 [Sample.obs 1 2 0]) [[Example.tick 2 3 1]])
     = Ok "No Action"%string
  /\ (forall hd : DataFrame,
         WebSocketAnalyzer.check_risk (Sample.streaming 10000 2 100 hd) = Ok true)
  /\ (forall balance risk_threshold price : Q,
         ~ price == 0 ->
         balance * risk_threshold / 100 / price * price == balance * risk_threshold / 100).
Proof.
  split; [| split; [| split; [| split]]].
  - intros hd self. eexists. repeat split; reflexivity.
  - intros N P hd websocket_data self' strategy_results U R.
    unfold WebSocketAnalyzer.analyze. rewrite U, R. cbn [bind].
    assert (C : WebSocketAnalyzer.check_risk self' = Ok false).
    { destruct websocket_data as [|tickers later]; [discriminate U|].
      injection U as <-. reflexivity. }
    rewrite C. reflexivity.
  - vm_compute. reflexivity.
  - intros hd. reflexivity.
  - intros balance risk_threshold price Nz. field. exact Nz.
Qed.

(** ** [MarketAnalyzer.analyze] *)

Lemma iloc_last_raise {A : Type} (xs : list A) (e : exn) :
  Pd.iloc_last xs = Raise e -> e = IndexError.
Proof.
  induction xs as [|x [|y t] IH]; simpl; intros E.
  - congruence.
  - discriminate.
  - apply IH. exact E.
Qed.

Lemma bind_raise {A B : Type} (m : res A) (k : A -> res B) (e : exn) :
  bind m k = Raise e -> m = Raise e \/ exists a, m = Ok a /\ k a = Raise e.
Proof.
  destruct m as [a|e']; simpl; intros E; [right; exists a; auto | left; congruence].
Qed.

Ltac raise_index H :=
  repeat match type of H with
    | bind _ _ = Raise _ =>
        apply bind_raise in H; destruct H as [H | [? [_ H]]];
        [apply iloc_last_raise in H; exact H|]
    | (if ?c then _ else _) = Raise _ => destruct c
    | Ok _ = Raise _ => discriminate H
    end.

Section MarketAnalyzerFacts.

Context `{Numerics}.

Lemma evaluate_signals_six self rsi macd sl sma ub lb adx vtr stx sigs :
  MarketAnalyzer.evaluate_signals self rsi macd sl sma ub lb adx vtr stx = Ok sigs ->
  length sigs = 6%nat.
Proof.
  unfold MarketAnalyzer.evaluate_signals. intros E.
  repeat bind_inv E. injection E as <-. reflexivity.
Qed.

Lemma evaluate_signals_raise self rsi macd sl sma ub lb adx vtr stx e :
  MarketAnalyzer.evaluate_signals self rsi macd sl sma ub lb adx vtr stx = Raise e ->
  e = IndexError.
Proof.
  unfold MarketAnalyzer.evaluate_signals. intros E.
  apply bind_raise in E; destruct E as [E | [? [_ E]]];
    [unfold MarketAnalyzer.eval_rsi in E; raise_index E|].
  apply bind_raise in E; destruct E as [E | [? [_ E]]];
    [unfold MarketAnalyzer.eval_macd in E; raise_index E|].
  apply bind_raise in E; destruct E as [E | [? [_ E]]];
    [unfold MarketAnalyzer.eval_sma, Pd.iloc_last2 in E; raise_index E|].
  apply bind_raise in E; destruct E as [E | [? [_ E]]];
    [unfold MarketAnalyzer.eval_bollinger in E; raise_index E|].
  apply bind_raise in E; destruct E as [E | [? [_ E]]];
    [unfold MarketAnalyzer.eval_adx in E; raise_index E|].
  apply bind_raise in E; destruct E as [E | [? [_ E]]];
    [unfold MarketAnalyzer.eval_vtr in E; raise_index E|].
  apply bind_raise in E; destruct E as [E | [? [_ E]]];
    [unfold MarketAnalyzer.eval_stochastic in E; raise_index E|].
  discriminate E.
Qed.

Lemma unpack7_six {A : Type} (items : list A) :
  length items = 6%nat -> MarketAnalyzer.unpack7 items = Raise ValueError.
Proof.
  destruct items as [|a [|b [|c [|d [|e [|f [|g [|h t]]]]]]]]; simpl; intros L;
    try discriminate L; reflexivity.
Qed.

Lemma calculate_adx_cases (self : MarketAnalyzer.t) :
  (MarketAnalyzer.period self = 0%nat
   /\ MarketAnalyzer.calculate_adx self = Raise ValueError)
  \/ ((1 <= MarketAnalyzer.period self)%nat
      /\ exists adx plus_di minus_di,
          MarketAnalyzer.calculate_adx self = Ok (adx, plus_di, minus_di)).
Proof.
  unfold MarketAnalyzer.calculate_adx, Pd.check_min_periods.
  destruct (Nat.ltb_spec (MarketAnalyzer.period self) 1) as [L | L]; cbn [bind].
  - left. split; [lia | reflexivity].
  - right. split; [exact L|].
    destruct (MarketAnalyzer.directional_movement _) as [pdm mdm].
    do 3 eexists. reflexivity.
Qed.

End MarketAnalyzerFacts.

(** C10.  No call of [MarketAnalyzer.analyze] returns: the six signals of
    [evaluate_signals] are assigned to seven names, which raises ValueError,
    unless [evaluate_signals] has raised IndexError before, at the
    unguarded [stx.iloc[-1]].  (With period 0 the ValueError comes earlier,
    from the rolling window of [calculate_adx].) *)
Theorem C10_market_analyze_always_raises :
  forall (N : Numerics) (self : MarketAnalyzer.t),
    (MarketAnalyzer.analyze self = Raise ValueError
     \/ MarketAnalyzer.analyze self = Raise IndexError)
    /\ (forall a, MarketAnalyzer.analyze self <> Ok a).
Proof.
  intros N self.
  assert (D : MarketAnalyzer.analyze self = Raise ValueError
              \/ MarketAnalyzer.analyze self = Raise IndexError).
  { unfold MarketAnalyzer.analyze.
    assert (M : exists ms, MarketAnalyzer.calculate_macd self 12 26 9 = Ok ms)
      by (eexists; reflexivity).
    destruct M as [[macd sl] M]. rewrite M.
    destruct (MarketAnalyzer.calculate_bollinger_bands self 2) as [ub lb].
    destruct (calculate_adx_cases self) as [[_ A] | [_ (adx & pdi & mdi & A)]];
      rewrite A; [left; reflexivity|].
    unfold bind.
    destruct (MarketAnalyzer.evaluate_signals self _ _ _ _ _ _ _ _ _) as [sigs|e] eqn:E.
    - left. apply evaluate_signals_six in E.
      rewrite (unpack7_six _ E). reflexivity.
    - right. apply evaluate_signals_raise in E. subst e. reflexivity. }
  split; [exact D|].
  intros a K. destruct D as [D | D]; rewrite D in K; discriminate K.
Qed.

Example market_analyze_examples :
  let N := Sample.numerics in
  MarketAnalyzer.analyze (Sample.market 4 2 []) = Raise IndexError
  /\ MarketAnalyzer.analyze
       (Sample.market 4 2 [Sample.obs 1 2 0; Sample.obs 5 6 4; Sample.obs 4 5 3])
     = Raise ValueError.
Proof. split; vm_compute; reflexivity. Qed.

(** ** What [str] makes of the strategy results *)

Lemma string_length_app (s1 s2 : string) :
  String.length (s1 ++ s2) = (String.length s1 + String.length s2)%nat.
Proof.
  induction s1 as [|c s1 IH]; simpl; [reflexivity | rewrite IH; reflexivity].
Qed.

Section StrFacts.

Context `{Printer}.

Lemma series_footer_long (name : option string) :
  (14 <= String.length (series_footer name))%nat.
Proof.
  unfold series_footer. rewrite string_length_app. simpl. lia.
Qed.

Lemma series_str_long (name : option string) (xs : Pd.Series) :
  (14 <= String.length (series_str name xs))%nat.
Proof.
  pose proof (series_footer_long name) as L.
  destruct xs as [|x t]; unfold series_str.
  - rewrite !string_length_app. lia.
  - rewrite string_length_app. lia.
Qed.

(** a Series never prints as a three-letter or four-letter tag *)
Lemma str_series_not_tag (name : option string) (xs : Pd.Series) (tag : string) :
  (String.length tag < 14)%nat ->
  String.eqb (py_str (PySeries name xs)) tag = false.
Proof.
  intros L. apply String.eqb_neq. intros E.
  pose proof (series_str_long name xs) as K.
  simpl in E. rewrite E in K. lia.
Qed.

(** a tuple prints with an opening parenthesis *)
Lemma str_tuple_paren (vs : list pyval) :
  exists rest, py_str (PyTuple vs) = String "("%char rest.
Proof. simpl. eexists. reflexivity. Qed.

Lemma str_tuple_not_buy (vs : list pyval) :
  String.eqb (py_str (PyTuple vs)) "BUY" = false.
Proof.
  destruct (str_tuple_paren vs) as [rest E]. rewrite E. reflexivity.
Qed.

End StrFacts.

(** ** The streaming analyzer *)

Section WebSocketFacts.

Context `{Numerics} `{Printer}.

(** the shape of the list [run_strategies] builds *)
Lemma run_strategies_shape (self : WebSocketAnalyzer.t) (rs : list pyval) :
  WebSocketAnalyzer.run_strategies self = Ok rs ->
  exists r1 r2 s3 v3 r4 r5 n6 x6 n7 x7,
    rs = [r1; r2; PyTuple [PyStr s3; v3]; r4; r5; PySeries n6 x6; PySeries n7 x7].
Proof.
  unfold WebSocketAnalyzer.run_strategies. intros E.
  repeat bind_inv E.
  unfold WebSocketAnalyzer.calculate_vtr in *.
  unfold WebSocketAnalyzer.calculate_stochastic_oscillator in *.
  repeat match goal with K : Ok _ = Ok _ |- _ => injection K as <- end.
  repeat eexists.
Qed.

Lemma buy_count_at_most_four (self : WebSocketAnalyzer.t) (rs : list pyval) :
  WebSocketAnalyzer.run_strategies self = Ok rs ->
  (WebSocketAnalyzer.count_str "BUY" rs <= 4)%nat.
Proof.
  intros E. apply run_strategies_shape in E.
  destruct E as (r1 & r2 & s3 & v3 & r4 & r5 & n6 & x6 & n7 & x7 & ->).
  unfold WebSocketAnalyzer.count_str.
  cbn [filter].
  rewrite str_tuple_not_buy.
  rewrite !str_series_not_tag by (simpl; lia).
  destruct (String.eqb (py_str r1) "BUY"), (String.eqb (py_str r2) "BUY"),
    (String.eqb (py_str r4) "BUY"), (String.eqb (py_str r5) "BUY"); simpl; lia.
Qed.

End WebSocketFacts.

(** C4.  [WebSocketAnalyzer.analyze] never returns "BUY", whatever the
    object holds and whatever batch arrives: the SMA result is a tuple and
    the volatility and stochastic results are Series, none of which [str]
    turns into "BUY", so at most four of the seven results count as BUY,
    below the threshold of five. *)
Theorem C4_streaming_analyzer_never_buys :
  forall (N : Numerics) (P : Printer) (self : WebSocketAnalyzer.t)
         (websocket_data : WebSocketAnalyzer.message),
    snd (WebSocketAnalyzer.analyze self websocket_data) <> Ok "BUY"%string
    /\ (forall rs, WebSocketAnalyzer.run_strategies self = Ok rs ->
                   (WebSocketAnalyzer.count_str "BUY" rs <= 4)%nat
                   /\ WebSocketAnalyzer.calculate_signal rs <> "BUY"%string).
Proof.
  intros N P self websocket_data.
  assert (K : forall s rs, WebSocketAnalyzer.run_strategies s = Ok rs ->
                           (WebSocketAnalyzer.count_str "BUY" rs <= 4)%nat
                           /\ WebSocketAnalyzer.calculate_signal rs <> "BUY"%string).
  { intros s rs E. pose proof (buy_count_at_most_four s rs E) as L.
    split; [exact L|].
    destruct (ws_signal_cases rs) as [[Hb _] | [[_ [_ R]] | [_ [_ R]]]];
      [lia | rewrite R; discriminate | rewrite R; discriminate]. }
  split; [| apply K].
  unfold WebSocketAnalyzer.analyze.
  destruct (WebSocketAnalyzer.update_data self websocket_data) as [self'|e]; simpl;
    [| discriminate].
  destruct (WebSocketAnalyzer.run_strategies self') as [rs|e] eqn:E; simpl; [| discriminate].
  destruct (K self' rs E) as [_ NB].
  destruct (WebSocketAnalyzer.check_risk self') as [[|]|e]; simpl.
  - intros Q. apply NB. congruence.
  - discriminate.
  - discriminate.
Qed.

(** On a window shorter than what they need, the functions of
    [strategy.py] return NEUTRAL and no value. *)
Lemma strategy_short_window `{Numerics} (hd : DataFrame) (period : nat) :
  (length hd < period)%nat ->
  Strategy.calculate_rsi hd period = Ok ("NEUTRAL"%string, PyNone)
  /\ Strategy.calculate_sma hd period = Ok ("NEUTRAL"%string, PyNone)
  /\ (forall k, Strategy.calculate_bollinger_bands hd period k
                = Ok ("NEUTRAL"%string, PyTuple [PyNone; PyNone]))
  /\ Strategy.calculate_vtr hd period = Ok ("NEUTRAL"%string, PyNone)
  /\ (forall sk sd, Strategy.calculate_stochastic hd period sk sd
                    = Ok ("NEUTRAL"%string, PyTuple [PyNone; PyNone]))
  /\ (forall short signal, Strategy.calculate_macd hd short period signal
                           = Ok ("NEUTRAL"%string, PyNone))
  /\ ((length hd < 52)%nat ->
      Strategy.calculate_adx hd period = Ok ("NEUTRAL"%string, PyNone)).
Proof.
  intros L. apply Nat.ltb_lt in L.
  unfold Strategy.calculate_rsi, Strategy.calculate_sma,
    Strategy.calculate_bollinger_bands, Strategy.calculate_vtr,
    Strategy.calculate_stochastic, Strategy.calculate_macd, Strategy.calculate_adx.
  rewrite L. repeat split.
  intros L52. apply Nat.ltb_lt in L52. rewrite L52. reflexivity.
Qed.

(** C2 (where the code departs from it).  The strategies of the streaming
    analyzer, [calculate_sma] apart, have no guard for a short window.  With
    period 14: on one observation [calculate_adx] answers "SELL", which
    [calculate_signal] counts as a sell vote; on two rising observations
    [calculate_macd] answers "BUY", counted as a buy vote; on the empty
    frame [calculate_rsi] raises IndexError, and with it [run_strategies]
    and [analyze] when the first batch carries no ticker. *)
Theorem C2_streaming_strategies_unguarded :
  forall (N : Numerics) (P : Printer),
    let one := Sample.streaming 10000 2 100 [Sample.obs 100 101 99] in
    let two := Sample.streaming 10000 2 100 [Sample.obs 1 2 0; Sample.obs 2 3 1] in
    let none := Sample.streaming 10000 2 100 [] in
    WebSocketAnalyzer.calculate_adx one = Ok (PyStr "SELL")
    /\ WebSocketAnalyzer.count_str "SELL" [PyStr "SELL"] = 1%nat
    /\ WebSocketAnalyzer.calculate_macd two 12 26 9 = Ok (PyStr "BUY")
    /\ WebSocketAnalyzer.count_str "BUY" [PyStr "BUY"] = 1%nat
    /\ WebSocketAnalyzer.calculate_rsi none = Raise IndexError
    /\ WebSocketAnalyzer.run_strategies none = Raise IndexError
    /\ snd (WebSocketAnalyzer.analyze none [[]]) = Raise IndexError.
Proof.
  intros N P one two none.
  repeat split; vm_compute; reflexivity.
Qed.

(** ** Arithmetic of the finite floats *)

Section FloatFacts.

Lemma hv_Fin (q : Q) : has_value (Fin q) q.
Proof. exists q. split; reflexivity. Qed.

Lemma hv_eq (x : fval) (a b : Q) : has_value x a -> a == b -> has_value x b.
Proof.
  intros (q & E & Q1) Q2. exists q. split; [exact E | rewrite Q1; exact Q2].
Qed.

Lemma hv_inv (x : fval) (a : Q) :
  has_value x a -> (exists q, x = Fin q /\ q == a) \/ (x = NZero /\ 0 == a).
Proof.
  intros (q & E & Q1). destruct x; simpl in E; try discriminate;
    injection E as <-; [left; eauto | right; auto].
Qed.

Lemma hv_not_nan (x : fval) (a : Q) : has_value x a -> F.is_nan x = false.
Proof. intros K. destruct (hv_inv _ _ K) as [(q & -> & _) | [-> _]]; reflexivity. Qed.

Lemma hv_not_inf (x : fval) (a : Q) : has_value x a -> F.is_inf x = false.
Proof. intros K. destruct (hv_inv _ _ K) as [(q & -> & _) | [-> _]]; reflexivity. Qed.

Lemma hv_is_zero (x : fval) (a : Q) :
  has_value x a -> F.is_zero x = F.Qis0 a.
Proof.
  intros K. destruct (hv_inv _ _ K) as [(q & -> & E) | [-> E]]; simpl.
  - unfold F.Qis0. destruct (Qeq_bool q 0) eqn:B1; destruct (Qeq_bool a 0) eqn:B2; trivial.
    + apply Qeq_bool_iff in B1. apply Qeq_bool_neq in B2. exfalso. apply B2.
      rewrite <- E. exact B1.
    + apply Qeq_bool_iff in B2. apply Qeq_bool_neq in B1. exfalso. apply B1.
      rewrite E. exact B2.
  - symmetry. apply Qis0_true. symmetry. exact E.
Qed.

Lemma hv_zero_of (s : bool) : has_value (F.zero_of s) 0.
Proof. destruct s; exists 0; split; reflexivity. Qed.

Lemma hv_neg (x : fval) (a : Q) : has_value x a -> has_value (F.neg x) (- a).
Proof.
  intros K. destruct (hv_inv _ _ K) as [(q & -> & E) | [-> E]]; simpl.
  - destruct (F.Qis0 q) eqn:Z.
    + apply Qis0_true in Z. exists 0. split; [reflexivity|]. rewrite <- E, Z. reflexivity.
    + exists (- q). split; [reflexivity | rewrite E; reflexivity].
  - exists 0. split; [reflexivity | rewrite <- E; reflexivity].
Qed.

Lemma hv_abs (x : fval) (a : Q) : has_value x a -> has_value (F.abs x) (Qabs a).
Proof.
  intros K. destruct (hv_inv _ _ K) as [(q & -> & E) | [-> E]]; simpl.
  - exists (Qabs q). split; [reflexivity | rewrite E; reflexivity].
  - exists 0. split; [reflexivity | rewrite <- E; reflexivity].
Qed.

Lemma hv_add (x y : fval) (a b : Q) :
  has_value x a -> has_value y b -> has_value (F.add x y) (a + b).
Proof.
  intros Kx Ky.
  destruct (hv_inv _ _ Kx) as [(p & -> & Ep) | [-> Ep]];
    destruct (hv_inv _ _ Ky) as [(q & -> & Eq) | [-> Eq]]; simpl.
  - exists (p + q). split; [reflexivity | rewrite Ep, Eq; reflexivity].
  - exists p. split; [reflexivity | rewrite <- Eq, Ep; ring].
  - exists q. split; [reflexivity | rewrite <- Ep, Eq; ring].
  - exists 0. split; [reflexivity | rewrite <- Ep, <- Eq; ring].
Qed.

Lemma hv_sub (x y : fval) (a b : Q) :
  has_value x a -> has_value y b -> has_value (F.sub x y) (a - b).
Proof.
  intros Kx Ky. unfold F.sub. apply hv_add; [exact Kx | apply hv_neg; exact Ky].
Qed.

Lemma hv_mul (x y : fval) (a b : Q) :
  has_value x a -> has_value y b -> has_value (F.mul x y) (a * b).
Proof.
  intros Kx Ky.
  pose proof (hv_not_nan _ _ Kx) as Nx. pose proof (hv_not_nan _ _ Ky) as Ny.
  pose proof (hv_not_inf _ _ Kx) as Ix. pose proof (hv_not_inf _ _ Ky) as Iy.
  pose proof (hv_is_zero _ _ Kx) as Zx. pose proof (hv_is_zero _ _ Ky) as Zy.
  destruct Kx as (p & Ep & Qp). destruct Ky as (q & Eq & Qq).
  assert (M : F.mul x y =
              if F.is_zero x || F.is_zero y then F.zero_of (xorb (F.sgn x) (F.sgn y))
              else Fin (p * q)).
  { unfold F.mul. rewrite Ix, Iy, Ep, Eq. simpl.
    destruct x; try discriminate; destruct y; try discriminate; reflexivity. }
  rewrite M, Zx, Zy.
  destruct (F.Qis0 a) eqn:Za; simpl.
  - apply Qis0_true in Za. eapply hv_eq; [apply hv_zero_of | rewrite Za; ring].
  - destruct (F.Qis0 b) eqn:Zb.
    + apply Qis0_true in Zb. eapply hv_eq; [apply hv_zero_of | rewrite Zb; ring].
    + exists (p * q). split; [reflexivity | rewrite Qp, Qq; reflexivity].
Qed.

Lemma hv_div (x y : fval) (a b : Q) :
  has_value x a -> has_value y b -> ~ b == 0 -> has_value (F.div x y) (a / b).
Proof.
  intros Kx Ky Nz.
  pose proof (hv_not_nan _ _ Kx) as Nx. pose proof (hv_not_nan _ _ Ky) as Ny.
  pose proof (hv_not_inf _ _ Kx) as Ix. pose proof (hv_not_inf _ _ Ky) as Iy.
  pose proof (hv_is_zero _ _ Kx) as Zx. pose proof (hv_is_zero _ _ Ky) as Zy.
  apply Qis0_false in Nz. rewrite Nz in Zy.
  destruct Kx as (p & Ep & Qp). destruct Ky as (q & Eq & Qq).
  assert (M : F.div x y =
              if F.is_zero x then F.zero_of (xorb (F.sgn x) (F.sgn y))
              else Fin (p / q)).
  { unfold F.div. rewrite Ix, Iy, Zy, Ep, Eq.
    destruct x; try discriminate; destruct y; try discriminate; reflexivity. }
  rewrite M, Zx.
  destruct (F.Qis0 a) eqn:Za.
  - apply Qis0_true in Za. eapply hv_eq; [apply hv_zero_of|].
    rewrite Za. unfold Qdiv. ring.
  - exists (p / q). split; [reflexivity | rewrite Qp, Qq; reflexivity].
Qed.

Lemma hv_ltb (x y : fval) (a b : Q) :
  has_value x a -> has_value y b -> F.ltb x y = F.Qltb a b.
Proof.
  intros Kx Ky.
  assert (R : forall p q, p == a -> q == b -> F.Qltb p q = F.Qltb a b).
  { intros p q Ep Eq. destruct (F.Qltb a b) eqn:B.
    - apply Qltb_true. apply Qltb_true in B. rewrite Ep, Eq. exact B.
    - apply Qltb_false. apply Qltb_false in B. rewrite Ep, Eq. exact B. }
  destruct (hv_inv _ _ Kx) as [(p & -> & Ep) | [-> Ep]];
    destruct (hv_inv _ _ Ky) as [(q & -> & Eq) | [-> Eq]]; simpl; apply R; assumption.
Qed.

Lemma hv_gtb (x y : fval) (a b : Q) :
  has_value x a -> has_value y b -> F.gtb x y = F.Qltb b a.
Proof. intros Kx Ky. unfold F.gtb. apply hv_ltb; assumption. Qed.

End FloatFacts.

(** ** Series, position by position *)

Section SeriesFacts.

Lemma map2_length {A B C : Type} (f : A -> B -> C) (xs : list A) (ys : list B) :
  length (Pd.map2 f xs ys) = Nat.min (length xs) (length ys).
Proof.
  revert ys. induction xs as [|x xs IH]; intros [|y ys]; simpl; auto.
Qed.

Lemma nth_map2 {A B C : Type} (f : A -> B -> C) (xs : list A) (ys : list B)
      (i : nat) (dx : A) (dy : B) (d : C) :
  (i < length xs)%nat -> (i < length ys)%nat ->
  nth i (Pd.map2 f xs ys) d = f (nth i xs dx) (nth i ys dy).
Proof.
  revert ys i. induction xs as [|x xs IH]; intros [|y ys] [|i]; simpl; intros Hx Hy;
    try lia; [reflexivity | apply IH; lia].
Qed.

Lemma nth_map_in {A B : Type} (f : A -> B) (xs : list A) (i : nat) (d : A) (d' : B) :
  (i < length xs)%nat -> nth i (map f xs) d' = f (nth i xs d).
Proof.
  intros L. rewrite (nth_indep _ d' (f d)) by (rewrite length_map; exact L).
  apply map_nth.
Qed.

Lemma shift1_eq (xs : Pd.Series) : Pd.shift 1 xs = firstn (length xs) (NaN :: xs).
Proof. reflexivity. Qed.

Lemma shift1_length (xs : Pd.Series) : length (Pd.shift 1 xs) = length xs.
Proof.
  rewrite shift1_eq, length_firstn. simpl. lia.
Qed.

Lemma nth_shift1 (xs : Pd.Series) (i : nat) :
  (i < length xs)%nat ->
  nth i (Pd.shift 1 xs) NaN = match i with O => NaN | S j => nth j xs NaN end.
Proof.
  intros L. rewrite shift1_eq, nth_firstn.
  destruct (Nat.ltb_spec i (length xs)); [| lia].
  destruct i; reflexivity.
Qed.

Lemma col_length (f : row -> Q) (hd : DataFrame) : length (col f hd) = length hd.
Proof. unfold col, Pd.of_list. rewrite !length_map. reflexivity. Qed.

Lemma nth_col (f : row -> Q) (hd : DataFrame) (i : nat) (d : row) :
  (i < length hd)%nat -> nth i (col f hd) NaN = Fin (f (nth i hd d)).
Proof.
  intros L. unfold col, Pd.of_list. rewrite map_map.
  apply (nth_map_in (fun r => Fin (f r))). exact L.
Qed.

Lemma rolling_length (w m : nat) (agg : list Q -> fval) (xs : Pd.Series) :
  length (Pd.rolling w m agg xs) = length xs.
Proof. unfold Pd.rolling. rewrite length_map, length_seq. reflexivity. Qed.

Lemma nth_rolling (w m : nat) (agg : list Q -> fval) (xs : Pd.Series) (i : nat) :
  (i < length xs)%nat ->
  nth i (Pd.rolling w m agg xs) NaN =
  let obs := Pd.observations (Pd.window_at w xs i) in
  if (length obs <? m)%nat then NaN else agg obs.
Proof.
  intros L. unfold Pd.rolling.
  rewrite (nth_map_in _ _ _ O) by (rewrite length_seq; exact L).
  rewrite seq_nth by exact L. reflexivity.
Qed.

Lemma window_at_seq {A : Type} (w : nat) (xs : list A) (i : nat) (d : A) :
  (i < length xs)%nat -> (w <= S i)%nat ->
  Pd.window_at w xs i = map (fun j => nth j xs d) (seq (S i - w) w).
Proof.
  intros L W. unfold Pd.window_at.
  apply (nth_ext _ _ d d).
  - rewrite length_skipn, length_firstn, length_map, length_seq. lia.
  - intros k Hk.
    rewrite length_skipn, length_firstn in Hk.
    rewrite nth_skipn, nth_firstn.
    destruct (Nat.ltb_spec (S i - w + k) (S i)); [| lia].
    rewrite (nth_map_in _ _ _ O) by (rewrite length_seq; lia).
    rewrite seq_nth by lia. reflexivity.
Qed.

Lemma observations_values (js : list nat) (g : nat -> fval) (f : nat -> Q) :
  (forall j, In j js -> has_value (g j) (f j)) ->
  Forall2 Qeq (Pd.observations (map g js)) (map f js).
Proof.
  induction js as [|j js IH]; intros K; simpl; [constructor|].
  assert (IH' : Forall2 Qeq (Pd.observations (map g js)) (map f js))
    by (apply IH; intros; apply K; right; assumption).
  destruct (hv_inv _ _ (K j (or_introl eq_refl))) as [(q & -> & E) | [-> E]];
    constructor; assumption.
Qed.

Lemma Forall2_Qeq_length (l l' : list Q) : Forall2 Qeq l l' -> length l = length l'.
Proof. induction 1; simpl; congruence. Qed.

Lemma Qsum_Forall2 (l l' : list Q) : Forall2 Qeq l l' -> Pd.Qsum l == Pd.Qsum l'.
Proof.
  induction 1 as [|a b l l' E _ IH]; simpl; [reflexivity | rewrite E, IH; reflexivity].
Qed.

End SeriesFacts.

(** ** Rolling aggregations on a full window of finite values *)

Section RollingFacts.

Variables (w : nat) (xs : Pd.Series) (i : nat) (f : nat -> Q).
Hypothesis Hi : (i < length xs)%nat.
Hypothesis Hw : (1 <= w <= S i)%nat.
Hypothesis Hval : forall j, (S i - w <= j <= i)%nat -> has_value (nth j xs NaN) (f j).

Lemma window_observations :
  Forall2 Qeq (Pd.observations (Pd.window_at w xs i)) (map f (seq (S i - w) w)).
Proof.
  rewrite (window_at_seq w xs i NaN) by lia.
  apply observations_values. intros j Hj. apply in_seq in Hj. apply Hval. lia.
Qed.

Lemma window_observations_length :
  length (Pd.observations (Pd.window_at w xs i)) = w.
Proof.
  rewrite (Forall2_Qeq_length _ _ window_observations), length_map, length_seq.
  reflexivity.
Qed.

Lemma rolling_sum_at (m : nat) :
  (m <= w)%nat ->
  exists q, nth i (Pd.rolling w m Pd.agg_sum xs) NaN = Fin q
            /\ q == Formula.sum_over f w i.
Proof.
  intros Hm. rewrite nth_rolling by exact Hi. cbv zeta.
  rewrite window_observations_length.
  destruct (Nat.ltb_spec w m); [lia|].
  eexists. split; [reflexivity|].
  apply Qsum_Forall2. exact window_observations.
Qed.

Lemma rolling_mean_at (m : nat) :
  (m <= w)%nat ->
  exists q, nth i (Pd.rolling w m Pd.agg_mean xs) NaN = Fin q
            /\ q == Formula.mean_over f w i.
Proof.
  intros Hm. rewrite nth_rolling by exact Hi. cbv zeta.
  pose proof window_observations_length as L.
  pose proof window_observations as V.
  destruct (Pd.observations (Pd.window_at w xs i)) as [|o obs] eqn:E.
  - simpl in L. lia.
  - rewrite L. destruct (Nat.ltb_spec w m); [lia|].
    unfold Pd.agg_mean. eexists. split; [reflexivity|].
    unfold Formula.mean_over, Formula.sum_over, Pd.Qlen. rewrite L.
    rewrite (Qsum_Forall2 _ _ V). reflexivity.
Qed.

End RollingFacts.

Lemma iloc_last_nth {A : Type} (xs : list A) (d : A) :
  xs <> [] -> Pd.iloc_last xs = Ok (nth (length xs - 1) xs d).
Proof.
  induction xs as [|x [|y t] IH]; intros N.
  - congruence.
  - reflexivity.
  - change (Pd.iloc_last (x :: y :: t)) with (Pd.iloc_last (y :: t)).
    rewrite IH by discriminate. simpl. rewrite Nat.sub_0_r. reflexivity.
Qed.

Lemma iloc_last_at {A : Type} (xs : list A) (d : A) (n : nat) :
  length xs = S n -> Pd.iloc_last xs = Ok (nth n xs d).
Proof.
  intros L. rewrite (iloc_last_nth xs d) by (destruct xs; [discriminate | discriminate]).
  rewrite L. simpl. rewrite Nat.sub_0_r. reflexivity.
Qed.

(** ** SMA *)

Section SmaFacts.

Variables (hd : DataFrame) (period : nat).
Hypothesis Hp : (1 <= period <= length hd)%nat.

Let t := (length hd - 1)%nat.

Lemma close_last :
  Pd.iloc_last (col close hd) = Ok (Fin (Formula.price_at close hd t)).
Proof.
  rewrite (iloc_last_at _ NaN t) by (rewrite col_length; unfold t; lia).
  rewrite (nth_col close hd t Formula.row0) by (unfold t; lia). reflexivity.
Qed.

Lemma sma_last :
  exists m, Pd.iloc_last (Pd.rolling_mean period (col close hd)) = Ok (Fin m)
            /\ nth t (Pd.rolling_mean period (col close hd)) NaN = Fin m
            /\ m == Formula.sma hd period t.
Proof.
  destruct (rolling_mean_at period (col close hd) t (Formula.price_at close hd))
    with (m := period) as (m & E & Q1).
  - rewrite col_length. unfold t. lia.
  - unfold t. lia.
  - intros j Hj. rewrite (nth_col close hd j Formula.row0) by (unfold t in Hj; lia).
    apply hv_Fin.
  - lia.
  - exists m. split; [| split; [exact E | exact Q1]].
    rewrite (iloc_last_at _ NaN t)
      by (unfold Pd.rolling_mean; rewrite rolling_length, col_length; unfold t; lia).
    unfold Pd.rolling_mean. rewrite E. reflexivity.
Qed.

Lemma not_all_nan (xs : Pd.Series) (i : nat) (q : Q) :
  (i < length xs)%nat -> nth i xs NaN = Fin q -> Pd.all (Pd.isna xs) = false.
Proof.
  intros L E. unfold Pd.all, Pd.isna.
  destruct (forallb (fun b : bool => b) (map F.is_nan xs)) eqn:B; trivial.
  rewrite forallb_forall in B.
  specialize (B (F.is_nan (nth i xs NaN))).
  rewrite E in B. simpl in B. symmetry. apply B.
  change false with (F.is_nan (Fin q)). rewrite <- E.
  apply in_map. apply nth_In. exact L.
Qed.


Lemma streaming_sma (self : WebSocketAnalyzer.t) :
  WebSocketAnalyzer.historical_data self = hd ->
  WebSocketAnalyzer.period self = period ->
  exists m, m == Formula.sma hd period t
            /\ WebSocketAnalyzer.calculate_sma self
               = Ok (if F.Qltb m (Formula.price_at close hd t)
                     then "BUY"%string else "SELL"%string, PyFloat (Fin m)).
Proof.
  intros Hd Hper.
  destruct sma_last as (m & E & En & Q1). exists m. split; [exact Q1|].
  unfold WebSocketAnalyzer.calculate_sma. rewrite Hd, Hper.
  destruct (Nat.ltb_spec (length hd) period); [lia|].
  rewrite (not_all_nan _ t m);
    [| unfold Pd.rolling_mean; rewrite rolling_length, col_length; unfold t; lia
     | exact En].
  rewrite close_last, E. reflexivity.
Qed.

End SmaFacts.







(** ** Bollinger bands *)

Section BollingerFacts.

Context `{Numerics}.

Variables (hd : DataFrame) (period : nat) (k : Q).
Hypothesis Hp : (1 <= period <= length hd)%nat.

Let t := (length hd - 1)%nat.
Let sma := Pd.rolling_mean period (col close hd).
Let std := Pd.rolling_std period (col close hd).

Lemma sma_std_lengths : length sma = length hd /\ length std = length hd.
Proof.
  unfold sma, std, Pd.rolling_mean, Pd.rolling_std.
  rewrite !rolling_length, col_length. split; reflexivity.
Qed.

Lemma band_last (op : fval -> fval -> fval) :
  Pd.iloc_last (Pd.map2 op sma (Pd.mul_c std (Fin k)))
  = Ok (op (nth t sma NaN) (F.mul (nth t std NaN) (Fin k))).
Proof.
  destruct sma_std_lengths as [Ls Ld].
  assert (Lm : length (Pd.mul_c std (Fin k)) = length hd)
    by (unfold Pd.mul_c; rewrite length_map; exact Ld).
  rewrite (iloc_last_at _ NaN t) by (rewrite map2_length, Ls, Lm; unfold t; lia).
  rewrite (nth_map2 op _ _ t NaN NaN) by (rewrite ?Ls, ?Lm; unfold t; lia).
  unfold Pd.mul_c.
  rewrite (nth_map_in (fun x => F.mul x (Fin k)) std t NaN) by (rewrite Ld; unfold t; lia).
  reflexivity.
Qed.

Lemma std_last (sd : fval) :
  Pd.iloc_last std = Ok sd -> nth t std NaN = sd.
Proof.
  destruct sma_std_lengths as [_ Ld].
  rewrite (iloc_last_at _ NaN t) by (rewrite Ld; unfold t; lia).
  congruence.
Qed.

End BollingerFacts.

(** C8.  On a window of at least [period] observations whose rolling
    standard deviation is defined, with value [s >= 0],
    [calculate_bollinger_bands] with [k = 2] returns the bands
    [SMA + 2 s] and [SMA - 2 s], and lower <= SMA <= upper. *)
Theorem C8_bollinger_bands_ordered :
  forall (N : Numerics) (hd : DataFrame) (period : nat) (sd : fval) (s : Q),
    (1 <= period <= length hd)%nat ->
    Pd.iloc_last (Pd.rolling_std period (col close hd)) = Ok sd ->
    has_value sd s ->
    0 <= s ->
    exists sig upper lower qu ql m,
      Strategy.calculate_bollinger_bands hd period 2
      = Ok (sig, PyTuple [PyFloat upper; PyFloat lower])
      /\ m == Formula.sma hd period (length hd - 1)
      /\ has_value upper qu /\ has_value lower ql
      /\ qu == m + 2 * s /\ ql == m - 2 * s
      /\ ql <= m /\ m <= qu.
Proof.
  intros N hd period sd s Hp Hsd Hv Hs.
  destruct (sma_last hd period Hp) as (m & _ & Em & Qm).
  apply (std_last hd period Hp) in Hsd.
  pose proof (band_last hd period 2 Hp F.add) as U.
  pose proof (band_last hd period 2 Hp F.sub) as L.
  rewrite Em, Hsd in U, L.
  assert (Hm2 : has_value (F.mul sd (Fin 2)) (s * 2))
    by (apply hv_mul; [exact Hv | apply hv_Fin]).
  assert (Hu : has_value (F.add (Fin m) (F.mul sd (Fin 2))) (m + s * 2))
    by (apply hv_add; [apply hv_Fin | exact Hm2]).
  assert (Hl : has_value (F.sub (Fin m) (F.mul sd (Fin 2))) (m - s * 2))
    by (apply hv_sub; [apply hv_Fin | exact Hm2]).
  eexists. exists (F.add (Fin m) (F.mul sd (Fin 2))), (F.sub (Fin m) (F.mul sd (Fin 2))).
  exists (m + s * 2), (m - s * 2), m.
  split.
  - unfold Strategy.calculate_bollinger_bands, Strategy.bollinger_series.
    destruct (Nat.ltb_spec (length hd) period); [lia|].
    rewrite (close_last hd period Hp).
    unfold Pd.sadd, Pd.ssub. rewrite U, L. reflexivity.
  - split; [exact Qm|].
    split; [exact Hu|]. split; [exact Hl|].
    split; [ring|]. split; [ring|]. split; lra.
Qed.

Lemma C8_bollinger_bands_ordered_witness :
  exists sig upper lower qu ql m,
    @Strategy.calculate_bollinger_bands Sample.numerics
      [Sample.obs 1 2 0; Sample.obs 3 4 2] 2 2
    = Ok (sig, PyTuple [PyFloat upper; PyFloat lower])
    /\ m == Formula.sma [Sample.obs 1 2 0; Sample.obs 3 4 2] 2 1
    /\ has_value upper qu /\ has_value lower ql
    /\ qu == m + 2 * 1 /\ ql == m - 2 * 1
    /\ ql <= m /\ m <= qu.
Proof.
  apply (C8_bollinger_bands_ordered Sample.numerics
           [Sample.obs 1 2 0; Sample.obs 3 4 2] 2 (Fin 1) 1).
  - simpl. lia.
  - reflexivity.
  - exists 1. split; reflexivity.
  - discriminate.
Defined.

(** ** Sums and means over positions *)

Lemma Qnat_pos (w : nat) : (1 <= w)%nat -> 0 < Qnat w.
Proof.
  intros L. unfold Qnat, Qlt. simpl. lia.
Qed.

Lemma Qsum_map_nonneg (f : nat -> Q) (js : list nat) :
  (forall j, In j js -> 0 <= f j) -> 0 <= Pd.Qsum (map f js).
Proof.
  induction js as [|j js IH]; intros K; simpl; [apply Qle_refl|].
  assert (0 <= f j) by (apply K; left; reflexivity).
  assert (0 <= Pd.Qsum (map f js)) by (apply IH; intros; apply K; right; assumption).
  lra.
Qed.

Lemma Qsum_map_opp (f : nat -> Q) (js : list nat) :
  Pd.Qsum (map (fun j => - f j) js) == - Pd.Qsum (map f js).
Proof.
  induction js as [|j js IH]; simpl; [reflexivity | rewrite IH; ring].
Qed.

Lemma sum_over_nonneg (f : nat -> Q) (w t : nat) :
  (forall j, 0 <= f j) -> 0 <= Formula.sum_over f w t.
Proof.
  intros K. apply Qsum_map_nonneg. intros j _. apply K.
Qed.

Lemma mean_over_nonneg (f : nat -> Q) (w t : nat) :
  (1 <= w)%nat -> (forall j, 0 <= f j) -> 0 <= Formula.mean_over f w t.
Proof.
  intros W K. unfold Formula.mean_over.
  apply Qle_shift_div_l; [apply Qnat_pos; exact W|].
  rewrite Qmult_0_l. apply sum_over_nonneg. exact K.
Qed.

Lemma mean_over_opp (f : nat -> Q) (w t : nat) :
  Formula.mean_over (fun j => - f j) w t == - Formula.mean_over f w t.
Proof.
  unfold Formula.mean_over, Formula.sum_over. rewrite Qsum_map_opp.
  unfold Qdiv. ring.
Qed.

(** ** Differences and filters, position by position *)

Lemma diff_length (xs : Pd.Series) : length (Pd.diff xs) = length xs.
Proof.
  unfold Pd.diff, Pd.ssub. rewrite map2_length, shift1_length. lia.
Qed.

Lemma nth_diff (xs : Pd.Series) (j : nat) :
  (j < length xs)%nat ->
  nth j (Pd.diff xs) NaN
  = F.sub (nth j xs NaN) (match j with O => NaN | S j' => nth j' xs NaN end).
Proof.
  intros L. unfold Pd.diff, Pd.ssub.
  rewrite (nth_map2 F.sub _ _ j NaN NaN) by (rewrite ?shift1_length; exact L).
  rewrite nth_shift1 by exact L. reflexivity.
Qed.

Lemma diff_col_first (f : row -> Q) (hd : DataFrame) :
  (0 < length hd)%nat -> nth 0 (Pd.diff (col f hd)) NaN = NaN.
Proof.
  intros L. rewrite nth_diff by (rewrite col_length; exact L).
  rewrite (nth_col f hd 0 Formula.row0) by exact L. reflexivity.
Qed.

Lemma diff_col_value (f : row -> Q) (hd : DataFrame) (j : nat) :
  (1 <= j < length hd)%nat ->
  has_value (nth j (Pd.diff (col f hd)) NaN)
            (Formula.price_at f hd j - Formula.price_at f hd (pred j)).
Proof.
  intros L. rewrite nth_diff by (rewrite col_length; lia).
  destruct j as [|j']; [lia|]. simpl pred.
  rewrite !(nth_col f hd _ Formula.row0) by lia.
  apply hv_sub; apply hv_Fin.
Qed.

Lemma nth_where (xs : Pd.Series) (cond : list bool) (other : fval) (j : nat) :
  (j < length xs)%nat -> (j < length cond)%nat ->
  nth j (Pd.where_ xs cond other) NaN
  = if nth j cond false then nth j xs NaN else other.
Proof.
  intros Lx Lc. unfold Pd.where_.
  apply (nth_map2 (fun x (c : bool) => if c then x else other) xs cond j NaN false NaN Lx Lc).
Qed.

Lemma nth_gt_c (xs : Pd.Series) (c : fval) (j : nat) :
  (j < length xs)%nat -> nth j (Pd.gt_c xs c) false = F.gtb (nth j xs NaN) c.
Proof. intros L. unfold Pd.gt_c. apply (nth_map_in (fun x => F.gtb x c)). exact L. Qed.

Lemma nth_lt_c (xs : Pd.Series) (c : fval) (j : nat) :
  (j < length xs)%nat -> nth j (Pd.lt_c xs c) false = F.ltb (nth j xs NaN) c.
Proof. intros L. unfold Pd.lt_c. apply (nth_map_in (fun x => F.ltb x c)). exact L. Qed.

(** ** RSI *)

Section RsiFacts.

Variables (hd : DataFrame) (period : nat).
Hypothesis Hp : (1 <= period <= length hd)%nat.

Let t := (length hd - 1)%nat.
Let delta := Pd.diff (col close hd).

Lemma delta_length : length delta = length hd.
Proof. unfold delta. rewrite diff_length, col_length. reflexivity. Qed.

Lemma delta_value (j : nat) :
  (j < length hd)%nat ->
  (j = O /\ nth j delta NaN = NaN)
  \/ ((1 <= j)%nat /\ has_value (nth j delta NaN) (Formula.delta hd j)).
Proof.
  intros L. destruct j as [|j'].
  - left. split; [reflexivity|]. apply diff_col_first. exact L.
  - right. split; [lia|]. apply (diff_col_value close hd (S j')). lia.
Qed.

Lemma gains_value (j : nat) :
  (j < length hd)%nat ->
  has_value (nth j (Pd.where_ delta (Pd.gt_c delta (Fin 0)) (Fin 0)) NaN)
            (Formula.gain hd j).
Proof.
  intros L.
  rewrite nth_where by (unfold Pd.gt_c; rewrite ?length_map, delta_length; exact L).
  rewrite nth_gt_c by (rewrite delta_length; exact L).
  destruct (delta_value j L) as [[-> E] | [J V]].
  - rewrite E. simpl. apply hv_Fin.
  - rewrite (hv_gtb _ _ _ 0 V (hv_Fin 0)). unfold Formula.gain.
    destruct (F.Qltb 0 (Formula.delta hd j)); [exact V | apply hv_Fin].
Qed.

Lemma losses_value (j : nat) :
  (j < length hd)%nat ->
  has_value (nth j (Pd.where_ delta (Pd.lt_c delta (Fin 0)) (Fin 0)) NaN)
            (- Formula.loss hd j).
Proof.
  intros L.
  rewrite nth_where by (unfold Pd.lt_c; rewrite ?length_map, delta_length; exact L).
  rewrite nth_lt_c by (rewrite delta_length; exact L).
  destruct (delta_value j L) as [[-> E] | [J V]].
  - rewrite E. simpl. exists 0. split; reflexivity.
  - rewrite (hv_ltb _ _ _ 0 V (hv_Fin 0)). unfold Formula.loss.
    destruct (F.Qltb (Formula.delta hd j) 0).
    + eapply hv_eq; [exact V | ring].
    + exists 0. split; reflexivity.
Qed.

Lemma gain_nonneg (j : nat) : 0 <= Formula.gain hd j.
Proof.
  unfold Formula.gain. destruct (F.Qltb 0 (Formula.delta hd j)) eqn:B.
  - apply Qltb_true in B. apply Qlt_le_weak. exact B.
  - apply Qle_refl.
Qed.

Lemma loss_nonneg (j : nat) : 0 <= Formula.loss hd j.
Proof.
  unfold Formula.loss. destruct (F.Qltb (Formula.delta hd j) 0) eqn:B.
  - apply Qltb_true in B. lra.
  - apply Qle_refl.
Qed.

(** the last value of the series: [g] is the mean gain, [l] the mean of
    the non-positive deltas, before its sign is changed *)
Lemma rsi_last :
  exists g l,
    g == Formula.avg_gain hd period t
    /\ l == - Formula.avg_loss hd period t
    /\ Pd.iloc_last (Strategy.rsi_series hd period) = Ok (Formula.rsi_of g l).
Proof.
  destruct (rolling_mean_at period
              (Pd.where_ delta (Pd.gt_c delta (Fin 0)) (Fin 0)) t (Formula.gain hd))
    with (m := period) as (g & Eg & Qg).
  { unfold Pd.where_, Pd.gt_c. rewrite map2_length, length_map, delta_length.
    unfold t. lia. }
  { unfold t. lia. }
  { intros j Hj. apply gains_value. unfold t in Hj. lia. }
  { lia. }
  destruct (rolling_mean_at period
              (Pd.where_ delta (Pd.lt_c delta (Fin 0)) (Fin 0)) t
              (fun j => - Formula.loss hd j))
    with (m := period) as (l & El & Ql).
  { unfold Pd.where_, Pd.lt_c. rewrite map2_length, length_map, delta_length.
    unfold t. lia. }
  { unfold t. lia. }
  { intros j Hj. apply losses_value. unfold t in Hj. lia. }
  { lia. }
  exists g, l. split; [exact Qg|]. split; [rewrite Ql; apply mean_over_opp|].
  unfold Strategy.rsi_series. fold delta.
  set (gain := Pd.rolling_mean period (Pd.where_ delta (Pd.gt_c delta (Fin 0)) (Fin 0))).
  set (lossm := Pd.rolling_mean period (Pd.where_ delta (Pd.lt_c delta (Fin 0)) (Fin 0))).
  assert (Lg : length gain = length hd).
  { unfold gain, Pd.rolling_mean, Pd.where_, Pd.gt_c.
    rewrite rolling_length, map2_length, length_map, delta_length. lia. }
  assert (Ll : length lossm = length hd).
  { unfold lossm, Pd.rolling_mean, Pd.where_, Pd.lt_c.
    rewrite rolling_length, map2_length, length_map, delta_length. lia. }
  assert (Lrs : length (Pd.sdiv gain (Pd.sneg lossm)) = length hd).
  { unfold Pd.sdiv, Pd.sneg. rewrite map2_length, length_map, Lg, Ll. lia. }
  unfold Pd.c_sub, Pd.c_div, Pd.c_add.
  rewrite (iloc_last_at _ NaN t) by (rewrite !length_map, Lrs; unfold t; lia).
  rewrite (nth_map_in (F.sub (Fin 100)) _ t NaN) by (rewrite !length_map, Lrs; unfold t; lia).
  rewrite (nth_map_in (F.div (Fin 100)) _ t NaN) by (rewrite !length_map, Lrs; unfold t; lia).
  rewrite (nth_map_in (F.add (Fin 1)) _ t NaN) by (rewrite Lrs; unfold t; lia).
  unfold Pd.sdiv, Pd.sneg.
  rewrite (nth_map2 F.div _ _ t NaN NaN) by (rewrite ?length_map, ?Lg, ?Ll; unfold t; lia).
  rewrite (nth_map_in F.neg _ t NaN) by (rewrite Ll; unfold t; lia).
  unfold gain, lossm, Pd.rolling_mean. rewrite Eg, El. reflexivity.
Qed.

End RsiFacts.

Lemma rsi_of_defined (g l G L : Q) :
  g == G -> l == - L -> 0 <= G -> 0 < L ->
  exists q, has_value (Formula.rsi_of g l) q
            /\ q == 100 - 100 / (1 + G / L)
            /\ 0 <= q /\ q <= 100.
Proof.
  intros Eg El HG HL.
  assert (NL : ~ L == 0) by (intros K; rewrite K in HL; apply (Qlt_irrefl 0 HL)).
  assert (R : 0 <= G / L).
  { apply Qle_shift_div_l; [exact HL | rewrite Qmult_0_l; exact HG]. }
  assert (D : 0 < 1 + G / L) by lra.
  assert (ND : ~ 1 + G / L == 0) by (intros K; rewrite K in D; apply (Qlt_irrefl 0 D)).
  assert (V1 : has_value (F.neg (Fin l)) L).
  { eapply hv_eq; [apply hv_neg, hv_Fin | rewrite El; ring]. }
  assert (V2 : has_value (F.div (Fin g) (F.neg (Fin l))) (G / L)).
  { apply hv_div; [eapply hv_eq; [apply hv_Fin | exact Eg] | exact V1 | exact NL]. }
  assert (V3 : has_value (F.add (Fin 1) (F.div (Fin g) (F.neg (Fin l)))) (1 + G / L)).
  { apply hv_add; [apply hv_Fin | exact V2]. }
  assert (V4 : has_value (F.div (Fin 100) (F.add (Fin 1) (F.div (Fin g) (F.neg (Fin l)))))
                         (100 / (1 + G / L))).
  { apply hv_div; [apply hv_Fin | exact V3 | exact ND]. }
  exists (100 - 100 / (1 + G / L)).
  split; [apply hv_sub; [apply hv_Fin | exact V4]|].
  split; [reflexivity|].
  assert (U : 100 / (1 + G / L) <= 100).
  { apply Qle_shift_div_r; [exact D | lra]. }
  assert (P : 0 <= 100 / (1 + G / L)).
  { apply Qle_shift_div_l; [exact D | lra]. }
  split; lra.
Qed.

Lemma rsi_of_all_gains (g l : Q) :
  0 < g -> l == 0 -> Formula.rsi_of g l = Fin (100 + 0).
Proof.
  intros Hg Hl.
  assert (Zl : F.Qis0 l = true) by (apply Qis0_true; exact Hl).
  assert (Zg : F.Qis0 g = false).
  { apply Qis0_false. intros K. rewrite K in Hg. apply (Qlt_irrefl 0 Hg). }
  assert (Sg : F.Qltb g 0 = false) by (apply Qltb_false; apply Qlt_le_weak; exact Hg).
  unfold Formula.rsi_of, F.neg. rewrite Zl.
  assert (E : F.div (Fin g) NZero = NInf).
  { unfold F.div. simpl. rewrite Zg, Sg. reflexivity. }
  rewrite E. reflexivity.
Qed.

Lemma rsi_of_flat (g l : Q) :
  g == 0 -> l == 0 -> Formula.rsi_of g l = NaN.
Proof.
  intros Hg Hl.
  assert (Zl : F.Qis0 l = true) by (apply Qis0_true; exact Hl).
  assert (Zg : F.Qis0 g = true) by (apply Qis0_true; exact Hg).
  unfold Formula.rsi_of, F.neg. rewrite Zl.
  assert (E : F.div (Fin g) NZero = NaN).
  { unfold F.div. simpl. rewrite Zg. reflexivity. }
  rewrite E. reflexivity.
Qed.

Lemma calculate_rsi_last (hd : DataFrame) (period : nat) (r : fval) :
  (1 <= period <= length hd)%nat ->
  Pd.iloc_last (Strategy.rsi_series hd period) = Ok r ->
  Strategy.calculate_rsi hd period
  = Ok (if F.gtb r (Fin 70) then "SELL"%string
        else if F.ltb r (Fin 30) then "BUY"%string else "NEUTRAL"%string,
        PyFloat r).
Proof.
  intros Hp E. unfold Strategy.calculate_rsi.
  destruct (Nat.ltb_spec (length hd) period); [lia|].
  rewrite E. reflexivity.
Qed.

(** C6, as the code has it.  On a window of at least [period]
    observations, with [G] and [L] the means of the gains and of the losses
    over the last [period] positions: when [L > 0] the RSI is the finite
    number [100 - 100 / (1 + G / L)], in [0, 100]; when [L = 0] and
    [G > 0] (no loss, some gain) it is 100 and the signal is SELL; when
    both are 0 (no move over the window) it is NaN and the signal is
    NEUTRAL. *)
Theorem C6_rsi_range_and_all_gains :
  forall (hd : DataFrame) (period : nat),
    (1 <= period <= length hd)%nat ->
    let t := (length hd - 1)%nat in
    let G := Formula.avg_gain hd period t in
    let L := Formula.avg_loss hd period t in
    0 <= G /\ 0 <= L
    /\ (0 < L ->
        exists sig x q,
          Strategy.calculate_rsi hd period = Ok (sig, PyFloat x)
          /\ has_value x q /\ q == Formula.rsi hd period t /\ 0 <= q /\ q <= 100)
    /\ (L == 0 -> 0 < G ->
        exists x, Strategy.calculate_rsi hd period = Ok ("SELL"%string, PyFloat x)
                  /\ has_value x 100)
    /\ (L == 0 -> G == 0 ->
        Strategy.calculate_rsi hd period = Ok ("NEUTRAL"%string, PyFloat NaN)).
Proof.
  intros hd period Hp t G L.
  assert (HG : 0 <= G).
  { apply mean_over_nonneg; [lia | apply gain_nonneg]. }
  assert (HL : 0 <= L).
  { apply mean_over_nonneg; [lia | apply loss_nonneg]. }
  destruct (rsi_last hd period Hp) as (g & l & Eg & El & E).
  fold t in Eg, El. fold G in Eg. fold L in El.
  pose proof (calculate_rsi_last hd period _ Hp E) as C.
  split; [exact HG|]. split; [exact HL|]. split; [| split].
  - intros Lpos.
    destruct (rsi_of_defined g l G L Eg El HG Lpos) as (q & V & Q1 & Q2 & Q3).
    eexists. exists (Formula.rsi_of g l), q.
    split; [exact C|]. split; [exact V|]. split; [exact Q1|]. split; assumption.
  - intros L0 Gpos.
    assert (Hg : 0 < g) by (rewrite Eg; exact Gpos).
    assert (Hl : l == 0) by (rewrite El, L0; reflexivity).
    rewrite (rsi_of_all_gains g l Hg Hl) in C.
    exists (Fin (100 + 0)). split; [exact C|].
    exists (100 + 0). split; reflexivity.
  - intros L0 G0.
    assert (Hg : g == 0) by (rewrite Eg; exact G0).
    assert (Hl : l == 0) by (rewrite El, L0; reflexivity).
    rewrite (rsi_of_flat g l Hg Hl) in C. exact C.
Qed.

Lemma C6_rsi_range_and_all_gains_witness :
  exists x,
    Strategy.calculate_rsi [Sample.obs 1 2 0; Sample.obs 2 3 1; Sample.obs 4 5 3] 2
    = Ok ("SELL"%string, PyFloat x)
    /\ has_value x 100.
Proof.
  assert (Hp : (1 <= 2 <= length [Sample.obs 1 2 0; Sample.obs 2 3 1; Sample.obs 4 5 3])%nat)
    by (simpl; lia).
  apply (C6_rsi_range_and_all_gains
           [Sample.obs 1 2 0; Sample.obs 2 3 1; Sample.obs 4 5 3] 2 Hp).
  - reflexivity.
  - reflexivity.
Defined.

(** C6 as stated fails on a window without moves: three observations with
    close 5 and period 2 give a window of length at least the period whose
    RSI is NaN, which has no value in [0, 100]. *)
Lemma C6_counterexample :
  let hd := [Sample.obs 5 6 4; Sample.obs 5 6 4; Sample.obs 5 6 4] in
  (2 <= length hd)%nat
  /\ Strategy.calculate_rsi hd 2 = Ok ("NEUTRAL"%string, PyFloat NaN)
  /\ ~ (exists q, has_value NaN q /\ 0 <= q /\ q <= 100).
Proof.
  intros hd. split; [simpl; lia|]. split; [vm_compute; reflexivity|].
  intros (q & (q' & E & _) & _). discriminate E.
Qed.

(** ** ADX of [MarketAnalyzer] *)

Lemma hv_fmax (x y : fval) (a b : Q) :
  has_value x a -> has_value y b -> has_value (Pd.fmax_skipna x y) (Qmax a b).
Proof.
  intros Kx Ky. unfold Pd.fmax_skipna.
  rewrite (hv_not_nan _ _ Kx), (hv_not_nan _ _ Ky), (hv_ltb _ _ _ _ Kx Ky).
  destruct (F.Qltb a b) eqn:B.
  - apply Qltb_true in B. eapply hv_eq; [exact Ky|].
    symmetry. apply Q.max_r. apply Qlt_le_weak. exact B.
  - apply Qltb_false in B. eapply hv_eq; [exact Kx|].
    symmetry. apply Q.max_l. exact B.
Qed.

Lemma bfill_length (xs : Pd.Series) : length (Pd.bfill xs) = length xs.
Proof. induction xs as [|x t IH]; simpl; [reflexivity | rewrite IH; reflexivity]. Qed.

Lemma nth_bfill (xs : Pd.Series) (j : nat) :
  F.is_nan (nth j xs NaN) = false -> nth j (Pd.bfill xs) NaN = nth j xs NaN.
Proof.
  revert j. induction xs as [|x t IH]; intros [|j] K; simpl in *; try discriminate.
  - rewrite K. reflexivity.
  - apply IH. exact K.
Qed.

Lemma hv_bfill (xs : Pd.Series) (j : nat) (q : Q) :
  has_value (nth j xs NaN) q -> has_value (nth j (Pd.bfill xs) NaN) q.
Proof.
  intros V. rewrite nth_bfill; [exact V | apply (hv_not_nan _ _ V)].
Qed.

Lemma hv_replace_inf_nan (xs : Pd.Series) (j : nat) (q : Q) :
  (j < length xs)%nat ->
  has_value (nth j xs NaN) q -> has_value (nth j (Pd.replace_inf_nan xs) NaN) q.
Proof.
  intros L V. unfold Pd.replace_inf_nan.
  rewrite (nth_map_in (fun x => if F.is_inf x then NaN else x) xs j NaN) by exact L.
  rewrite (hv_not_inf _ _ V). exact V.
Qed.

Lemma Qdiv_by_zero (x a : Q) : a == 0 -> x / a == 0.
Proof.
  intros K. rewrite K. unfold Qdiv. change (/ 0) with 0. ring.
Qed.

Section AdxFacts.

Variables (hd : DataFrame) (period : nat).

Local Abbreviation n := (length hd).
Local Abbreviation cl := (Formula.price_at close hd).

Lemma true_range_length : length (MarketAnalyzer.true_range hd) = n.
Proof.
  unfold MarketAnalyzer.true_range, Pd.row_max3, Pd.sabs, Pd.ssub.
  rewrite !map2_length, !length_map, !map2_length, shift1_length, !col_length. lia.
Qed.

Lemma shifted_close (j : nat) :
  (1 <= j < n)%nat -> nth j (Pd.shift 1 (col close hd)) NaN = Fin (cl (pred j)).
Proof.
  intros L. rewrite nth_shift1 by (rewrite col_length; lia).
  destruct j as [|j']; [lia|]. simpl pred.
  apply nth_col. lia.
Qed.

Lemma range_to_close (f : row -> Q) (j : nat) :
  (1 <= j < n)%nat ->
  has_value (nth j (Pd.sabs (Pd.ssub (col f hd) (Pd.shift 1 (col close hd)))) NaN)
            (Qabs (Formula.price_at f hd j - cl (pred j))).
Proof.
  intros L. unfold Pd.sabs, Pd.ssub.
  rewrite (nth_map_in F.abs _ j NaN)
    by (rewrite map2_length, shift1_length, !col_length; lia).
  rewrite (nth_map2 F.sub _ _ j NaN NaN)
    by (rewrite ?shift1_length, col_length; lia).
  rewrite shifted_close by exact L.
  rewrite (nth_col f hd j Formula.row0) by lia.
  apply hv_abs, hv_sub; apply hv_Fin.
Qed.

Lemma true_range_value (j : nat) :
  (1 <= j < n)%nat ->
  has_value (nth j (MarketAnalyzer.true_range hd) NaN) (Formula.true_range hd j).
Proof.
  intros L. unfold MarketAnalyzer.true_range, Pd.row_max3.
  assert (L1 : length (Pd.ssub (col high hd) (col low hd)) = n)
    by (unfold Pd.ssub; rewrite map2_length, !col_length; lia).
  assert (L2 : forall f, length (Pd.sabs (Pd.ssub (col f hd) (Pd.shift 1 (col close hd)))) = n)
    by (intros f; unfold Pd.sabs, Pd.ssub;
        rewrite length_map, map2_length, shift1_length, !col_length; lia).
  rewrite (nth_map2 Pd.fmax_skipna _ _ j NaN NaN)
    by (rewrite ?map2_length, ?L1, ?L2; lia).
  rewrite (nth_map2 Pd.fmax_skipna _ _ j NaN NaN) by (rewrite ?L1, ?L2; lia).
  unfold Formula.true_range.
  apply hv_fmax; [apply hv_fmax|].
  - unfold Pd.ssub. rewrite (nth_map2 F.sub _ _ j NaN NaN) by (rewrite col_length; lia).
    rewrite !(nth_col _ hd j Formula.row0) by lia.
    apply hv_sub; apply hv_Fin.
  - apply range_to_close. exact L.
  - apply range_to_close. exact L.
Qed.

Lemma atr_length : length (MarketAnalyzer.average_true_range hd period) = n.
Proof.
  unfold MarketAnalyzer.average_true_range, Pd.rolling_mean1.
  rewrite bfill_length, rolling_length. apply true_range_length.
Qed.

Lemma atr_value (j : nat) :
  (1 <= period)%nat -> (period <= j < n)%nat ->
  has_value (nth j (MarketAnalyzer.average_true_range hd period) NaN)
            (Formula.atr hd period j).
Proof.
  intros P L. unfold MarketAnalyzer.average_true_range. apply hv_bfill.
  destruct (rolling_mean_at period (MarketAnalyzer.true_range hd) j (Formula.true_range hd))
    with (m := 1%nat) as (q & E & Q1).
  - rewrite true_range_length. lia.
  - lia.
  - intros i Hi. apply true_range_value. lia.
  - exact P.
  - unfold Pd.rolling_mean1. rewrite E. exists q. split; [reflexivity | exact Q1].
Qed.

Lemma nth_band (a b : list bool) (j : nat) :
  (j < length a)%nat -> (j < length b)%nat ->
  nth j (Pd.band a b) false = nth j a false && nth j b false.
Proof. intros La Lb. apply (nth_map2 andb a b j false false false La Lb). Qed.

Lemma nth_sgt (a b : Pd.Series) (j : nat) :
  (j < length a)%nat -> (j < length b)%nat ->
  nth j (Pd.sgt a b) false = F.gtb (nth j a NaN) (nth j b NaN).
Proof. intros La Lb. apply (nth_map2 F.gtb a b j NaN NaN false La Lb). Qed.

Lemma filter_length (xs ys : Pd.Series) :
  length xs = n -> length ys = n ->
  length (Pd.where_ xs (Pd.band (Pd.sgt xs ys) (Pd.gt_c xs (Fin 0))) (Fin 0)) = n.
Proof.
  intros Lx Ly. unfold Pd.where_, Pd.band, Pd.sgt, Pd.gt_c.
  rewrite !map2_length, length_map, Lx, Ly. lia.
Qed.

(** what the filter [x.where((x > y) & (x > 0), 0)] keeps at a position *)
Lemma filter_value (xs ys : Pd.Series) (j : nat) (a b : Q) :
  length xs = n -> length ys = n -> (j < n)%nat ->
  has_value (nth j xs NaN) a -> has_value (nth j ys NaN) b ->
  has_value (nth j (Pd.where_ xs (Pd.band (Pd.sgt xs ys) (Pd.gt_c xs (Fin 0))) (Fin 0)) NaN)
            (if F.Qltb b a && F.Qltb 0 a then a else 0).
Proof.
  intros Lx Ly L Va Vb.
  assert (Lg : length (Pd.sgt xs ys) = n)
    by (unfold Pd.sgt; rewrite map2_length, Lx, Ly; lia).
  assert (Lc : length (Pd.gt_c xs (Fin 0)) = n)
    by (unfold Pd.gt_c; rewrite length_map; exact Lx).
  rewrite nth_where by (unfold Pd.band; rewrite ?map2_length, ?Lg, ?Lc, ?Lx; lia).
  rewrite nth_band by (rewrite ?Lg, ?Lc; lia).
  rewrite nth_sgt by (rewrite ?Lx, ?Ly; lia).
  rewrite nth_gt_c by (rewrite Lx; lia).
  rewrite (hv_gtb _ _ _ _ Va Vb), (hv_gtb _ _ _ 0 Va (hv_Fin 0)).
  destruct (F.Qltb b a && F.Qltb 0 a); [exact Va | apply hv_Fin].
Qed.

Lemma raw_dm_lengths :
  length (Pd.diff (col high hd)) = n /\ length (Pd.diff (col low hd)) = n.
Proof. rewrite !diff_length, !col_length. split; reflexivity. Qed.

Lemma dm_lengths :
  length (fst (MarketAnalyzer.directional_movement hd)) = n
  /\ length (snd (MarketAnalyzer.directional_movement hd)) = n.
Proof.
  destruct raw_dm_lengths as [Lh Ll].
  unfold MarketAnalyzer.directional_movement. simpl.
  assert (Lp : length (Pd.where_ (Pd.diff (col high hd))
                         (Pd.band (Pd.sgt (Pd.diff (col high hd)) (Pd.diff (col low hd)))
                                  (Pd.gt_c (Pd.diff (col high hd)) (Fin 0))) (Fin 0)) = n)
    by (apply filter_length; assumption).
  split; [exact Lp | apply filter_length; assumption].
Qed.

Lemma plus_dm_value (j : nat) :
  (1 <= j < n)%nat ->
  has_value (nth j (fst (MarketAnalyzer.directional_movement hd)) NaN)
            (Formula.plus_dm hd j).
Proof.
  intros L. destruct raw_dm_lengths as [Lh Ll].
  unfold MarketAnalyzer.directional_movement. simpl.
  pose proof (filter_value _ _ j _ _ Lh Ll (proj2 L)
                (diff_col_value high hd j L) (diff_col_value low hd j L)) as V.
  unfold Formula.plus_dm, Formula.high_diff, Formula.low_diff.
  rewrite andb_comm. exact V.
Qed.

Lemma minus_dm_value (j : nat) :
  (1 <= j < n)%nat -> ~ Formula.tie hd j ->
  has_value (nth j (snd (MarketAnalyzer.directional_movement hd)) NaN)
            (Formula.minus_dm hd j).
Proof.
  intros L NT. destruct raw_dm_lengths as [Lh Ll]. destruct dm_lengths as [Lp _].
  pose proof (plus_dm_value j L) as Vp.
  unfold MarketAnalyzer.directional_movement in *. simpl in *.
  pose proof (filter_value _ _ j _ _ Ll Lp (proj2 L) (diff_col_value low hd j L) Vp) as V.
  eapply hv_eq; [exact V|]. clear V Vp.
  unfold Formula.minus_dm, Formula.plus_dm, Formula.tie in *.
  fold (Formula.high_diff hd j) (Formula.low_diff hd j).
  set (u := Formula.high_diff hd j) in *. set (d := Formula.low_diff hd j) in *.
  destruct (F.Qltb 0 u) eqn:B1; destruct (F.Qltb d u) eqn:B2;
    destruct (F.Qltb 0 d) eqn:B3; destruct (F.Qltb u d) eqn:B4; simpl;
    rewrite ?B1, ?B2, ?B3, ?B4; simpl; try reflexivity;
    rewrite ?Qltb_true, ?Qltb_false in *; lra.
Qed.

Lemma di_length (dm : Pd.Series) :
  length dm = n ->
  length (MarketAnalyzer.directional_indicator dm
            (MarketAnalyzer.average_true_range hd period) period) = n.
Proof.
  intros L. unfold MarketAnalyzer.directional_indicator, Pd.c_mul, Pd.sdiv, Pd.rolling_sum1.
  rewrite length_map, map2_length, rolling_length, atr_length, L. lia.
Qed.

Lemma di_value (dm : Pd.Series) (f : nat -> Q) (j : nat) :
  (1 <= period)%nat -> (period <= j < n)%nat -> length dm = n ->
  (forall i, (S j - period <= i <= j)%nat -> has_value (nth i dm NaN) (f i)) ->
  ~ Formula.atr hd period j == 0 ->
  has_value (nth j (MarketAnalyzer.directional_indicator dm
                      (MarketAnalyzer.average_true_range hd period) period) NaN)
            (100 * (Formula.sum_over f period j / Formula.atr hd period j)).
Proof.
  intros P L Ld V NZ.
  destruct (rolling_sum_at period dm j f) with (m := 1%nat) as (s & Es & Qs);
    [rewrite Ld; lia | lia | exact V | exact P |].
  unfold MarketAnalyzer.directional_indicator, Pd.c_mul, Pd.sdiv, Pd.rolling_sum1.
  rewrite (nth_map_in (F.mul (Fin 100)) _ j NaN)
    by (rewrite map2_length, rolling_length, atr_length, Ld; lia).
  rewrite (nth_map2 F.div _ _ j NaN NaN)
    by (rewrite ?rolling_length, ?atr_length, ?Ld; lia).
  rewrite Es.
  apply hv_mul; [apply hv_Fin|].
  apply hv_div; [exists s; split; [reflexivity | exact Qs] | | exact NZ].
  apply atr_value; assumption.
Qed.

Lemma dx_length (plus_di minus_di : Pd.Series) :
  length plus_di = n -> length minus_di = n ->
  length (MarketAnalyzer.directional_index plus_di minus_di) = n.
Proof.
  intros Lp Lm.
  unfold MarketAnalyzer.directional_index, Pd.replace_inf_nan, Pd.c_mul, Pd.sdiv,
    Pd.sabs, Pd.ssub, Pd.sadd.
  rewrite bfill_length, !length_map, !map2_length, length_map, map2_length, Lp, Lm. lia.
Qed.

Lemma dx_value (plus_di minus_di : Pd.Series) (j : nat) (a b : Q) :
  length plus_di = n -> length minus_di = n -> (j < n)%nat ->
  has_value (nth j plus_di NaN) a -> has_value (nth j minus_di NaN) b ->
  ~ a + b == 0 ->
  has_value (nth j (MarketAnalyzer.directional_index plus_di minus_di) NaN)
            (100 * (Qabs (a - b) / (a + b))).
Proof.
  intros Lp Lm L Va Vb NZ.
  unfold MarketAnalyzer.directional_index.
  assert (Ls : length (Pd.sabs (Pd.ssub plus_di minus_di)) = n)
    by (unfold Pd.sabs, Pd.ssub; rewrite length_map, map2_length, Lp, Lm; lia).
  assert (La : length (Pd.sadd plus_di minus_di) = n)
    by (unfold Pd.sadd; rewrite map2_length, Lp, Lm; lia).
  assert (Lq : length (Pd.sdiv (Pd.sabs (Pd.ssub plus_di minus_di))
                               (Pd.sadd plus_di minus_di)) = n)
    by (unfold Pd.sdiv; rewrite map2_length, Ls, La; lia).
  apply hv_bfill. apply hv_replace_inf_nan.
  - unfold Pd.c_mul. rewrite length_map, Lq. exact L.
  - unfold Pd.c_mul.
    rewrite (nth_map_in (F.mul (Fin 100)) _ j NaN) by (rewrite Lq; exact L).
    apply hv_mul; [apply hv_Fin|].
    unfold Pd.sdiv.
    rewrite (nth_map2 F.div _ _ j NaN NaN) by (rewrite ?Ls, ?La; exact L).
    apply hv_div; [| | exact NZ].
    + unfold Pd.sabs.
      rewrite (nth_map_in F.abs _ j NaN)
        by (unfold Pd.ssub; rewrite map2_length, Lp, Lm; lia).
      unfold Pd.ssub.
      rewrite (nth_map2 F.sub _ _ j NaN NaN) by (rewrite ?Lp, ?Lm; exact L).
      apply hv_abs, hv_sub; assumption.
    + unfold Pd.sadd.
      rewrite (nth_map2 F.add _ _ j NaN NaN) by (rewrite ?Lp, ?Lm; exact L).
      apply hv_add; assumption.
Qed.

End AdxFacts.

Lemma strategy_adx_no_value `{Numerics} (hd : DataFrame) (period : nat)
      (sig : string) (v : pyval) :
  Strategy.calculate_adx hd period = Ok (sig, v) -> v = PyNone.
Proof.
  unfold Strategy.calculate_adx. intros E.
  destruct (length hd <? 52)%nat; [congruence|].
  repeat bind_inv E. congruence.
Qed.

(** X23.  [MarketAnalyzer.calculate_adx], on a window of at least twice the
    period, follows the algorithm at the last position: true range, ATR as
    its rolling mean, +DM and -DM as the high and low differences kept only
    when positive and greater than the other one, +DI and -DI as 100 times
    the rolling sum of the DM over the ATR, DX as
    [100 |+DI - -DI| / (+DI + -DI)] and ADX as the rolling mean of DX,
    provided that no position of the lookback has equal positive
    differences and that [+DI + -DI] is not zero over the last period. *)
Theorem market_adx_follows_algorithm :
  forall (self : MarketAnalyzer.t),
    let hd := MarketAnalyzer.historical_data self in
    let p := MarketAnalyzer.period self in
    let n := length hd in
    (1 <= p)%nat ->
    (2 * p <= n)%nat ->
    (forall j, (n - 2 * p < j < n)%nat -> ~ Formula.tie hd j) ->
    (forall j, (n - p <= j < n)%nat ->
               ~ Formula.plus_di hd p j + Formula.minus_di hd p j == 0) ->
    exists adx plus_di minus_di a pd md,
      MarketAnalyzer.calculate_adx self = Ok (adx, plus_di, minus_di)
      /\ Pd.iloc_last adx = Ok a /\ has_value a (Formula.adx hd p (n - 1))
      /\ Pd.iloc_last plus_di = Ok pd /\ has_value pd (Formula.plus_di hd p (n - 1))
      /\ Pd.iloc_last minus_di = Ok md /\ has_value md (Formula.minus_di hd p (n - 1)).
Proof.
  intros self hd p n Hp Hn NT DX.
  assert (ATR : forall j, (n - p <= j < n)%nat -> ~ Formula.atr hd p j == 0).
  { intros j Hj K. apply (DX j Hj).
    unfold Formula.plus_di, Formula.minus_di.
    rewrite !(Qdiv_by_zero _ _ K). ring. }
  destruct (dm_lengths hd) as [Lp Lm].
  set (atr := MarketAnalyzer.average_true_range hd p).
  set (pdi := MarketAnalyzer.directional_indicator
                (fst (MarketAnalyzer.directional_movement hd)) atr p).
  set (mdi := MarketAnalyzer.directional_indicator
                (snd (MarketAnalyzer.directional_movement hd)) atr p).
  set (dx := MarketAnalyzer.directional_index pdi mdi).
  assert (Lpdi : length pdi = n) by (apply (di_length hd p); exact Lp).
  assert (Lmdi : length mdi = n) by (apply (di_length hd p); exact Lm).
  assert (Ldx : length dx = n) by (apply (dx_length hd); assumption).
  assert (Vp : forall j, (n - p <= j < n)%nat ->
                         has_value (nth j pdi NaN) (Formula.plus_di hd p j)).
  { intros j Hj. apply (di_value hd p); try assumption; try (fold n; lia).
    - intros i Hi. apply plus_dm_value. fold n. lia.
    - apply ATR. exact Hj. }
  assert (Vm : forall j, (n - p <= j < n)%nat ->
                         has_value (nth j mdi NaN) (Formula.minus_di hd p j)).
  { intros j Hj. apply (di_value hd p); try assumption; try (fold n; lia).
    - intros i Hi. apply minus_dm_value; [fold n; lia | apply NT; lia].
    - apply ATR. exact Hj. }
  assert (Vx : forall j, (n - p <= j < n)%nat ->
                         has_value (nth j dx NaN) (Formula.dx hd p j)).
  { intros j Hj. apply (dx_value hd); try assumption; try (fold n; lia).
    - apply Vp. exact Hj.
    - apply Vm. exact Hj.
    - apply DX. exact Hj. }
  destruct (rolling_mean_at p dx (n - 1) (Formula.dx hd p)) with (m := 1%nat)
    as (q & Eq & Qq); [rewrite Ldx; lia | lia | intros i Hi; apply Vx; lia | exact Hp |].
  exists (Pd.bfill (Pd.rolling_mean1 p dx)), pdi, mdi.
  exists (Fin q), (nth (n - 1) pdi NaN), (nth (n - 1) mdi NaN).
  split.
  { unfold MarketAnalyzer.calculate_adx, Pd.check_min_periods. fold hd. fold p.
    destruct (Nat.ltb_spec p 1); [lia|]. cbn [bind]. fold atr.
    destruct (MarketAnalyzer.directional_movement hd) as [pdm mdm]. reflexivity. }
  split.
  { rewrite (iloc_last_at _ NaN (n - 1))
      by (unfold Pd.rolling_mean1; rewrite bfill_length, rolling_length, Ldx; lia).
    rewrite nth_bfill; unfold Pd.rolling_mean1; rewrite Eq; reflexivity. }
  split; [exists q; split; [reflexivity | exact Qq]|].
  split; [apply iloc_last_at; rewrite Lpdi; lia|].
  split; [apply Vp; lia|].
  split; [apply iloc_last_at; rewrite Lmdi; lia|].
  apply Vm; lia.
Qed.

Lemma market_adx_follows_algorithm_witness :
  let hd := [Sample.obs 9 10 8; Sample.obs 10 12 9;
             Sample.obs (25 # 2) 13 12; Sample.obs 13 15 (25 # 2)] in
  exists adx plus_di minus_di a pd md,
    MarketAnalyzer.calculate_adx (Sample.market 13 2 hd) = Ok (adx, plus_di, minus_di)
    /\ Pd.iloc_last adx = Ok a /\ has_value a (Formula.adx hd 2 3)
    /\ Pd.iloc_last plus_di = Ok pd /\ has_value pd (Formula.plus_di hd 2 3)
    /\ Pd.iloc_last minus_di = Ok md /\ has_value md (Formula.minus_di hd 2 3).
Proof.
  intros hd.
  refine (market_adx_follows_algorithm (Sample.market 13 2 hd) _ _ _ _).
  - simpl. lia.
  - simpl. lia.
  - intros j Hj. simpl in Hj.
    assert (D : j = 1%nat \/ j = 2%nat \/ j = 3%nat) by lia.
    destruct D as [-> | [-> | ->]]; intros [_ E]; vm_compute in E; discriminate E.
  - intros j Hj. simpl in Hj.
    assert (D : j = 2%nat \/ j = 3%nat) by lia.
    destruct D as [-> | ->]; intros E; vm_compute in E; discriminate E.
Defined.

(** C5.  None of the three functions named ADX follows the algorithm on
    every window, although every step of the algorithm is defined on the
    frames below (period 2, four observations).

    [MarketAnalyzer.calculate_adx]: where the high and the low rise by the
    same amount, the filter of -DM reads the +DM that has just been
    filtered, and keeps -DM = 1 where the algorithm keeps 0; the last ADX
    is 500/21, that of the algorithm 400/7.

    [WebSocketAnalyzer.calculate_adx] keeps each difference whenever it is
    positive, without comparing the two: in a market whose highs rise by 2
    and lows by 3/2 at every step its last ADX is 100/7 and its answer
    "SELL", where the ADX of the algorithm is 100; [MarketAnalyzer] agrees
    with the algorithm on that frame.

    [strategy.calculate_adx] computes an Ichimoku signal and returns no ADX
    value. *)
Theorem C5_adx_departs_from_algorithm :
  (let hd := Example.equal_rise in
   (2 * 2 <= length hd)%nat
   /\ ~ Formula.plus_di hd 2 2 + Formula.minus_di hd 2 2 == 0
   /\ ~ Formula.plus_di hd 2 3 + Formula.minus_di hd 2 3 == 0
   /\ nth 1 (snd (MarketAnalyzer.directional_movement hd)) NaN = Fin 1
   /\ Formula.minus_dm hd 1 == 0
   /\ Formula.adx hd 2 3 == 400 # 7
   /\ (exists adx plus_di minus_di a,
          MarketAnalyzer.calculate_adx (Sample.market 13 2 hd) = Ok (adx, plus_di, minus_di)
          /\ Pd.iloc_last adx = Ok a
          /\ has_value a (500 # 21)
          /\ ~ has_value a (Formula.adx hd 2 3)))
  /\ (let hd := Example.steady_rise in
      (2 * 2 <= length hd)%nat
      /\ ~ Formula.plus_di hd 2 2 + Formula.minus_di hd 2 2 == 0
      /\ ~ Formula.plus_di hd 2 3 + Formula.minus_di hd 2 3 == 0
      /\ Formula.adx hd 2 3 == 100
      /\ (exists a,
             Pd.iloc_last (WebSocketAnalyzer.adx_series hd 2) = Ok a
             /\ has_value a (100 # 7)
             /\ ~ has_value a (Formula.adx hd 2 3))
      /\ (forall (N : Numerics),
             WebSocketAnalyzer.calculate_adx (Example.analyzer 2 hd) = Ok (PyStr "SELL"))
      /\ (exists adx plus_di minus_di a,
             MarketAnalyzer.calculate_adx (Sample.market 15 2 hd)
             = Ok (adx, plus_di, minus_di)
             /\ Pd.iloc_last adx = Ok a
             /\ has_value a (Formula.adx hd 2 3)))
  /\ (forall (N : Numerics) (frame : DataFrame) (period : nat) (sig : string) (v : pyval),
         Strategy.calculate_adx frame period = Ok (sig, v) -> v = PyNone).
Proof.
  split; [| split].
  - intros hd.
    split; [simpl; lia|].
    split; [intros E; vm_compute in E; discriminate E|].
    split; [intros E; vm_compute in E; discriminate E|].
    split; [vm_compute; reflexivity|].
    split; [vm_compute; reflexivity|].
    split; [vm_compute; reflexivity|].
    do 4 eexists.
    split; [vm_compute; reflexivity|].
    split; [vm_compute; reflexivity|].
    split.
    + eexists. split; [reflexivity | vm_compute; reflexivity].
    + intros (q & E & K). injection E as <-. vm_compute in K. discriminate K.
  - intros hd.
    split; [simpl; lia|].
    split; [intros E; vm_compute in E; discriminate E|].
    split; [intros E; vm_compute in E; discriminate E|].
    split; [vm_compute; reflexivity|].
    split.
    { eexists. split; [vm_compute; reflexivity|].
      split.
      - eexists. split; [reflexivity | vm_compute; reflexivity].
      - intros (q & E & K). injection E as <-. vm_compute in K. discriminate K. }
    split; [intros N; vm_compute; reflexivity|].
    do 4 eexists.
    split; [vm_compute; reflexivity|].
    split; [vm_compute; reflexivity|].
    eexists. split; [reflexivity | vm_compute; reflexivity].
  - intros N frame period sig v. apply strategy_adx_no_value.
Qed.

(** * Further properties of the code *)

(** ** The streaming analyzer: the frame it keeps *)

Lemma fold_add_ticker (tickers : list WebSocketAnalyzer.ticker) (hd : DataFrame) :
  fold_left WebSocketAnalyzer.add_ticker tickers hd
  = hd ++ map (fun k => {| close := WebSocketAnalyzer.t_price k;
                           high := WebSocketAnalyzer.high_24_h k;
                           low := WebSocketAnalyzer.low_24_h k |})
              (filter (fun k => negb (F.Qis0 (WebSocketAnalyzer.t_price k))) tickers).
Proof.
  revert hd. induction tickers as [|k ks IH]; intros hd.
  - simpl. rewrite app_nil_r. reflexivity.
  - cbn [fold_left filter]. rewrite IH. unfold WebSocketAnalyzer.add_ticker.
    destruct (F.Qis0 (WebSocketAnalyzer.t_price k)); simpl; [reflexivity|].
    rewrite <- app_assoc. reflexivity.
Qed.

(** X1.  [update_data] reads the tickers of the first event only.  It
    keeps the rows it holds, in order, and appends one row per ticker whose
    price is not zero, in the order of the batch; nothing is ever evicted
    and no other field of the object changes.  A frame without a zero close
    stays so. *)
Theorem update_data_appends :
  forall (self self' : WebSocketAnalyzer.t)
         (tickers : list WebSocketAnalyzer.ticker) (later : WebSocketAnalyzer.message),
    WebSocketAnalyzer.update_data self (tickers :: later) = Ok self' ->
    let kept := filter (fun k => negb (F.Qis0 (WebSocketAnalyzer.t_price k))) tickers in
    WebSocketAnalyzer.historical_data self'
    = WebSocketAnalyzer.historical_data self
      ++ map (fun k => {| close := WebSocketAnalyzer.t_price k;
                          high := WebSocketAnalyzer.high_24_h k;
                          low := WebSocketAnalyzer.low_24_h k |}) kept
    /\ length (WebSocketAnalyzer.historical_data self')
       = (length (WebSocketAnalyzer.historical_data self) + length kept)%nat
    /\ WebSocketAnalyzer.period self' = WebSocketAnalyzer.period self
    /\ WebSocketAnalyzer.price self' = WebSocketAnalyzer.price self
    /\ WebSocketAnalyzer.balance self' = WebSocketAnalyzer.balance self
    /\ WebSocketAnalyzer.risk_threshold self' = WebSocketAnalyzer.risk_threshold self
    /\ (Forall (fun r => ~ close r == 0) (WebSocketAnalyzer.historical_data self) ->
        Forall (fun r => ~ close r == 0) (WebSocketAnalyzer.historical_data self')).
Proof.
  intros self self' tickers later E kept.
  unfold WebSocketAnalyzer.update_data in E. injection E as <-.
  unfold WebSocketAnalyzer.set_data. cbn [WebSocketAnalyzer.historical_data
    WebSocketAnalyzer.period WebSocketAnalyzer.price WebSocketAnalyzer.balance
    WebSocketAnalyzer.risk_threshold].
  rewrite fold_add_ticker. fold kept.
  split; [reflexivity|].
  split; [rewrite length_app, length_map; reflexivity|].
  repeat (split; [reflexivity|]).
  intros Hall. apply Forall_app. split; [exact Hall|].
  apply Forall_forall. intros r Hr. apply in_map_iff in Hr.
  destruct Hr as (k & <- & Hk). unfold kept in Hk. apply filter_In in Hk.
  destruct Hk as [_ Hk]. apply negb_true_iff in Hk. apply Qis0_false in Hk. exact Hk.
Qed.

Lemma update_data_appends_witness :
  let self := Sample.streaming 10000 2 100 [Sample.obs 1 2 0] in
  let k1 := {| WebSocketAnalyzer.t_price := 3; WebSocketAnalyzer.high_24_h := 4;
               WebSocketAnalyzer.low_24_h := 2 |} in
  let k0 := {| WebSocketAnalyzer.t_price := 0; WebSocketAnalyzer.high_24_h := 4;
               WebSocketAnalyzer.low_24_h := 2 |} in
  WebSocketAnalyzer.historical_data (WebSocketAnalyzer.set_data self
                                       [Sample.obs 1 2 0; Sample.obs 3 4 2])
  = [Sample.obs 1 2 0] ++ [Sample.obs 3 4 2].
Proof.
  intros self k1 k0.
  exact (proj1 (update_data_appends self
                  (WebSocketAnalyzer.set_data self [Sample.obs 1 2 0; Sample.obs 3 4 2])
                  [k0; k1] [] eq_refl)).
Defined.

(** ** The streaming analyzer: what [analyze] can return *)

Section AnalyzeFacts.

Context `{Numerics} `{Printer}.

(** with a price other than zero the gate answers *)
Lemma check_risk_with_price (self : WebSocketAnalyzer.t) (p : float) :
  WebSocketAnalyzer.price self = Some p ->
  (p =? 0)%float = false ->
  exists b, WebSocketAnalyzer.check_risk self = Ok b.
Proof.
  intros E Z. unfold WebSocketAnalyzer.check_risk, WebSocketAnalyzer.calculate_position_size.
  rewrite E, Z. cbn [bind].
  match goal with |- context [if ?c then Ok false else Ok true] => destruct c end;
    eexists; reflexivity.
Qed.

Lemma check_risk_zero_price (self : WebSocketAnalyzer.t) (p : float) :
  WebSocketAnalyzer.price self = Some p ->
  (p =? 0)%float = true ->
  WebSocketAnalyzer.check_risk self = Raise ZeroDivisionError.
Proof.
  intros E Z. unfold WebSocketAnalyzer.check_risk, WebSocketAnalyzer.calculate_position_size.
  rewrite E, Z. reflexivity.
Qed.

Lemma check_risk_without_price (self : WebSocketAnalyzer.t) :
  WebSocketAnalyzer.price self = None ->
  WebSocketAnalyzer.check_risk self = Raise TypeError.
Proof.
  intros E. unfold WebSocketAnalyzer.check_risk, WebSocketAnalyzer.calculate_position_size.
  rewrite E. reflexivity.
Qed.

Lemma update_data_price (self self' : WebSocketAnalyzer.t) (m : WebSocketAnalyzer.message) :
  WebSocketAnalyzer.update_data self m = Ok self' ->
  WebSocketAnalyzer.price self' = WebSocketAnalyzer.price self.
Proof.
  destruct m as [|tickers later]; [discriminate|]. intros E.
  injection E as <-. reflexivity.
Qed.

Lemma signal_values (rs : list pyval) :
  WebSocketAnalyzer.calculate_signal rs = "BUY"%string
  \/ WebSocketAnalyzer.calculate_signal rs = "SELL"%string
  \/ WebSocketAnalyzer.calculate_signal rs = "NEUTRAL"%string.
Proof.
  destruct (ws_signal_cases rs) as [[_ E] | [[_ [_ E]] | [_ [_ E]]]]; auto.
Qed.

End AnalyzeFacts.

(** X2.  An analyzer built without a price (the constructor's default)
    never returns from [analyze]: the strategies raise, or the position
    size divides by [None] and raises TypeError. *)
Theorem analyze_without_price_raises :
  forall (N : Numerics) (P : Printer) (self : WebSocketAnalyzer.t)
         (websocket_data : WebSocketAnalyzer.message),
    WebSocketAnalyzer.price self = None ->
    exists e, snd (WebSocketAnalyzer.analyze self websocket_data) = Raise e.
Proof.
  intros N P self websocket_data Hp.
  unfold WebSocketAnalyzer.analyze.
  destruct (WebSocketAnalyzer.update_data self websocket_data) as [self'|e] eqn:U; simpl;
    [| eexists; reflexivity].
  destruct (WebSocketAnalyzer.run_strategies self') as [rs|e]; simpl;
    [| eexists; reflexivity].
  rewrite check_risk_without_price; [eexists; reflexivity|].
  rewrite (update_data_price _ _ _ U). exact Hp.
Qed.

Lemma analyze_without_price_raises_witness :
  exists e,
    snd (@WebSocketAnalyzer.analyze Sample.numerics Sample.printer
           (Example.analyzer_without_price [Sample.obs 1 2 0]) [[]]) = Raise e.
Proof.
  apply (analyze_without_price_raises Sample.numerics Sample.printer).
  reflexivity.
Defined.



Section SellFacts.

Context `{Numerics} `{Printer}.

Lemma str_tuple_not_sell (vs : list pyval) :
  String.eqb (py_str (PyTuple vs)) "SELL" = false.
Proof.
  destruct (str_tuple_paren vs) as [rest E]. rewrite E. reflexivity.
Qed.

Lemma rsi_is_tag (self : WebSocketAnalyzer.t) (r : pyval) :
  WebSocketAnalyzer.calculate_rsi self = Ok r -> exists s, r = PyStr s.
Proof.
  unfold WebSocketAnalyzer.calculate_rsi. intros E. bind_inv E.
  injection E as <-. eexists; reflexivity.
Qed.

Lemma macd_is_tag (self : WebSocketAnalyzer.t) (a b c : nat) (r : pyval) :
  WebSocketAnalyzer.calculate_macd self a b c = Ok r -> exists s, r = PyStr s.
Proof.
  unfold WebSocketAnalyzer.calculate_macd. intros E. repeat bind_inv E.
  injection E as <-. eexists; reflexivity.
Qed.

Lemma bollinger_is_tag (self : WebSocketAnalyzer.t) (k : Q) (r : pyval) :
  WebSocketAnalyzer.calculate_bollinger_bands self k = Ok r -> exists s, r = PyStr s.
Proof.
  unfold WebSocketAnalyzer.calculate_bollinger_bands. intros E. bind_inv E.
  destruct a as [sma sma_val].
  destruct sma_val; try (injection E as <-; eexists; reflexivity).
  destruct (_ && _); [injection E as <-; eexists; reflexivity|].
  repeat bind_inv E.
  destruct (F.ltb _ _); [injection E as <-; eexists; reflexivity|].
  bind_inv E.
  destruct (F.gtb _ _); injection E as <-; eexists; reflexivity.
Qed.

Lemma adx_is_tag (self : WebSocketAnalyzer.t) (r : pyval) :
  WebSocketAnalyzer.calculate_adx self = Ok r -> exists s, r = PyStr s.
Proof.
  unfold WebSocketAnalyzer.calculate_adx. intros E. bind_inv E.
  destruct (F.gtb _ _); injection E as <-; eexists; reflexivity.
Qed.

Lemma run_strategies_parts (self : WebSocketAnalyzer.t) (rs : list pyval) :
  WebSocketAnalyzer.run_strategies self = Ok rs ->
  exists s1 s2 s3 v3 s4 s5 n6 x6 n7 x7,
    WebSocketAnalyzer.calculate_rsi self = Ok (PyStr s1)
    /\ WebSocketAnalyzer.calculate_macd self 12 26 9 = Ok (PyStr s2)
    /\ WebSocketAnalyzer.calculate_sma self = Ok (s3, v3)
    /\ WebSocketAnalyzer.calculate_bollinger_bands self 2 = Ok (PyStr s4)
    /\ WebSocketAnalyzer.calculate_adx self = Ok (PyStr s5)
    /\ rs = [PyStr s1; PyStr s2; PyTuple [PyStr s3; v3]; PyStr s4; PyStr s5;
             PySeries n6 x6; PySeries n7 x7].
Proof.
  unfold WebSocketAnalyzer.run_strategies. intros E.
  apply bind_Ok_inv in E. destruct E as (r1 & E1 & E).
  apply bind_Ok_inv in E. destruct E as (r2 & E2 & E).
  apply bind_Ok_inv in E. destruct E as ([s3 v3] & E3 & E).
  apply bind_Ok_inv in E. destruct E as (r4 & E4 & E).
  apply bind_Ok_inv in E. destruct E as (r5 & E5 & E).
  apply bind_Ok_inv in E. destruct E as (r6 & E6 & E).
  apply bind_Ok_inv in E. destruct E as (r7 & E7 & E).
  destruct (rsi_is_tag _ _ E1) as [s1 ->].
  destruct (macd_is_tag _ _ _ _ _ E2) as [s2 ->].
  destruct (bollinger_is_tag _ _ _ E4) as [s4 ->].
  destruct (adx_is_tag _ _ E5) as [s5 ->].
  unfold WebSocketAnalyzer.calculate_vtr in E6.
  unfold WebSocketAnalyzer.calculate_stochastic_oscillator in E7.
  injection E6 as <-. injection E7 as <-. injection E as <-.
  exists s1, s2, s3, v3, s4, s5. do 4 eexists.
  repeat (split; [eassumption|]). reflexivity.
Qed.

Lemma four_sell_votes (s1 s2 s3 s4 s5 : string) (v3 : pyval)
      (n6 n7 : option string) (x6 x7 : Pd.Series) :
  (4 <= WebSocketAnalyzer.count_str "SELL"
          [PyStr s1; PyStr s2; PyTuple [PyStr s3; v3]; PyStr s4; PyStr s5;
           PySeries n6 x6; PySeries n7 x7])%nat ->
  s1 = "SELL"%string /\ s2 = "SELL"%string /\ s4 = "SELL"%string /\ s5 = "SELL"%string.
Proof.
  unfold WebSocketAnalyzer.count_str. cbn [filter].
  rewrite str_tuple_not_sell.
  rewrite !str_series_not_tag by (simpl; lia).
  cbn [py_str].
  destruct (String.eqb_spec s1 "SELL"), (String.eqb_spec s2 "SELL"),
    (String.eqb_spec s4 "SELL"), (String.eqb_spec s5 "SELL"); simpl; intros L;
    try lia; auto.
Qed.

End SellFacts.

(** X4.  [analyze] returns "SELL" only when the four strategies that
    return a plain tag (RSI, MACD, Bollinger, ADX) all answer "SELL" on the
    updated frame: the SMA, volatility and stochastic results can never
    count, and the threshold is four. *)
Theorem analyze_sell_is_unanimous :
  forall (N : Numerics) (P : Printer) (self : WebSocketAnalyzer.t)
         (websocket_data : WebSocketAnalyzer.message),
    snd (WebSocketAnalyzer.analyze self websocket_data) = Ok "SELL"%string ->
    let self' := fst (WebSocketAnalyzer.analyze self websocket_data) in
    WebSocketAnalyzer.calculate_rsi self' = Ok (PyStr "SELL")
    /\ WebSocketAnalyzer.calculate_macd self' 12 26 9 = Ok (PyStr "SELL")
    /\ WebSocketAnalyzer.calculate_bollinger_bands self' 2 = Ok (PyStr "SELL")
    /\ WebSocketAnalyzer.calculate_adx self' = Ok (PyStr "SELL").
Proof.
  intros N P self websocket_data.
  unfold WebSocketAnalyzer.analyze.
  destruct (WebSocketAnalyzer.update_data self websocket_data) as [self'|e]; simpl;
    [| discriminate].
  destruct (WebSocketAnalyzer.run_strategies self') as [rs|e] eqn:R; simpl; [| discriminate].
  destruct (WebSocketAnalyzer.check_risk self') as [[|]|e] eqn:C; simpl;
    [| discriminate | discriminate].
  intros E. injection E as E.
  destruct (run_strategies_parts self' rs R)
    as (s1 & s2 & s3 & v3 & s4 & s5 & n6 & x6 & n7 & x7 & E1 & E2 & _ & E4 & E5 & ->).
  destruct (ws_signal_cases
              [PyStr s1; PyStr s2; PyTuple [PyStr s3; v3]; PyStr s4; PyStr s5;
               PySeries n6 x6; PySeries n7 x7])
    as [[_ K] | [[_ [Hs _]] | [_ [_ K]]]]; try (rewrite K in E; discriminate E).
  destruct (four_sell_votes _ _ _ _ _ _ _ _ _ _ Hs) as (-> & -> & -> & ->).
  auto.
Qed.

Lemma analyze_sell_is_unanimous_witness :
  let N := Sample.numerics in
  let P := Sample.printer in
  let self' := Example.analyzer 6 (Example.falling_then_flat ++ [Sample.obs 3 200 0]) in
  WebSocketAnalyzer.calculate_rsi self' = Ok (PyStr "SELL")
  /\ WebSocketAnalyzer.calculate_macd self' 12 26 9 = Ok (PyStr "SELL")
  /\ WebSocketAnalyzer.calculate_bollinger_bands self' 2 = Ok (PyStr "SELL")
  /\ WebSocketAnalyzer.calculate_adx self' = Ok (PyStr "SELL").
Proof.
  intros N P self'.
  apply (analyze_sell_is_unanimous N P (Example.analyzer 6 Example.falling_then_flat)
           [[Example.tick 3 200 0]]).
  vm_compute. reflexivity.
Defined.

(** ** Risk sizing across the modules *)

(** X5.  The risk gate of the streaming analyzer validates nothing.  A
    missing price raises TypeError and a zero price (of either sign)
    ZeroDivisionError; for every other price it answers, also for a balance
    that is not positive, which [strategy.check_risk] refuses.  What it
    answers is decided by rounding: with the constructor's defaults it is
    True at the price 100 and False at the price 11. *)
Theorem streaming_check_risk_characterised :
  (forall (self : WebSocketAnalyzer.t),
      match WebSocketAnalyzer.price self with
      | None => WebSocketAnalyzer.check_risk self = Raise TypeError
      | Some p =>
          ((p =? 0)%float = true ->
           WebSocketAnalyzer.check_risk self = Raise ZeroDivisionError)
          /\ ((p =? 0)%float = false ->
              exists b, WebSocketAnalyzer.check_risk self = Ok b)
      end)
  /\ (forall hd, WebSocketAnalyzer.check_risk (Sample.streaming 10000 2 100 hd) = Ok true)
  /\ (forall hd, WebSocketAnalyzer.check_risk (Sample.streaming 10000 2 11 hd) = Ok false)
  /\ (forall hd, WebSocketAnalyzer.check_risk (Sample.streaming (-10000) 2 100 hd) = Ok true)
  /\ (forall hd, WebSocketAnalyzer.check_risk (Sample.streaming 10000 2 (-0) hd)
                 = Raise ZeroDivisionError).
Proof.
  split; [| repeat split].
  intros self.
  destruct (WebSocketAnalyzer.price self) as [p|] eqn:E.
  - split; intros Hp.
    + apply (check_risk_zero_price self p E Hp).
    + apply (check_risk_with_price self p E Hp).
  - apply check_risk_without_price. exact E.
Qed.

(** X7.  [check_risk_and_alert] sends the "Position Size Too Small" alert
    for every valid input, whatever the size: the second half of its test
    compares two constants.  The "Risk check passed" line is logged only
    when the balance or the price is not positive, with position size
    None. *)
Theorem alert_sent_for_every_valid_input :
  forall (P : Printer) (alert_email : string) (balance price risk : Q),
    (0 < balance /\ 0 < price ->
     EmailNotifier.check_risk_and_alert alert_email balance price risk
     = EmailNotifier.SendEmailAlert
         "Risk Alert: Position Size Too Small"
         ("Risk threshold exceeded. Current position size: "
          ++ repr_float (Fin (balance * risk / 100 / price))
          ++ ". Consider taking action.")
         alert_email)
    /\ (balance <= 0 \/ price <= 0 ->
        EmailNotifier.check_risk_and_alert alert_email balance price risk
        = EmailNotifier.LoggingInfo "Risk check passed: Position size: None").
Proof.
  intros P alert_email balance price risk. split.
  - intros [Hb Hp]. unfold EmailNotifier.check_risk_and_alert, Strategy.check_risk.
    rewrite (proj2 (Qle_bool_false balance 0) Hb), (proj2 (Qle_bool_false price 0) Hp).
    reflexivity.
  - intros K. unfold EmailNotifier.check_risk_and_alert, Strategy.check_risk.
    assert (B : Qle_bool balance 0 || Qle_bool price 0 = true).
    { apply orb_true_iff. destruct K as [K | K]; [left | right]; apply Qle_bool_iff; exact K. }
    rewrite B. reflexivity.
Qed.

(** ** Windows that are not full *)

Lemma observations_length_le (win : Pd.Series) :
  (length (Pd.observations win) <= length win)%nat.
Proof.
  induction win as [|x t IH]; simpl; [lia|]. destruct x; simpl; lia.
Qed.

Lemma observations_length_lt (win : Pd.Series) (x : fval) :
  In x win -> F.to_Q x = None -> (length (Pd.observations win) < length win)%nat.
Proof.
  induction win as [|y t IH]; simpl; [contradiction|].
  intros [-> | Hin] Hx.
  - pose proof (observations_length_le t). destruct x; simpl in *; try discriminate; lia.
  - specialize (IH Hin Hx). destruct y; simpl; lia.
Qed.

Lemma window_at_length {A : Type} (w : nat) (xs : list A) (i : nat) :
  (i < length xs)%nat -> length (Pd.window_at w xs i) = Nat.min w (S i).
Proof.
  intros L. unfold Pd.window_at. rewrite length_skipn, length_firstn. lia.
Qed.

(** a window that reaches before the first position gives NaN *)
Lemma rolling_short (w : nat) (agg : list Q -> fval) (xs : Pd.Series) (i : nat) :
  (i < length xs)%nat -> (S i < w)%nat -> nth i (Pd.rolling w w agg xs) NaN = NaN.
Proof.
  intros L S. rewrite nth_rolling by exact L. cbv zeta.
  pose proof (observations_length_le (Pd.window_at w xs i)) as O.
  rewrite window_at_length in O by exact L.
  destruct (Nat.ltb_spec (length (Pd.observations (Pd.window_at w xs i))) w); [reflexivity | lia].
Qed.

(** a window that holds a value which is not finite gives NaN *)
Lemma rolling_missing (w : nat) (agg : list Q -> fval) (xs : Pd.Series) (i j : nat) :
  (i < length xs)%nat -> (S i - w <= j <= i)%nat -> F.to_Q (nth j xs NaN) = None ->
  nth i (Pd.rolling w w agg xs) NaN = NaN.
Proof.
  intros L J M.
  destruct (Nat.le_gt_cases w (S i)) as [W | W].
  - rewrite nth_rolling by exact L. cbv zeta.
    assert (I : In (nth j xs NaN) (Pd.window_at w xs i)).
    { rewrite (window_at_seq w xs i NaN L W). apply in_map_iff.
      exists j. split; [reflexivity | apply in_seq; lia]. }
    pose proof (observations_length_lt _ _ I M) as O.
    rewrite window_at_length in O by exact L.
    destruct (Nat.ltb_spec (length (Pd.observations (Pd.window_at w xs i))) w);
      [reflexivity | lia].
  - apply rolling_short; [exact L | lia].
Qed.

Lemma iloc_last_rolling_short (w : nat) (agg : list Q -> fval) (xs : Pd.Series) :
  (1 <= length xs < w)%nat -> Pd.iloc_last (Pd.rolling w w agg xs) = Ok NaN.
Proof.
  intros L.
  rewrite (iloc_last_at _ NaN (length xs - 1)) by (rewrite rolling_length; lia).
  rewrite rolling_short by lia. reflexivity.
Qed.

Lemma all_nan_dropna (xs : Pd.Series) :
  (forall i, (i < length xs)%nat -> nth i xs NaN = NaN) -> Pd.dropna xs = [].
Proof.
  induction xs as [|x t IH]; intros K; [reflexivity|].
  unfold Pd.dropna in *. simpl.
  rewrite (K O ltac:(simpl; lia) : x = NaN). simpl.
  apply IH. intros i Hi. apply (K (S i)). simpl. lia.
Qed.

Lemma iloc_last_cons {A : Type} (x : A) (t : list A) : exists y, Pd.iloc_last (x :: t) = Ok y.
Proof.
  exists (nth (length (x :: t) - 1) (x :: t) x). apply iloc_last_nth. discriminate.
Qed.

Lemma iloc_last_nonempty {A : Type} (xs : list A) :
  (0 < length xs)%nat -> exists y, Pd.iloc_last xs = Ok y.
Proof.
  destruct xs as [|x t]; simpl; intros L; [lia | apply iloc_last_cons].
Qed.

(** ** Which exception [MarketAnalyzer.analyze] raises *)

Section MarketErrorKind.

Context `{Numerics}.

Ltac guarded_ok :=
  repeat match goal with
    | |- context [(?a <? length ?xs)%nat] =>
        destruct (Nat.ltb_spec a (length xs)); cbn [andb]
    | L : (0 < length ?xs)%nat |- context [Pd.iloc_last ?xs] =>
        let y := fresh "y" in let E := fresh "E" in
        destruct (iloc_last_nonempty xs L) as [y E]; rewrite E; cbn [bind]
    | |- context [if ?c then _ else _] => destruct c
    end; eexists; reflexivity.

Lemma eval_rsi_ok (rsi : Pd.Series) : exists s, MarketAnalyzer.eval_rsi rsi = Ok s.
Proof. unfold MarketAnalyzer.eval_rsi. guarded_ok. Qed.

Lemma eval_macd_ok (macd sl : Pd.Series) : exists s, MarketAnalyzer.eval_macd macd sl = Ok s.
Proof. unfold MarketAnalyzer.eval_macd. guarded_ok. Qed.

Lemma eval_sma_ok (sma : Pd.Series) : exists s, MarketAnalyzer.eval_sma sma = Ok s.
Proof.
  unfold MarketAnalyzer.eval_sma, Pd.iloc_last2.
  destruct sma as [|a [|b t]]; try (eexists; reflexivity).
  assert (L : (1 <? length (a :: b :: t))%nat = true) by reflexivity.
  rewrite L.
  destruct (iloc_last_cons a (b :: t)) as [y ->].
  change (removelast (a :: b :: t)) with (a :: removelast (b :: t)).
  destruct (iloc_last_cons a (removelast (b :: t))) as [z ->].
  eexists; reflexivity.
Qed.

Lemma eval_bollinger_ok (self : MarketAnalyzer.t) (ub lb : Pd.Series) :
  exists s, MarketAnalyzer.eval_bollinger self ub lb = Ok s.
Proof. unfold MarketAnalyzer.eval_bollinger. guarded_ok. Qed.

Lemma eval_adx_ok (adx : Pd.Series) : exists s, MarketAnalyzer.eval_adx adx = Ok s.
Proof. unfold MarketAnalyzer.eval_adx. guarded_ok. Qed.

Lemma eval_vtr_ok (vtr : Pd.Series) : exists s, MarketAnalyzer.eval_vtr vtr = Ok s.
Proof. unfold MarketAnalyzer.eval_vtr. guarded_ok. Qed.

Lemma evaluate_signals_outcome self rsi macd sl sma ub lb adx vtr stx :
  (Pd.dropna stx = [] ->
   MarketAnalyzer.evaluate_signals self rsi macd sl sma ub lb adx vtr stx = Raise IndexError)
  /\ (Pd.dropna stx <> [] ->
      exists sigs,
        MarketAnalyzer.evaluate_signals self rsi macd sl sma ub lb adx vtr stx = Ok sigs).
Proof.
  unfold MarketAnalyzer.evaluate_signals.
  destruct (eval_rsi_ok (Pd.dropna rsi)) as [s1 ->].
  destruct (eval_macd_ok (Pd.dropna macd) (Pd.dropna sl)) as [s2 ->].
  destruct (eval_sma_ok (Pd.dropna sma)) as [s3 ->].
  destruct (eval_bollinger_ok self (Pd.dropna ub) (Pd.dropna lb)) as [s4 ->].
  destruct (eval_adx_ok (Pd.dropna adx)) as [s5 ->].
  destruct (eval_vtr_ok (Pd.dropna vtr)) as [s6 ->].
  cbn [bind]. unfold MarketAnalyzer.eval_stochastic.
  split; intros E.
  - rewrite E. reflexivity.
  - destruct (Pd.dropna stx) as [|x t]; [congruence|].
    destruct (iloc_last_cons x t) as [y ->]. eexists; reflexivity.
Qed.

End MarketErrorKind.

(** X8.  With a period of at least 1, [MarketAnalyzer.analyze] raises
    IndexError exactly when the stochastic series has no value that is not
    NaN, and ValueError (the assignment of six signals to seven names) in
    every other case.  With period 0 it raises ValueError earlier, at the
    [rolling(window=0, min_periods=1)] of [calculate_adx]. *)
Theorem market_analyze_error_kind :
  forall (N : Numerics) (self : MarketAnalyzer.t),
    let stx := MarketAnalyzer.calculate_stochastic_oscillator self in
    ((1 <= MarketAnalyzer.period self)%nat ->
     (Pd.dropna stx = [] <-> MarketAnalyzer.analyze self = Raise IndexError)
     /\ (Pd.dropna stx <> [] <-> MarketAnalyzer.analyze self = Raise ValueError))
    /\ (MarketAnalyzer.period self = 0%nat ->
        MarketAnalyzer.calculate_adx self = Raise ValueError
        /\ MarketAnalyzer.analyze self = Raise ValueError).
Proof.
  intros N self stx.
  assert (M : exists ms, MarketAnalyzer.calculate_macd self 12 26 9 = Ok ms)
    by (eexists; reflexivity).
  destruct M as [[macd sl] M].
  split.
  - intros Hp.
    assert (A : (Pd.dropna stx = [] -> MarketAnalyzer.analyze self = Raise IndexError)
                /\ (Pd.dropna stx <> [] -> MarketAnalyzer.analyze self = Raise ValueError)).
    { unfold MarketAnalyzer.analyze. rewrite M.
      destruct (MarketAnalyzer.calculate_bollinger_bands self 2) as [ub lb].
      destruct (calculate_adx_cases self) as [[Z _] | [_ (adx & pdi & mdi & A)]]; [lia|].
      rewrite A. cbn [bind]. fold stx.
      destruct (evaluate_signals_outcome self (MarketAnalyzer.calculate_rsi self) macd sl
                  (MarketAnalyzer.calculate_sma self) ub lb adx
                  (MarketAnalyzer.calculate_vtr self) stx) as [E0 E1].
      split; intros E.
      - rewrite (E0 E). reflexivity.
      - destruct (E1 E) as [sigs K]. rewrite K. cbn [bind].
        rewrite (unpack7_six _ (evaluate_signals_six _ _ _ _ _ _ _ _ _ _ _ K)).
        reflexivity. }
    destruct A as [A0 A1].
    split; split; intros E; auto.
    + destruct (Pd.dropna stx) as [|x t] eqn:D; [reflexivity|].
      rewrite A1 in E by discriminate. discriminate E.
    + intros D. rewrite (A0 D) in E. discriminate E.
  - intros Z.
    destruct (calculate_adx_cases self) as [[_ A] | [Hp _]]; [| lia].
    split; [exact A|].
    unfold MarketAnalyzer.analyze. rewrite M.
    destruct (MarketAnalyzer.calculate_bollinger_bands self 2) as [ub lb].
    rewrite A. reflexivity.
Qed.

Lemma stochastic_length `{Numerics} (self : MarketAnalyzer.t) :
  length (MarketAnalyzer.calculate_stochastic_oscillator self)
  = length (MarketAnalyzer.historical_data self).
Proof.
  unfold MarketAnalyzer.calculate_stochastic_oscillator, Pd.sdiv, Pd.c_mul, Pd.ssub,
    Pd.rolling_min, Pd.rolling_max.
  rewrite !map2_length, length_map, map2_length, !rolling_length, !col_length. lia.
Qed.

(** where the window is not full the oscillator is NaN *)
Lemma stochastic_not_full `{Numerics} (self : MarketAnalyzer.t) (i : nat) :
  (i < length (MarketAnalyzer.historical_data self))%nat ->
  (S i < MarketAnalyzer.period self)%nat ->
  nth i (MarketAnalyzer.calculate_stochastic_oscillator self) NaN = NaN.
Proof.
  intros L S.
  set (hd := MarketAnalyzer.historical_data self) in *.
  set (p := MarketAnalyzer.period self) in *.
  unfold MarketAnalyzer.calculate_stochastic_oscillator. fold hd. fold p.
  assert (Lmin : length (Pd.rolling_min p (col low hd)) = length hd)
    by (unfold Pd.rolling_min; rewrite rolling_length, col_length; reflexivity).
  assert (Lmax : length (Pd.rolling_max p (col high hd)) = length hd)
    by (unfold Pd.rolling_max; rewrite rolling_length, col_length; reflexivity).
  assert (Ls : length (Pd.ssub (col close hd) (Pd.rolling_min p (col low hd))) = length hd)
    by (unfold Pd.ssub; rewrite map2_length, col_length, Lmin; lia).
  assert (Lr : length (Pd.ssub (Pd.rolling_max p (col high hd))
                               (Pd.rolling_min p (col low hd))) = length hd)
    by (unfold Pd.ssub; rewrite map2_length, Lmax, Lmin; lia).
  unfold Pd.sdiv.
  rewrite (nth_map2 F.div _ _ i NaN NaN)
    by (unfold Pd.c_mul; rewrite ?length_map, ?Ls, ?Lr; exact L).
  unfold Pd.ssub at 2.
  rewrite (nth_map2 F.sub _ _ i NaN NaN) by (rewrite ?Lmax, ?Lmin; exact L).
  unfold Pd.rolling_min at 2.
  rewrite (rolling_short p Pd.agg_min (col low hd) i) by (rewrite ?col_length; assumption).
  destruct (nth i (Pd.c_mul _ _) NaN), (nth i (Pd.rolling_max p (col high hd)) NaN);
    reflexivity.
Qed.

(** X9.  On a frame with fewer observations than the period (the empty
    frame included) [MarketAnalyzer.analyze] raises IndexError: every value
    of the stochastic series is NaN and [stx.iloc[-1]] has no guard. *)
Theorem market_analyze_short_frame :
  forall (N : Numerics) (self : MarketAnalyzer.t),
    (length (MarketAnalyzer.historical_data self) < MarketAnalyzer.period self)%nat ->
    MarketAnalyzer.analyze self = Raise IndexError.
Proof.
  intros N self L.
  assert (D : Pd.dropna (MarketAnalyzer.calculate_stochastic_oscillator self) = []).
  { apply all_nan_dropna. intros i Hi. rewrite stochastic_length in Hi.
    apply stochastic_not_full; [exact Hi | lia]. }
  unfold MarketAnalyzer.analyze.
  assert (M : exists ms, MarketAnalyzer.calculate_macd self 12 26 9 = Ok ms)
    by (eexists; reflexivity).
  destruct M as [[macd sl] M]. rewrite M.
  destruct (MarketAnalyzer.calculate_bollinger_bands self 2) as [ub lb].
  destruct (calculate_adx_cases self) as [[Z _] | [_ (adx & pdi & mdi & A)]]; [lia|].
  rewrite A. cbn [bind].
  rewrite (proj1 (evaluate_signals_outcome self (MarketAnalyzer.calculate_rsi self) macd sl
                    (MarketAnalyzer.calculate_sma self) ub lb adx
                    (MarketAnalyzer.calculate_vtr self)
                    (MarketAnalyzer.calculate_stochastic_oscillator self)) D).
  reflexivity.
Qed.

Lemma market_analyze_short_frame_witness :
  @MarketAnalyzer.analyze Sample.numerics
    (Sample.market 4 14 [Sample.obs 1 2 0; Sample.obs 5 6 4]) = Raise IndexError.
Proof.
  apply (market_analyze_short_frame Sample.numerics). simpl. lia.
Defined.

(** ** The streaming analyzer before the window is full *)

Ltac series_length :=
  unfold Pd.c_sub, Pd.c_div, Pd.c_add, Pd.c_mul, Pd.mul_c, Pd.div_c, Pd.sdiv, Pd.sadd,
    Pd.ssub, Pd.sneg, Pd.sabs, Pd.row_max3, Pd.where_, Pd.gt_c, Pd.lt_c,
    Pd.rolling_mean, Pd.rolling_sum, Pd.rolling_min, Pd.rolling_max, Pd.of_list;
  repeat (rewrite ?map2_length, ?length_map, ?rolling_length, ?diff_length,
           ?shift1_length, ?col_length);
  try lia.

Lemma ewm_from_length (a prev : Q) (xs : list Q) :
  length (Pd.ewm_from a prev xs) = length xs.
Proof.
  revert prev. induction xs as [|x t IH]; intros prev; simpl; [reflexivity|].
  rewrite IH. reflexivity.
Qed.

Lemma ewm_mean_length (span : Q) (xs : list Q) : length (Pd.ewm_mean span xs) = length xs.
Proof.
  destruct xs as [|x t]; simpl; [reflexivity | rewrite ewm_from_length; reflexivity].
Qed.

(** with spans of at least one, the two lines have one value per row *)
Lemma macd_lines_ok (hd : DataFrame) (a b c : nat) :
  (1 <= a)%nat -> (1 <= b)%nat -> (1 <= c)%nat ->
  exists macd signal_line,
    Strategy.macd_lines hd a b c = Ok (macd, signal_line)
    /\ length macd = length hd /\ length signal_line = length hd.
Proof.
  intros A B C. unfold Strategy.macd_lines, Strategy.ewm.
  destruct (Nat.ltb_spec a 1); [lia|]. destruct (Nat.ltb_spec b 1); [lia|].
  destruct (Nat.ltb_spec c 1); [lia|]. cbn [bind].
  eexists. eexists. split; [reflexivity|].
  rewrite ewm_mean_length, map2_length, !ewm_mean_length, length_map. lia.
Qed.

Section ShortWindow.

Context `{Numerics} `{Printer}.

Variable self : WebSocketAnalyzer.t.

Let hd := WebSocketAnalyzer.historical_data self.
Let p := WebSocketAnalyzer.period self.

Hypothesis Hshort : (1 <= length hd < p)%nat.

Lemma short_rsi : WebSocketAnalyzer.calculate_rsi self = Ok (PyStr "NEUTRAL").
Proof.
  unfold WebSocketAnalyzer.calculate_rsi, WebSocketAnalyzer.rsi_series. fold hd. fold p.
  set (delta := Pd.diff (col close hd)).
  set (gain := Pd.rolling_mean p (Pd.where_ delta (Pd.gt_c delta (Fin 0)) (Fin 0))).
  set (loss := Pd.rolling_mean p (Pd.sneg (Pd.where_ delta (Pd.lt_c delta (Fin 0)) (Fin 0)))).
  assert (Ld : length delta = length hd) by (unfold delta; series_length).
  assert (Lg : length gain = length hd) by (unfold gain; series_length).
  assert (Ll : length loss = length hd) by (unfold loss; series_length).
  assert (Lr : length (Pd.sdiv gain loss) = length hd) by series_length.
  unfold Pd.c_sub, Pd.c_div, Pd.c_add.
  rewrite (iloc_last_at _ NaN (length hd - 1)) by (rewrite !length_map, Lr; lia).
  rewrite (nth_map_in (F.sub (Fin 100)) _ _ NaN) by (rewrite !length_map, Lr; lia).
  rewrite (nth_map_in (F.div (Fin 100)) _ _ NaN) by (rewrite !length_map, Lr; lia).
  rewrite (nth_map_in (F.add (Fin 1)) _ _ NaN) by (rewrite Lr; lia).
  unfold Pd.sdiv.
  rewrite (nth_map2 F.div _ _ _ NaN NaN) by (rewrite ?Lg, ?Ll; lia).
  unfold gain at 1, Pd.rolling_mean.
  rewrite rolling_short by (series_length; rewrite ?Ld; lia).
  reflexivity.
Qed.

Lemma short_sma : WebSocketAnalyzer.calculate_sma self = Ok ("NEUTRAL"%string, PyNone).
Proof.
  unfold WebSocketAnalyzer.calculate_sma. fold hd. fold p.
  destruct (Nat.ltb_spec (length hd) p); [reflexivity | lia].
Qed.

Lemma short_bollinger (k : Q) :
  WebSocketAnalyzer.calculate_bollinger_bands self k = Ok (PyStr "Error").
Proof.
  unfold WebSocketAnalyzer.calculate_bollinger_bands. rewrite short_sma. reflexivity.
Qed.

Lemma short_adx : WebSocketAnalyzer.calculate_adx self = Ok (PyStr "SELL").
Proof.
  unfold WebSocketAnalyzer.calculate_adx, WebSocketAnalyzer.adx_series. fold hd. fold p.
  cbv zeta.
  match goal with
  | |- context [Pd.iloc_last (Pd.rolling_mean ?w ?xs)] =>
      change (Pd.rolling_mean w xs) with (Pd.rolling w w Pd.agg_mean xs)
  end.
  rewrite iloc_last_rolling_short; [reflexivity|].
  series_length.
Qed.

Lemma short_macd :
  exists s, WebSocketAnalyzer.calculate_macd self 12 26 9 = Ok (PyStr s).
Proof.
  unfold WebSocketAnalyzer.calculate_macd. fold hd.
  destruct (macd_lines_ok hd 12 26 9) as (macd & sl & E & Lm & Ls); try lia.
  rewrite E. cbn [bind fst snd].
  destruct (iloc_last_nonempty macd) as [m ->]; [lia|].
  destruct (iloc_last_nonempty sl) as [s ->]; [lia|].
  eexists; reflexivity.
Qed.

Lemma short_signal :
  exists s2 x6 x7,
    WebSocketAnalyzer.run_strategies self
    = Ok [PyStr "NEUTRAL"; PyStr s2; PyTuple [PyStr "NEUTRAL"; PyNone]; PyStr "Error";
          PyStr "SELL"; PySeries (Some "close"%string) x6; PySeries None x7]
    /\ WebSocketAnalyzer.calculate_signal
         [PyStr "NEUTRAL"; PyStr s2; PyTuple [PyStr "NEUTRAL"; PyNone]; PyStr "Error";
          PyStr "SELL"; PySeries (Some "close"%string) x6; PySeries None x7]
       = "NEUTRAL"%string.
Proof.
  destruct short_macd as [s2 M].
  exists s2. do 2 eexists. split.
  - unfold WebSocketAnalyzer.run_strategies.
    rewrite short_rsi, M, short_sma, short_bollinger, short_adx.
    unfold WebSocketAnalyzer.calculate_vtr, WebSocketAnalyzer.calculate_stochastic_oscillator.
    reflexivity.
  - pose proof (str_tuple_not_buy [PyStr "NEUTRAL"; PyNone]) as TB.
    pose proof (str_tuple_not_sell [PyStr "NEUTRAL"; PyNone]) as TS.
    set (tuple := PyTuple [PyStr "NEUTRAL"; PyNone]) in *.
    unfold WebSocketAnalyzer.calculate_signal, WebSocketAnalyzer.count_str.
    cbn [filter].
    rewrite TB, TS.
    rewrite !str_series_not_tag by (simpl; lia).
    cbn [py_str].
    destruct (String.eqb s2 "BUY"), (String.eqb s2 "SELL"); reflexivity.
Qed.

End ShortWindow.

(** X10.  While the streaming analyzer holds at least one observation and
    fewer than [period], RSI answers "NEUTRAL", the SMA gives no value,
    Bollinger answers "Error", and ADX answers "SELL" (its NaN fails the
    comparison with 25); the vote of the seven results is "NEUTRAL". *)
Theorem streaming_before_window_full :
  forall (N : Numerics) (P : Printer) (self : WebSocketAnalyzer.t),
    (1 <= length (WebSocketAnalyzer.historical_data self) < WebSocketAnalyzer.period self)%nat ->
    WebSocketAnalyzer.calculate_rsi self = Ok (PyStr "NEUTRAL")
    /\ WebSocketAnalyzer.calculate_sma self = Ok ("NEUTRAL"%string, PyNone)
    /\ WebSocketAnalyzer.calculate_bollinger_bands self 2 = Ok (PyStr "Error")
    /\ WebSocketAnalyzer.calculate_adx self = Ok (PyStr "SELL")
    /\ (exists rs, WebSocketAnalyzer.run_strategies self = Ok rs
                   /\ WebSocketAnalyzer.calculate_signal rs = "NEUTRAL"%string).
Proof.
  intros N P self L.
  split; [apply short_rsi; exact L|].
  split; [apply short_sma; exact L|].
  split; [apply short_bollinger; exact L|].
  split; [apply short_adx; exact L|].
  destruct (short_signal self L) as (s2 & x6 & x7 & R & S).
  eexists. split; [exact R | exact S].
Qed.

Lemma streaming_before_window_full_witness :
  let N := Sample.numerics in
  let P := Sample.printer in
  let self := Sample.streaming 10000 2 100 [Sample.obs 1 2 0; Sample.obs 2 3 1] in
  WebSocketAnalyzer.calculate_rsi self = Ok (PyStr "NEUTRAL")
  /\ WebSocketAnalyzer.calculate_sma self = Ok ("NEUTRAL"%string, PyNone)
  /\ WebSocketAnalyzer.calculate_bollinger_bands self 2 = Ok (PyStr "Error")
  /\ WebSocketAnalyzer.calculate_adx self = Ok (PyStr "SELL")
  /\ (exists rs, WebSocketAnalyzer.run_strategies self = Ok rs
                 /\ WebSocketAnalyzer.calculate_signal rs = "NEUTRAL"%string).
Proof.
  intros N P self. apply (streaming_before_window_full N P self). simpl. lia.
Defined.

(** X11.  A call of [analyze] that leaves the analyzer with at least one
    observation and fewer than [period], the price being set and not zero,
    returns "NEUTRAL" if the gate accepts and "No Action" if it does not:
    before the window is full no batch yields "SELL" or "BUY". *)
Theorem analyze_neutral_before_window_full :
  forall (N : Numerics) (P : Printer) (self self' : WebSocketAnalyzer.t)
         (websocket_data : WebSocketAnalyzer.message) (p : float),
    WebSocketAnalyzer.update_data self websocket_data = Ok self' ->
    (1 <= length (WebSocketAnalyzer.historical_data self')
     < WebSocketAnalyzer.period self')%nat ->
    WebSocketAnalyzer.price self = Some p ->
    (p =? 0)%float = false ->
    exists accepted : bool,
      WebSocketAnalyzer.check_risk self' = Ok accepted
      /\ WebSocketAnalyzer.analyze self websocket_data
         = (self', Ok (if accepted then "NEUTRAL" else "No Action")%string).
Proof.
  intros N P self self' websocket_data p U L Hp Nz.
  unfold WebSocketAnalyzer.analyze. rewrite U.
  destruct (short_signal self' L) as (s2 & x6 & x7 & R & S).
  rewrite R. cbn [bind]. rewrite S.
  assert (Hp' : WebSocketAnalyzer.price self' = Some p)
    by (rewrite (update_data_price _ _ _ U); exact Hp).
  destruct (check_risk_with_price self' p Hp' Nz) as [accepted C].
  exists accepted. split; [exact C|].
  rewrite C. cbn [bind]. destruct accepted; reflexivity.
Qed.

Lemma analyze_neutral_before_window_full_witness :
  exists accepted : bool,
    WebSocketAnalyzer.check_risk (Example.analyzer 14 [Sample.obs 1 2 0; Sample.obs 2 3 1])
    = Ok accepted
    /\ @WebSocketAnalyzer.analyze Sample.numerics Sample.printer
         (Example.analyzer 14 [Sample.obs 1 2 0]) [[Example.tick 2 3 1]]
       = (Example.analyzer 14 [Sample.obs 1 2 0; Sample.obs 2 3 1],
          Ok (if accepted then "NEUTRAL" else "No Action")%string).
Proof.
  apply (analyze_neutral_before_window_full Sample.numerics Sample.printer
           (Example.analyzer 14 [Sample.obs 1 2 0])
           (Example.analyzer 14 [Sample.obs 1 2 0; Sample.obs 2 3 1])
           [[Example.tick 2 3 1]] 100).
  - reflexivity.
  - simpl. lia.
  - reflexivity.
  - reflexivity.
Defined.

(** X12.  On a window of at least [period] observations the Bollinger
    strategy of the streaming analyzer answers "BUY", "SELL" or "NEUTRAL",
    never "Error": the SMA has a value, and the test on the rolling
    deviation sits behind a comparison of the SMA signal with "Neutral",
    which no SMA signal equals. *)
Theorem streaming_bollinger_full_window :
  forall (N : Numerics) (P : Printer) (self : WebSocketAnalyzer.t) (k : Q),
    (1 <= WebSocketAnalyzer.period self
     <= length (WebSocketAnalyzer.historical_data self))%nat ->
    exists s,
      WebSocketAnalyzer.calculate_bollinger_bands self k = Ok (PyStr s)
      /\ (s = "BUY" \/ s = "SELL" \/ s = "NEUTRAL")%string.
Proof.
  intros N P self k L.
  set (hd := WebSocketAnalyzer.historical_data self) in *.
  set (p := WebSocketAnalyzer.period self) in *.
  destruct (streaming_sma hd p L self eq_refl eq_refl) as (m & _ & E).
  unfold WebSocketAnalyzer.calculate_bollinger_bands. rewrite E. cbn [bind].
  fold hd. fold p.
  assert (G : String.eqb (if F.Qltb m (Formula.price_at close hd (length hd - 1))
                          then "BUY" else "SELL") "Neutral" = false)
    by (destruct (F.Qltb _ _); reflexivity).
  rewrite G. cbn [andb].
  assert (Ls : length (Pd.rolling_std p (col close hd)) = length hd)
    by (unfold Pd.rolling_std; rewrite rolling_length, col_length; reflexivity).
  destruct (iloc_last_nonempty (col close hd)) as [c ->]; [rewrite col_length; lia|].
  destruct (iloc_last_nonempty
              (Pd.c_sub (Fin m) (Pd.mul_c (Pd.rolling_std p (col close hd)) (Fin k))))
    as [l ->]; [unfold Pd.c_sub, Pd.mul_c; rewrite !length_map, Ls; lia|].
  destruct (iloc_last_nonempty
              (Pd.c_add (Fin m) (Pd.mul_c (Pd.rolling_std p (col close hd)) (Fin k))))
    as [u ->]; [unfold Pd.c_add, Pd.mul_c; rewrite !length_map, Ls; lia|].
  cbn [bind].
  destruct (F.ltb c l); [eexists; split; [reflexivity | auto]|].
  destruct (F.gtb c u); eexists; (split; [reflexivity | auto]).
Qed.

Lemma streaming_bollinger_full_window_witness :
  exists s,
    @WebSocketAnalyzer.calculate_bollinger_bands Sample.numerics
      (Example.analyzer 2 [Sample.obs 1 2 0; Sample.obs 3 4 2]) 2 = Ok (PyStr s)
    /\ (s = "BUY" \/ s = "SELL" \/ s = "NEUTRAL")%string.
Proof.
  apply (streaming_bollinger_full_window Sample.numerics Sample.printer
           (Example.analyzer 2 [Sample.obs 1 2 0; Sample.obs 3 4 2]) 2).
  simpl. lia.
Defined.

(** ** The functions of [strategy.py] and exceptions *)

Lemma shift_length (k : Z) (xs : Pd.Series) : length (Pd.shift k xs) = length xs.
Proof.
  unfold Pd.shift. destruct (0 <=? k)%Z.
  - rewrite length_firstn, length_app, repeat_length. lia.
  - rewrite length_app, length_skipn, repeat_length. lia.
Qed.

Section StrategyTotal.

Context `{Numerics}.

Variables (hd : DataFrame) (period : nat).
Hypothesis Hne : (1 <= length hd \/ 1 <= period)%nat.

Ltac short_or_full :=
  match goal with
  | |- context [(length hd <? ?p)%nat] =>
      destruct (Nat.ltb_spec (length hd) p); [eexists; reflexivity|]
  end.

Ltac last_ok xs :=
  let y := fresh "y" in
  let E := fresh "E" in
  destruct (iloc_last_nonempty xs) as [y E];
  [unfold Pd.rolling_std; series_length | rewrite E; cbn [bind]].

Lemma rsi_returns : exists r, Strategy.calculate_rsi hd period = Ok r.
Proof.
  unfold Strategy.calculate_rsi. short_or_full.
  last_ok (Strategy.rsi_series hd period).
  { unfold Strategy.rsi_series. series_length. }
  eexists; reflexivity.
Qed.

Lemma sma_returns : exists r, Strategy.calculate_sma hd period = Ok r.
Proof.
  unfold Strategy.calculate_sma. short_or_full.
  last_ok (col close hd). last_ok (Pd.rolling_mean period (col close hd)).
  eexists; reflexivity.
Qed.

Lemma bollinger_returns (k : Q) :
  exists r, Strategy.calculate_bollinger_bands hd period k = Ok r.
Proof.
  unfold Strategy.calculate_bollinger_bands, Strategy.bollinger_series. short_or_full.
  last_ok (col close hd).
  last_ok (Pd.ssub (Pd.rolling_mean period (col close hd))
                   (Pd.mul_c (Pd.rolling_std period (col close hd)) (Fin k))).
  last_ok (Pd.sadd (Pd.rolling_mean period (col close hd))
                   (Pd.mul_c (Pd.rolling_std period (col close hd)) (Fin k))).
  eexists; reflexivity.
Qed.

Lemma vtr_returns : exists r, Strategy.calculate_vtr hd period = Ok r.
Proof.
  unfold Strategy.calculate_vtr. short_or_full.
  match goal with
  | |- context [Pd.iloc_last ?xs] => last_ok xs
  end.
  eexists; reflexivity.
Qed.

Lemma stochastic_returns (smooth_k smooth_d : nat) :
  exists r, Strategy.calculate_stochastic hd period smooth_k smooth_d = Ok r.
Proof.
  unfold Strategy.calculate_stochastic. short_or_full.
  assert (L : length (Strategy.stochastic_k hd period) = length hd)
    by (unfold Strategy.stochastic_k; series_length).
  last_ok (Strategy.stochastic_k hd period).
  last_ok (Pd.rolling_mean smooth_d (Strategy.stochastic_k hd period)).
  eexists; reflexivity.
Qed.

Lemma macd_returns (a b c : nat) :
  (1 <= a)%nat -> (1 <= b)%nat -> (1 <= c)%nat ->
  exists r, Strategy.calculate_macd hd a b c = Ok r.
Proof.
  intros A B C. unfold Strategy.calculate_macd. short_or_full.
  destruct (macd_lines_ok hd a b c A B C) as (macd & sl & E & Lm & Ls).
  rewrite E. cbn [bind fst snd].
  destruct (iloc_last_nonempty macd) as [m ->]; [lia|].
  destruct (iloc_last_nonempty sl) as [s ->]; [lia|].
  eexists; reflexivity.
Qed.

End StrategyTotal.

Lemma ichimoku_returns `{Numerics} (hd : DataFrame) (period : nat) :
  exists r, Strategy.calculate_adx hd period = Ok r.
Proof.
  unfold Strategy.calculate_adx.
  destruct (Nat.ltb_spec (length hd) 52); [eexists; reflexivity|].
  cbv beta zeta.
  destruct (iloc_last_nonempty (col close hd)) as [c ->]; [rewrite col_length; lia|].
  cbn [bind].
  repeat match goal with
    | |- context [Pd.iloc_last (Pd.shift ?k ?xs)] =>
        let y := fresh "y" in
        destruct (iloc_last_nonempty (Pd.shift k xs)) as [y ->];
        [rewrite shift_length; series_length | cbn [bind]]
    | |- context [Pd.iloc_last (Pd.div_c ?xs ?c)] =>
        let y := fresh "y" in
        destruct (iloc_last_nonempty (Pd.div_c xs c)) as [y ->];
        [series_length | cbn [bind]]
    end.
  eexists; reflexivity.
Qed.

(** X13.  The functions of [strategy.py] return without an exception on
    every frame and for every period, with one exception: on the empty
    frame with period 0 the guard [len < period] lets the call through and
    [iloc[-1]] raises IndexError.  MACD returns whenever its three spans
    are at least one; a span of 0 that is reached makes [ewm] raise
    ValueError. *)
Theorem strategy_functions_return :
  forall (N : Numerics),
    (forall (hd : DataFrame) (period : nat),
        (1 <= length hd \/ 1 <= period)%nat ->
        (exists r, Strategy.calculate_rsi hd period = Ok r)
        /\ (exists r, Strategy.calculate_sma hd period = Ok r)
        /\ (forall k, exists r, Strategy.calculate_bollinger_bands hd period k = Ok r)
        /\ (exists r, Strategy.calculate_vtr hd period = Ok r)
        /\ (forall sk sd, exists r, Strategy.calculate_stochastic hd period sk sd = Ok r)
        /\ (exists r, Strategy.calculate_adx hd period = Ok r))
    /\ (forall (hd : DataFrame) (a b c : nat),
           (1 <= a)%nat -> (1 <= b)%nat -> (1 <= c)%nat ->
           exists r, Strategy.calculate_macd hd a b c = Ok r)
    /\ Strategy.calculate_rsi [] 0 = Raise IndexError
    /\ Strategy.calculate_sma [] 0 = Raise IndexError
    /\ Strategy.calculate_bollinger_bands [] 0 2 = Raise IndexError
    /\ Strategy.calculate_vtr [] 0 = Raise IndexError
    /\ Strategy.calculate_stochastic [] 0 3 3 = Raise IndexError
    /\ Strategy.calculate_macd [] 12 0 9 = Raise ValueError.
Proof.
  intros N. split; [| split; [| repeat split]].
  - intros hd period Hne.
    split; [apply rsi_returns; exact Hne|].
    split; [apply sma_returns; exact Hne|].
    split; [intros k; apply bollinger_returns; exact Hne|].
    split; [apply vtr_returns; exact Hne|].
    split; [intros sk sd; apply stochastic_returns; exact Hne|].
    apply ichimoku_returns.
  - intros hd a b c. apply (macd_returns hd 1). right. lia.
Qed.

(** ** [AnalyzerAgent.analyze] *)

Lemma run_tools_ok `{Numerics} (hd : DataFrame) :
  exists rsi macd sma bb vtr sto,
    AnalyzerAgent.run_tools hd
    = Ok [("RSI", rsi); ("MACD", macd); ("SMA", sma); ("Bollinger Bands", bb);
          ("VTR (Volatility)", vtr); ("Stochastic", sto)]%string.
Proof.
  assert (Hne : (1 <= length hd \/ 1 <= 14)%nat) by (right; lia).
  destruct (rsi_returns hd 14 Hne) as [rsi E1].
  destruct (macd_returns hd 14 Hne 12 26 9) as [macd E2]; try lia.
  destruct (sma_returns hd 14 Hne) as [sma E3].
  destruct (bollinger_returns hd 14 Hne 2) as [bb E4].
  destruct (vtr_returns hd 14 Hne) as [vtr E5].
  destruct (stochastic_returns hd 14 Hne 3 3) as [sto E6].
  exists rsi, macd, sma, bb, vtr, sto.
  unfold AnalyzerAgent.run_tools. rewrite E1, E2, E3, E4, E5, E6. reflexivity.
Qed.

(** X14.  [AnalyzerAgent.analyze] never raises (up to the call of the
    language model).  With fewer than 14 observations it answers HOLD,
    "Insufficient data"; otherwise the six tools all return, and the answer
    is HOLD with "Invalid input for position size calculation" when the
    balance or the latest close is not positive, and else the vote of the
    six tools with the size [(balance * risk / 100) / close]. *)
Theorem agent_analyze_outcomes :
  forall (N : Numerics) (hd : DataFrame) (balance risk : Q),
    let latest_close := Formula.price_at close hd (length hd - 1) in
    ((length hd < 14)%nat ->
     AnalyzerAgent.analyze hd balance risk
     = Ok (AnalyzerAgent.Final "HOLD" "Insufficient data"))
    /\ ((14 <= length hd)%nat ->
        exists results,
          AnalyzerAgent.run_tools hd = Ok results
          /\ length results = 6%nat
          /\ (balance <= 0 \/ latest_close <= 0 ->
              AnalyzerAgent.analyze hd balance risk
              = Ok (AnalyzerAgent.Final "HOLD"
                      "Invalid input for position size calculation"))
          /\ (0 < balance -> 0 < latest_close ->
              AnalyzerAgent.analyze hd balance risk
              = Ok (AnalyzerAgent.Report (AnalyzerAgent.vote results)
                      (balance * risk / 100 / latest_close) results)))
    /\ (exists outcome, AnalyzerAgent.analyze hd balance risk = Ok outcome).
Proof.
  intros N hd balance risk latest_close.
  assert (Short : (length hd < 14)%nat ->
                  AnalyzerAgent.analyze hd balance risk
                  = Ok (AnalyzerAgent.Final "HOLD" "Insufficient data")).
  { intros L. unfold AnalyzerAgent.analyze.
    destruct (Nat.ltb_spec (length hd) 14); [reflexivity | lia]. }
  assert (Full : (14 <= length hd)%nat ->
                 exists results,
                   AnalyzerAgent.run_tools hd = Ok results
                   /\ length results = 6%nat
                   /\ AnalyzerAgent.analyze hd balance risk
                      = match snd (Strategy.check_risk balance latest_close risk) with
                        | None => Ok (AnalyzerAgent.Final "HOLD"
                                        "Invalid input for position size calculation")
                        | Some size =>
                            Ok (AnalyzerAgent.Report (AnalyzerAgent.vote results) size results)
                        end).
  { intros L.
    destruct (run_tools_ok hd) as (rsi & macd & sma & bb & vtr & sto & R).
    eexists. split; [exact R|]. split; [reflexivity|].
    unfold AnalyzerAgent.analyze.
    destruct (Nat.ltb_spec (length hd) 14); [lia|].
    rewrite R. cbn [bind].
    rewrite (iloc_last_at _ 0 (length hd - 1)) by (rewrite length_map; lia).
    rewrite (nth_map_in close hd _ Formula.row0) by lia.
    reflexivity. }
  split; [exact Short|]. split.
  - intros L. destruct (Full L) as (results & R & L6 & A).
    exists results. split; [exact R|]. split; [exact L6|]. split.
    + intros K. rewrite A. unfold Strategy.check_risk.
      assert (B : Qle_bool balance 0 || Qle_bool latest_close 0 = true).
      { apply orb_true_iff. destruct K as [K | K]; [left | right];
          apply Qle_bool_iff; exact K. }
      rewrite B. reflexivity.
    + intros Hb Hc. rewrite A. unfold Strategy.check_risk.
      rewrite (proj2 (Qle_bool_false balance 0) Hb),
        (proj2 (Qle_bool_false latest_close 0) Hc).
      reflexivity.
  - destruct (Nat.lt_ge_cases (length hd) 14) as [L | L].
    + eexists. apply Short. exact L.
    + destruct (Full L) as (results & _ & _ & A). rewrite A.
      destruct (snd (Strategy.check_risk balance latest_close risk)); eexists; reflexivity.
Qed.

(** ** Volatility and stochastic votes on a window that is barely full *)

Lemma hd_nonempty_first (f : row -> Q) (hd : DataFrame) :
  (0 < length hd)%nat ->
  nth 0 (Pd.sdiv (col f hd) (Pd.shift 1 (col f hd))) NaN = NaN.
Proof.
  intros L. unfold Pd.sdiv.
  rewrite (nth_map2 F.div _ _ 0 NaN NaN) by (rewrite ?shift1_length, col_length; exact L).
  rewrite nth_shift1 by (rewrite col_length; exact L).
  destruct (nth 0 (col f hd) NaN); reflexivity.
Qed.

(** X15.  With exactly [period] observations [calculate_vtr] has only
    [period - 1] log returns: the rolling deviation is NaN, the comparison
    with the median is false, and the function votes "SELL" with the value
    NaN.  (The hypothesis on [logF] is what [np.log] does with NaN.) *)
Theorem vtr_votes_sell_on_exact_window :
  forall (N : Numerics) (hd : DataFrame) (period : nat),
    logF NaN = NaN ->
    (1 <= period)%nat ->
    length hd = period ->
    Strategy.calculate_vtr hd period = Ok ("SELL"%string, PyFloat NaN).
Proof.
  intros N hd period Hlog Hp Hlen.
  unfold Strategy.calculate_vtr.
  destruct (Nat.ltb_spec (length hd) period); [lia|].
  set (lr := map logF (Pd.sdiv (col close hd) (Pd.shift 1 (col close hd)))).
  assert (Llr : length lr = length hd) by (unfold lr; series_length).
  assert (First : nth 0 lr NaN = NaN).
  { unfold lr.
    rewrite (nth_map_in logF _ 0 NaN)
      by (unfold Pd.sdiv; rewrite map2_length, shift1_length, col_length; lia).
    rewrite hd_nonempty_first by lia. exact Hlog. }
  assert (Last : nth (length hd - 1) (Pd.rolling_std period lr) NaN = NaN).
  { unfold Pd.rolling_std. apply (rolling_missing period _ lr (length hd - 1) 0).
    - rewrite Llr. lia.
    - lia.
    - rewrite First. reflexivity. }
  unfold Pd.mul_c.
  rewrite (iloc_last_at _ NaN (length hd - 1))
    by (unfold Pd.rolling_std; rewrite length_map, rolling_length, Llr; lia).
  rewrite (nth_map_in (fun x => F.mul x (Fin (sqrtQ (Qnat period)))) _ _ NaN)
    by (unfold Pd.rolling_std; rewrite rolling_length, Llr; lia).
  rewrite Last. reflexivity.
Qed.

Lemma vtr_votes_sell_on_exact_window_witness :
  @Strategy.calculate_vtr Sample.numerics [Sample.obs 1 2 0; Sample.obs 3 4 2] 2
  = Ok ("SELL"%string, PyFloat NaN).
Proof.
  apply (vtr_votes_sell_on_exact_window Sample.numerics);
    [reflexivity | lia | reflexivity].
Defined.

Lemma stochastic_k_not_full (hd : DataFrame) (period i : nat) :
  (i < length hd)%nat -> (S i < period)%nat ->
  nth i (Strategy.stochastic_k hd period) NaN = NaN.
Proof.
  intros L S.
  exact (@stochastic_not_full Sample.numerics
           {| MarketAnalyzer.historical_data := hd; MarketAnalyzer.price := 0;
              MarketAnalyzer.volume := 0; MarketAnalyzer.price_percentage_change_24h := 0;
              MarketAnalyzer.portfolio_value := 0; MarketAnalyzer.risk_percentage := 0;
              MarketAnalyzer.loss_percentage := 0; MarketAnalyzer.period := period |}
           i L S).
Qed.

(** X16.  [calculate_stochastic] abstains until [%D] has a full window:
    with at least [period] and fewer than [period + smooth_d - 1]
    observations the smoothed line is NaN and the signal is "NEUTRAL",
    with the pair of the latest [%K] and NaN as value. *)
Theorem stochastic_neutral_until_smoothed :
  forall (hd : DataFrame) (period smooth_k smooth_d : nat),
    (1 <= period <= length hd)%nat ->
    (length hd < period + smooth_d - 1)%nat ->
    exists k, Strategy.calculate_stochastic hd period smooth_k smooth_d
              = Ok ("NEUTRAL"%string, PyTuple [PyFloat k; PyFloat NaN]).
Proof.
  intros hd period smooth_k smooth_d Hp Hs.
  unfold Strategy.calculate_stochastic.
  destruct (Nat.ltb_spec (length hd) period); [lia|].
  assert (Lk : length (Strategy.stochastic_k hd period) = length hd)
    by (unfold Strategy.stochastic_k; series_length).
  destruct (iloc_last_nonempty (Strategy.stochastic_k hd period)) as [k ->]; [lia|].
  cbn [bind].
  assert (D : Pd.iloc_last (Pd.rolling_mean smooth_d (Strategy.stochastic_k hd period))
              = Ok NaN).
  { rewrite (iloc_last_at _ NaN (length hd - 1))
      by (unfold Pd.rolling_mean; rewrite rolling_length, Lk; lia).
    unfold Pd.rolling_mean.
    destruct (Nat.le_gt_cases smooth_d (length hd)) as [W | W].
    - rewrite (rolling_missing smooth_d _ _ (length hd - 1) (length hd - smooth_d));
        [reflexivity | rewrite Lk; lia | lia |].
      rewrite stochastic_k_not_full by lia. reflexivity.
    - rewrite rolling_short by (rewrite ?Lk; lia). reflexivity. }
  rewrite D. cbn [bind].
  exists k. destruct k; reflexivity.
Qed.

Lemma stochastic_neutral_until_smoothed_witness :
  exists k,
    Strategy.calculate_stochastic [Sample.obs 1 2 0; Sample.obs 3 4 2] 2 3 3
    = Ok ("NEUTRAL"%string, PyTuple [PyFloat k; PyFloat NaN]).
Proof.
  apply stochastic_neutral_until_smoothed; simpl; lia.
Defined.

(** ** MACD on closes that do not move *)

Lemma ewm_from_const (a prev c : Q) (xs : list Q) :
  prev == c -> Forall (fun x => x == c) xs ->
  Forall (fun x => x == c) (Pd.ewm_from a prev xs).
Proof.
  revert prev. induction xs as [|x t IH]; intros prev Hp Hx; simpl; [constructor|].
  inversion Hx as [|? ? Hx1 Hx2]; subst.
  assert (E : (1 - a) * prev + a * x == c) by (rewrite Hp, Hx1; ring).
  constructor; [exact E | apply IH; assumption].
Qed.

Lemma ewm_mean_const (span c : Q) (xs : list Q) :
  Forall (fun x => x == c) xs -> Forall (fun x => x == c) (Pd.ewm_mean span xs).
Proof.
  intros Hx. destruct xs as [|x t]; simpl; [constructor|].
  inversion Hx as [|? ? Hx1 Hx2]; subst.
  constructor; [exact Hx1 | apply ewm_from_const; assumption].
Qed.

Lemma map2_minus_const (c d : Q) (xs ys : list Q) :
  Forall (fun x => x == c) xs -> Forall (fun y => y == d) ys ->
  Forall (fun z => z == c - d) (Pd.map2 Qminus xs ys).
Proof.
  intros Hx. revert ys. induction Hx as [|x t Hx1 _ IH]; intros ys Hy; simpl; [constructor|].
  destruct Hy as [|y t' Hy1 Hy2]; [constructor|].
  constructor; [rewrite Hx1, Hy1; reflexivity | apply IH; exact Hy2].
Qed.

Lemma iloc_last_Forall {A : Type} (P : A -> Prop) (xs : list A) (y : A) :
  Forall P xs -> Pd.iloc_last xs = Ok y -> P y.
Proof.
  intros Hx E. destruct xs as [|x t]; [discriminate|].
  rewrite (iloc_last_nth (x :: t) x) in E by discriminate. injection E as <-.
  assert (L : (length (x :: t) - 1 < length (x :: t))%nat) by (simpl; lia).
  exact (proj1 (Forall_forall P (x :: t)) Hx _ (nth_In (x :: t) x L)).
Qed.

Lemma flat_macd_lines (hd : DataFrame) (c : Q) (a b s : nat) (macd sl : list Q) :
  Forall (fun r => close r == c) hd ->
  Strategy.macd_lines hd a b s = Ok (macd, sl) ->
  Forall (fun x => x == 0) macd /\ Forall (fun x => x == 0) sl.
Proof.
  intros Hflat E. unfold Strategy.macd_lines, Strategy.ewm in E.
  destruct (a <? 1)%nat; [discriminate|]. destruct (b <? 1)%nat; [discriminate|].
  cbn [bind] in E. destruct (s <? 1)%nat; [discriminate|].
  cbn [bind] in E. injection E as <- <-.
  assert (Hc : Forall (fun x => x == c) (map close hd)).
  { apply Forall_forall. intros x Hx. apply in_map_iff in Hx.
    destruct Hx as (r & <- & Hr). rewrite Forall_forall in Hflat. apply Hflat. exact Hr. }
  assert (Hm : Forall (fun x => x == 0)
                      (Pd.map2 Qminus (Pd.ewm_mean (Qnat a) (map close hd))
                                      (Pd.ewm_mean (Qnat b) (map close hd)))).
  { eapply Forall_impl; [| apply (map2_minus_const c c); apply ewm_mean_const; exact Hc].
    intros z Hz. cbv beta in Hz. rewrite Hz. ring. }
  split; [exact Hm | apply ewm_mean_const; exact Hm].
Qed.

(** X17.  When every close of the frame is the same number, the MACD line
    and its signal line are 0 throughout and the signal is "NEUTRAL", in
    [strategy.calculate_macd] (frame of at least [long_period] rows) and in
    [WebSocketAnalyzer.calculate_macd] (any non-empty frame). *)
Theorem macd_neutral_on_flat_closes :
  forall (P : Printer) (c : Q),
    (forall (hd : DataFrame) (short_period long_period signal_period : nat),
        Forall (fun r => close r == c) hd ->
        (1 <= short_period)%nat -> (1 <= long_period <= length hd)%nat ->
        (1 <= signal_period)%nat ->
        exists m, Strategy.calculate_macd hd short_period long_period signal_period
                  = Ok ("NEUTRAL"%string, PyFloat (Fin m))
                  /\ m == 0)
    /\ (forall (self : WebSocketAnalyzer.t),
           Forall (fun r => close r == c) (WebSocketAnalyzer.historical_data self) ->
           (1 <= length (WebSocketAnalyzer.historical_data self))%nat ->
           WebSocketAnalyzer.calculate_macd self 12 26 9 = Ok (PyStr "NEUTRAL")).
Proof.
  intros P c.
  assert (Z : forall m s, m == 0 -> s == 0 -> F.Qltb s m = false /\ F.Qltb m s = false).
  { intros m s Hm Hs. split; apply Qltb_false; rewrite Hm, Hs; apply Qle_refl. }
  split.
  - intros hd a b s Hflat A B S.
    destruct (macd_lines_ok hd a b s) as (macd & sl & E & Lm & Ls); try lia.
    destruct (flat_macd_lines hd c a b s macd sl Hflat E) as [Hm Hs].
    unfold Strategy.calculate_macd.
    destruct (Nat.ltb_spec (length hd) b); [lia|].
    rewrite E. cbn [bind fst snd].
    destruct (iloc_last_nonempty macd) as [m Em]; [lia|].
    destruct (iloc_last_nonempty sl) as [x Ex]; [lia|].
    rewrite Em, Ex. cbn [bind].
    pose proof (iloc_last_Forall _ _ _ Hm Em) as M0.
    pose proof (iloc_last_Forall _ _ _ Hs Ex) as S0.
    cbv beta in M0, S0.
    destruct (Z m x M0 S0) as [-> ->].
    exists m. split; [reflexivity | exact M0].
  - intros self Hflat L.
    set (hd := WebSocketAnalyzer.historical_data self) in *.
    destruct (macd_lines_ok hd 12 26 9) as (macd & sl & E & Lm & Ls); try lia.
    destruct (flat_macd_lines hd c 12 26 9 macd sl Hflat E) as [Hm Hs].
    unfold WebSocketAnalyzer.calculate_macd. fold hd.
    rewrite E. cbn [bind fst snd].
    destruct (iloc_last_nonempty macd) as [m Em]; [lia|].
    destruct (iloc_last_nonempty sl) as [x Ex]; [lia|].
    rewrite Em, Ex. cbn [bind].
    pose proof (iloc_last_Forall _ _ _ Hm Em) as M0.
    pose proof (iloc_last_Forall _ _ _ Hs Ex) as S0.
    cbv beta in M0, S0.
    destruct (Z m x M0 S0) as [-> ->]. reflexivity.
Qed.

(** ** The stochastic oscillator on a full window *)

Lemma fold_min_le (t : list Q) (q : Q) :
  fold_left Qmin t q <= q /\ Forall (fun x => fold_left Qmin t q <= x) t.
Proof.
  revert q. induction t as [|x t IH]; intros q; simpl.
  - split; [apply Qle_refl | constructor].
  - destruct (IH (Qmin q x)) as [L1 L2]. split.
    + eapply Qle_trans; [exact L1 | apply Q.le_min_l].
    + constructor; [eapply Qle_trans; [exact L1 | apply Q.le_min_r] | exact L2].
Qed.

Lemma fold_max_ge (t : list Q) (q : Q) :
  q <= fold_left Qmax t q /\ Forall (fun x => x <= fold_left Qmax t q) t.
Proof.
  revert q. induction t as [|x t IH]; intros q; simpl.
  - split; [apply Qle_refl | constructor].
  - destruct (IH (Qmax q x)) as [L1 L2]. split.
    + eapply Qle_trans; [apply Q.le_max_l | exact L1].
    + constructor; [eapply Qle_trans; [apply Q.le_max_r | exact L1] | exact L2].
Qed.

Lemma Forall2_Qeq_bound (R : Q -> Q -> Prop) (m : Q) (l l' : list Q) :
  (forall x y, x == y -> R m x -> R m y) ->
  Forall2 Qeq l l' -> Forall (R m) l -> Forall (R m) l'.
Proof.
  intros HR F2. induction F2 as [|x y l l' E _ IH]; intros Hl; [constructor|].
  inversion Hl as [|? ? H1 H2]; subst.
  constructor; [apply (HR x y E H1) | apply IH; exact H2].
Qed.

Section RollingExtremes.

Variables (w : nat) (xs : Pd.Series) (i : nat) (f : nat -> Q).
Hypothesis Hi : (i < length xs)%nat.
Hypothesis Hw : (1 <= w <= S i)%nat.
Hypothesis Hval : forall j, (S i - w <= j <= i)%nat -> has_value (nth j xs NaN) (f j).

Lemma rolling_min_at :
  exists q, nth i (Pd.rolling w w Pd.agg_min xs) NaN = Fin q
            /\ forall j, (S i - w <= j <= i)%nat -> q <= f j.
Proof.
  rewrite nth_rolling by exact Hi. cbv zeta.
  pose proof (window_observations_length w xs i f Hi Hw Hval) as L.
  pose proof (window_observations w xs i f Hi Hw Hval) as V.
  destruct (Pd.observations (Pd.window_at w xs i)) as [|o obs] eqn:E.
  - simpl in L. lia.
  - rewrite L. destruct (Nat.ltb_spec w w); [lia|].
    unfold Pd.agg_min. eexists. split; [reflexivity|].
    intros j Hj.
    destruct (fold_min_le obs o) as [L1 L2].
    assert (All : Forall (fun x => fold_left Qmin obs o <= x) (o :: obs))
      by (constructor; assumption).
    apply (Forall2_Qeq_bound Qle _ _ _
             (fun x y Exy Hx => proj1 (Qle_comp _ _ (Qeq_refl _) _ _ Exy) Hx) V) in All.
    rewrite Forall_forall in All. apply All.
    apply in_map. apply in_seq. lia.
Qed.

Lemma rolling_max_at :
  exists q, nth i (Pd.rolling w w Pd.agg_max xs) NaN = Fin q
            /\ forall j, (S i - w <= j <= i)%nat -> f j <= q.
Proof.
  rewrite nth_rolling by exact Hi. cbv zeta.
  pose proof (window_observations_length w xs i f Hi Hw Hval) as L.
  pose proof (window_observations w xs i f Hi Hw Hval) as V.
  destruct (Pd.observations (Pd.window_at w xs i)) as [|o obs] eqn:E.
  - simpl in L. lia.
  - rewrite L. destruct (Nat.ltb_spec w w); [lia|].
    unfold Pd.agg_max. eexists. split; [reflexivity|].
    intros j Hj.
    destruct (fold_max_ge obs o) as [L1 L2].
    assert (All : Forall (fun x => x <= fold_left Qmax obs o) (o :: obs))
      by (constructor; assumption).
    apply (Forall2_Qeq_bound (fun m x => x <= m) _ _ _
             (fun x y Exy Hx => proj1 (Qle_comp _ _ Exy _ _ (Qeq_refl _)) Hx) V) in All.
    rewrite Forall_forall in All. apply All.
    apply in_map. apply in_seq. lia.
Qed.

End RollingExtremes.

Lemma div_zero_by_zero (x y : fval) (a b : Q) :
  has_value x a -> has_value y b -> a == 0 -> b == 0 -> F.div x y = NaN.
Proof.
  intros Kx Ky Za Zb.
  pose proof (hv_is_zero _ _ Kx) as Zx. pose proof (hv_is_zero _ _ Ky) as Zy.
  rewrite (proj2 (Qis0_true a) Za) in Zx. rewrite (proj2 (Qis0_true b) Zb) in Zy.
  destruct (hv_inv _ _ Kx) as [(p & -> & _) | [-> _]];
    destruct (hv_inv _ _ Ky) as [(q & -> & _) | [-> _]];
    unfold F.div; simpl in *; rewrite ?Zx, ?Zy; reflexivity.
Qed.

(** X18.  On a window of at least [period] observations whose latest row
    has [low <= close <= high], the latest [%K] is NaN exactly when the
    highest high and the lowest low of the window coincide (the quotient is
    then 0/0: no exception and no infinity), and otherwise a number that is
    not negative.  The two analyzers compute their oscillator by the same
    expression. *)
Theorem stochastic_k_flat_or_nonnegative :
  forall (hd : DataFrame) (period : nat),
    (1 <= period <= length hd)%nat ->
    let t := (length hd - 1)%nat in
    Formula.price_at low hd t <= Formula.price_at close hd t ->
    Formula.price_at close hd t <= Formula.price_at high hd t ->
    exists k lowest highest,
      Pd.iloc_last (Strategy.stochastic_k hd period) = Ok k
      /\ Pd.iloc_last (Pd.rolling_min period (col low hd)) = Ok (Fin lowest)
      /\ Pd.iloc_last (Pd.rolling_max period (col high hd)) = Ok (Fin highest)
      /\ (highest == lowest -> k = NaN)
      /\ (~ highest == lowest -> exists q, has_value k q /\ 0 <= q)
      /\ (forall (N : Numerics) (self : MarketAnalyzer.t),
             MarketAnalyzer.historical_data self = hd ->
             MarketAnalyzer.period self = period ->
             MarketAnalyzer.calculate_stochastic_oscillator self
             = Strategy.stochastic_k hd period)
      /\ (forall (N : Numerics) (self : WebSocketAnalyzer.t),
             WebSocketAnalyzer.historical_data self = hd ->
             WebSocketAnalyzer.period self = period ->
             WebSocketAnalyzer.calculate_stochastic_oscillator self
             = Ok (PySeries None (Strategy.stochastic_k hd period))).
Proof.
  intros hd period Hp t Hlc Hch.
  assert (Vcol : forall f j, (S t - period <= j <= t)%nat ->
                             has_value (nth j (col f hd) NaN) (Formula.price_at f hd j)).
  { intros f j Hj. rewrite (nth_col f hd j Formula.row0) by (unfold t in Hj; lia).
    apply hv_Fin. }
  destruct (rolling_min_at period (col low hd) t (Formula.price_at low hd))
    as (lo & Elo & Hlo);
    [rewrite col_length; unfold t; lia | unfold t; lia | apply Vcol |].
  destruct (rolling_max_at period (col high hd) t (Formula.price_at high hd))
    as (hi & Ehi & Hhi);
    [rewrite col_length; unfold t; lia | unfold t; lia | apply Vcol |].
  assert (Llo : lo <= Formula.price_at low hd t) by (apply Hlo; unfold t; lia).
  assert (Lhi : Formula.price_at high hd t <= hi) by (apply Hhi; unfold t; lia).
  set (c := Formula.price_at close hd t) in *.
  assert (Lk : length (Strategy.stochastic_k hd period) = length hd)
    by (unfold Strategy.stochastic_k; series_length).
  exists (F.div (F.mul (Fin 100) (F.sub (Fin c) (Fin lo))) (F.sub (Fin hi) (Fin lo))), lo, hi.
  split.
  { rewrite (iloc_last_at _ NaN t) by (rewrite Lk; unfold t; lia).
    unfold Strategy.stochastic_k. cbv zeta. unfold Pd.sdiv.
    rewrite (nth_map2 F.div _ _ t NaN NaN) by (series_length; unfold t; lia).
    unfold Pd.c_mul.
    rewrite (nth_map_in (F.mul (Fin 100)) _ t NaN) by (series_length; unfold t; lia).
    unfold Pd.ssub.
    rewrite !(nth_map2 F.sub _ _ t NaN NaN) by (series_length; unfold t; lia).
    unfold Pd.rolling_min, Pd.rolling_max. rewrite Elo, Ehi.
    rewrite (nth_col close hd t Formula.row0) by (unfold t; lia).
    reflexivity. }
  split.
  { rewrite (iloc_last_at _ NaN t)
      by (unfold Pd.rolling_min; rewrite rolling_length, col_length; unfold t; lia).
    unfold Pd.rolling_min. rewrite Elo. reflexivity. }
  split.
  { rewrite (iloc_last_at _ NaN t)
      by (unfold Pd.rolling_max; rewrite rolling_length, col_length; unfold t; lia).
    unfold Pd.rolling_max. rewrite Ehi. reflexivity. }
  assert (Vn : has_value (F.mul (Fin 100) (F.sub (Fin c) (Fin lo))) (100 * (c - lo)))
    by (apply hv_mul; [apply hv_Fin | apply hv_sub; apply hv_Fin]).
  assert (Vd : has_value (F.sub (Fin hi) (Fin lo)) (hi - lo))
    by (apply hv_sub; apply hv_Fin).
  split.
  { intros E. apply (div_zero_by_zero _ _ _ _ Vn Vd); lra. }
  split.
  { intros Ne. exists (100 * (c - lo) / (hi - lo)).
    assert (Pos : 0 < hi - lo).
    { destruct (Qlt_le_dec lo hi) as [Lt | Ge]; [lra|].
      exfalso. apply Ne. lra. }
    split; [apply hv_div; [exact Vn | exact Vd | lra]|].
    apply Qle_shift_div_l; [exact Pos | lra]. }
  split.
  - intros N self <- <-. reflexivity.
  - intros N self <- <-. reflexivity.
Qed.

Lemma stochastic_k_flat_or_nonnegative_witness :
  let hd := [Sample.obs 1 2 0; Sample.obs 5 6 4; Sample.obs 4 5 3] in
  exists k lowest highest,
    Pd.iloc_last (Strategy.stochastic_k hd 2) = Ok k
    /\ Pd.iloc_last (Pd.rolling_min 2 (col low hd)) = Ok (Fin lowest)
    /\ Pd.iloc_last (Pd.rolling_max 2 (col high hd)) = Ok (Fin highest)
    /\ (highest == lowest -> k = NaN)
    /\ (~ highest == lowest -> exists q, has_value k q /\ 0 <= q)
    /\ (forall (N : Numerics) (self : MarketAnalyzer.t),
           MarketAnalyzer.historical_data self = hd ->
           MarketAnalyzer.period self = 2%nat ->
           MarketAnalyzer.calculate_stochastic_oscillator self
           = Strategy.stochastic_k hd 2)
    /\ (forall (N : Numerics) (self : WebSocketAnalyzer.t),
           WebSocketAnalyzer.historical_data self = hd ->
           WebSocketAnalyzer.period self = 2%nat ->
           WebSocketAnalyzer.calculate_stochastic_oscillator self
           = Ok (PySeries None (Strategy.stochastic_k hd 2))).
Proof.
  intros hd.
  apply (stochastic_k_flat_or_nonnegative hd 2).
  - simpl. lia.
  - discriminate.
  - discriminate.
Defined.

(** ** The stream of tickers *)

Lemma lastn_length {A : Type} (n : nat) (l : list A) :
  length (Batch.lastn n l) = Nat.min n (length l).
Proof.
  unfold Batch.lastn. rewrite length_skipn. lia.
Qed.

Lemma lastn_all {A : Type} (n : nat) (l : list A) :
  (length l <= n)%nat -> Batch.lastn n l = l.
Proof.
  intros L. unfold Batch.lastn. replace (length l - n)%nat with 0%nat by lia. reflexivity.
Qed.

Lemma lastn_app_lastn {A : Type} (n : nat) (l l' : list A) :
  Batch.lastn n (Batch.lastn n l ++ l') = Batch.lastn n (l ++ l').
Proof.
  unfold Batch.lastn at 1 3. rewrite !length_app, lastn_length.
  unfold Batch.lastn.
  rewrite !skipn_app, skipn_skipn, length_skipn.
  f_equal; f_equal; lia.
Qed.

Lemma deque_append_lastn (d : DataFrame) (x : row) :
  (length d <= DataFetcherAgent.maxlen)%nat ->
  DataFetcherAgent.deque_append d x = Batch.lastn DataFetcherAgent.maxlen (d ++ [x]).
Proof.
  intros L. unfold DataFetcherAgent.deque_append. cbv zeta.
  destruct (Nat.ltb_spec DataFetcherAgent.maxlen (length (d ++ [x]))) as [G | G].
  - unfold Batch.lastn. rewrite length_app in *. cbn [length] in *.
    replace (length d + 1 - DataFetcherAgent.maxlen)%nat with 1%nat by lia.
    destruct (d ++ [x]); reflexivity.
  - symmetry. apply lastn_all. exact G.
Qed.

Lemma dict_get_set_same (k : string) (v : DataFrame) (s : DataFetcherAgent.store) :
  DataFetcherAgent.dict_get k (DataFetcherAgent.dict_set k v s) = Some v.
Proof.
  induction s as [|[k' v'] rest IH]; cbn [DataFetcherAgent.dict_set DataFetcherAgent.dict_get].
  - rewrite String.eqb_refl. reflexivity.
  - destruct (String.eqb k' k) eqn:E; cbn [DataFetcherAgent.dict_get]; rewrite E;
      [reflexivity | exact IH].
Qed.

Lemma dict_get_set_other (k k0 : string) (v : DataFrame) (s : DataFetcherAgent.store) :
  k <> k0 ->
  DataFetcherAgent.dict_get k0 (DataFetcherAgent.dict_set k v s)
  = DataFetcherAgent.dict_get k0 s.
Proof.
  intros Hne.
  induction s as [|[k' v'] rest IH]; cbn [DataFetcherAgent.dict_set DataFetcherAgent.dict_get].
  - destruct (String.eqb_spec k k0); [contradiction | reflexivity].
  - destruct (String.eqb_spec k' k) as [-> | Hk]; cbn [DataFetcherAgent.dict_get].
    + destruct (String.eqb_spec k k0); [contradiction | reflexivity].
    + destruct (String.eqb k' k0); [reflexivity | exact IH].
Qed.

Lemma agent_analyze_returns `{Numerics} (hd : DataFrame) (balance risk : Q) :
  exists outcome, AnalyzerAgent.analyze hd balance risk = Ok outcome.
Proof.
  unfold AnalyzerAgent.analyze.
  destruct (Nat.ltb_spec (length hd) 14) as [L | L]; [eexists; reflexivity|].
  destruct (run_tools_ok hd) as (rsi & macd & sma & bb & vtr & sto & R).
  rewrite R. cbn [bind].
  rewrite (iloc_last_at _ 0 (length hd - 1)) by (rewrite length_map; lia).
  cbn [bind].
  destruct (snd (Strategy.check_risk _ _ _)); eexists; reflexivity.
Qed.

Lemma lookup_spec (pid : option string) (s : DataFetcherAgent.store) :
  match DataFetcherAgent.lookup pid s with
  | Some (p, d) => pid = Some p /\ DataFetcherAgent.dict_get p s = Some d
  | None => pid = None \/ exists p, pid = Some p /\ DataFetcherAgent.dict_get p s = None
  end.
Proof.
  unfold DataFetcherAgent.lookup. destruct pid as [p|]; [| left; reflexivity].
  destruct (DataFetcherAgent.dict_get p s) as [d|] eqn:E.
  - split; [reflexivity | exact E].
  - right. exists p. split; [reflexivity | exact E].
Qed.

Lemma known_set (s : DataFetcherAgent.store) (p : string) (d d' : DataFrame)
      (tickers : list DataFetcherAgent.ticker) :
  DataFetcherAgent.dict_get p s = Some d ->
  Batch.known (DataFetcherAgent.dict_set p d' s) tickers = Batch.known s tickers.
Proof.
  intros E. unfold Batch.known. apply filter_ext. intros k.
  unfold DataFetcherAgent.lookup.
  destruct (DataFetcherAgent.product_id k) as [q|]; [| reflexivity].
  destruct (String.eqb_spec p q) as [<- | Hne].
  - rewrite dict_get_set_same, E. reflexivity.
  - rewrite dict_get_set_other by exact Hne. reflexivity.
Qed.

(** X19.  The loop over the tickers of a message never raises; it prints
    one signal for each ticker whose product is subscribed and ignores the
    others; and afterwards the deque of each product holds the last 100 of
    its old rows followed by the rows of its tickers, in the order of the
    batch: older rows are evicted, no deque exceeds 100 rows and no key is
    added. *)
Theorem stream_keeps_latest_rows :
  forall (N : Numerics) (tickers : list DataFetcherAgent.ticker)
         (s : DataFetcherAgent.store),
    Batch.bounded s ->
    exists s' printed,
      DataFetcherAgent.on_tickers s tickers = (s', Ok printed)
      /\ length printed = length (Batch.known s tickers)
      /\ Batch.bounded s'
      /\ forall p,
          DataFetcherAgent.dict_get p s'
          = match DataFetcherAgent.dict_get p s with
            | None => None
            | Some d =>
                Some (Batch.lastn DataFetcherAgent.maxlen
                        (d ++ map DataFetcherAgent.row_of (Batch.tickers_of p tickers)))
            end.
Proof.
  intros N tickers.
  induction tickers as [|k rest IH]; intros s B.
  - exists s, []. split; [reflexivity|]. split; [reflexivity|]. split; [exact B|].
    intros p. destruct (DataFetcherAgent.dict_get p s) as [d|] eqn:E; [| reflexivity].
    cbn [Batch.tickers_of filter map]. rewrite app_nil_r, lastn_all; [reflexivity|].
    apply (B p d E).
  - cbn [DataFetcherAgent.on_tickers].
    pose proof (lookup_spec (DataFetcherAgent.product_id k) s) as LS.
    destruct (DataFetcherAgent.lookup (DataFetcherAgent.product_id k) s) as [[q d]|] eqn:EL.
    + destruct LS as [Pk Gq].
      set (d' := DataFetcherAgent.deque_append d (DataFetcherAgent.row_of k)).
      set (s1 := DataFetcherAgent.dict_set q d' s).
      assert (Ed' : d' = Batch.lastn DataFetcherAgent.maxlen
                           (d ++ [DataFetcherAgent.row_of k]))
        by (apply deque_append_lastn; apply (B q d Gq)).
      assert (B1 : Batch.bounded s1).
      { intros p x Ex. unfold s1 in Ex.
        destruct (String.eqb_spec q p) as [<- | Hne].
        - rewrite dict_get_set_same in Ex. injection Ex as <-.
          rewrite Ed', lastn_length. lia.
        - rewrite dict_get_set_other in Ex by exact Hne. apply (B p x Ex). }
      destruct (agent_analyze_returns d' 1000 2) as [signal ->].
      destruct (IH s1 B1) as (s' & printed & E & Lp & B' & G).
      rewrite E. cbn [bind].
      exists s', (signal :: printed).
      split; [reflexivity|].
      split.
      { unfold Batch.known at 1. cbn [filter]. rewrite EL. cbn [length].
        fold (Batch.known s rest). rewrite Lp. unfold s1.
        rewrite (known_set s q d d' rest Gq). reflexivity. }
      split; [exact B'|].
      intros p. rewrite G. unfold s1.
      unfold Batch.tickers_of at 2. cbn [filter]. rewrite Pk. fold (Batch.tickers_of p rest).
      destruct (String.eqb_spec q p) as [<- | Hne].
      * rewrite dict_get_set_same, Gq. f_equal.
        rewrite Ed'. cbn [map]. rewrite lastn_app_lastn, <- app_assoc. reflexivity.
      * rewrite dict_get_set_other by exact Hne. reflexivity.
    + destruct (IH s B) as (s' & printed & E & Lp & B' & G).
      exists s', printed. split; [exact E|].
      split.
      { unfold Batch.known at 1. cbn [filter]. rewrite EL. exact Lp. }
      split; [exact B'|].
      intros p. rewrite G.
      destruct (DataFetcherAgent.dict_get p s) as [d|] eqn:Ep; [| reflexivity].
      unfold Batch.tickers_of at 2. cbn [filter].
      destruct LS as [-> | (q & -> & Gq)]; [reflexivity|].
      destruct (String.eqb_spec q p) as [-> | Hne]; [congruence | reflexivity].
Qed.

Lemma stream_keeps_latest_rows_witness :
  let s := DataFetcherAgent.subscribe ["BTC-USD"%string] [] in
  let tickers := [Batch.btc 2 3 1; Batch.btc 3 4 2] in
  exists s' printed,
    @DataFetcherAgent.on_tickers Sample.numerics s tickers = (s', Ok printed)
    /\ length printed = length (Batch.known s tickers)
    /\ Batch.bounded s'
    /\ forall p,
        DataFetcherAgent.dict_get p s'
        = match DataFetcherAgent.dict_get p s with
          | None => None
          | Some d =>
              Some (Batch.lastn DataFetcherAgent.maxlen
                      (d ++ map DataFetcherAgent.row_of (Batch.tickers_of p tickers)))
          end.
Proof.
  intros s tickers.
  apply (stream_keeps_latest_rows Sample.numerics tickers s).
  intros p d E.
  change (DataFetcherAgent.dict_get p [("BTC-USD"%string, [])] = Some d) in E.
  cbn [DataFetcherAgent.dict_get] in E.
  destruct (String.eqb "BTC-USD" p); [| discriminate E].
  injection E as <-. unfold DataFetcherAgent.maxlen. simpl. lia.
Defined.

(** X20.  No product gets a trading signal before its deque holds 14
    rows: while the rows stored for a product and its tickers of the batch
    are fewer than 14 together, every signal printed is HOLD with
    "Insufficient data". *)
Theorem stream_holds_until_fourteen_rows :
  forall (N : Numerics) (tickers : list DataFetcherAgent.ticker)
         (s : DataFetcherAgent.store),
    (forall p d, DataFetcherAgent.dict_get p s = Some d ->
                 (length d + length (Batch.tickers_of p tickers) < 14)%nat) ->
    exists s',
      DataFetcherAgent.on_tickers s tickers
      = (s', Ok (map (fun _ => AnalyzerAgent.Final "HOLD" "Insufficient data")
                     (Batch.known s tickers))).
Proof.
  intros N tickers.
  induction tickers as [|k rest IH]; intros s Hs.
  - exists s. reflexivity.
  - cbn [DataFetcherAgent.on_tickers].
    pose proof (lookup_spec (DataFetcherAgent.product_id k) s) as LS.
    unfold Batch.known. cbn [filter]. fold (Batch.known s rest).
    destruct (DataFetcherAgent.lookup (DataFetcherAgent.product_id k) s) as [[q d]|] eqn:EL.
    + destruct LS as [Pk Gq].
      pose proof (Hs q d Gq) as Lq.
      unfold Batch.tickers_of in Lq. cbn [filter] in Lq. rewrite Pk, String.eqb_refl in Lq.
      cbn [length] in Lq. fold (Batch.tickers_of q rest) in Lq.
      assert (Ed : DataFetcherAgent.deque_append d (DataFetcherAgent.row_of k)
                   = d ++ [DataFetcherAgent.row_of k]).
      { unfold DataFetcherAgent.deque_append. cbv zeta.
        destruct (Nat.ltb_spec DataFetcherAgent.maxlen
                    (length (d ++ [DataFetcherAgent.row_of k]))) as [G | G]; [| reflexivity].
        rewrite length_app in G. cbn [length] in G. unfold DataFetcherAgent.maxlen in G. lia. }
      rewrite Ed.
      set (d' := d ++ [DataFetcherAgent.row_of k]).
      assert (Ld : length d' = S (length d))
        by (unfold d'; rewrite length_app; cbn [length]; lia).
      assert (A : AnalyzerAgent.analyze d' 1000 2
                  = Ok (AnalyzerAgent.Final "HOLD" "Insufficient data")).
      { unfold AnalyzerAgent.analyze.
        destruct (Nat.ltb_spec (length d') 14); [reflexivity | lia]. }
      rewrite A.
      destruct (IH (DataFetcherAgent.dict_set q d' s)) as [s' E].
      { intros p x Ex.
        destruct (String.eqb_spec q p) as [<- | Hne].
        - rewrite dict_get_set_same in Ex. injection Ex as <-. lia.
        - rewrite dict_get_set_other in Ex by exact Hne.
          pose proof (Hs p x Ex) as Lp.
          unfold Batch.tickers_of in Lp. cbn [filter] in Lp. rewrite Pk in Lp.
          destruct (String.eqb_spec q p); [contradiction|].
          exact Lp. }
      rewrite E. cbn [bind map].
      rewrite (known_set s q d d' rest Gq).
      exists s'. reflexivity.
    + apply IH. intros p x Ex.
      pose proof (Hs p x Ex) as Lp.
      unfold Batch.tickers_of in Lp. cbn [filter] in Lp.
      destruct LS as [Pk | (q & Pk & Gq)]; rewrite Pk in Lp; [exact Lp|].
      destruct (String.eqb_spec q p) as [-> | Hne]; [congruence | exact Lp].
Qed.

Lemma stream_holds_until_fourteen_rows_witness :
  let s := DataFetcherAgent.subscribe ["BTC-USD"%string] [("BTC-USD"%string, [Sample.obs 1 2 0])] in
  let tickers := [Batch.btc 2 3 1; Batch.btc 3 4 2] in
  exists s',
    @DataFetcherAgent.on_tickers Sample.numerics s tickers
    = (s', Ok (map (fun _ => AnalyzerAgent.Final "HOLD" "Insufficient data")
                   (Batch.known s tickers))).
Proof.
  intros s tickers.
  apply (stream_holds_until_fourteen_rows Sample.numerics tickers s).
  intros p d E.
  change (DataFetcherAgent.dict_get p [("BTC-USD"%string, [])] = Some d) in E.
  cbn [DataFetcherAgent.dict_get] in E.
  destruct (String.eqb "BTC-USD" p) eqn:K; [| discriminate E].
  injection E as <-. apply String.eqb_eq in K. subst p. vm_compute. lia.
Defined.

Lemma on_tickers_returns `{Numerics} (tickers : list DataFetcherAgent.ticker) :
  forall s : DataFetcherAgent.store,
    exists s' printed,
      DataFetcherAgent.on_tickers s tickers = (s', Ok printed)
      /\ length printed = length (Batch.known s tickers).
Proof.
  induction tickers as [|k rest IH]; intros s.
  - exists s, []. split; reflexivity.
  - cbn [DataFetcherAgent.on_tickers].
    pose proof (lookup_spec (DataFetcherAgent.product_id k) s) as LS.
    unfold Batch.known. cbn [filter]. fold (Batch.known s rest).
    destruct (DataFetcherAgent.lookup (DataFetcherAgent.product_id k) s) as [[q d]|] eqn:EL.
    + destruct LS as [Pk Gq].
      set (d' := DataFetcherAgent.deque_append d (DataFetcherAgent.row_of k)).
      destruct (agent_analyze_returns d' 1000 2) as [signal ->].
      destruct (IH (DataFetcherAgent.dict_set q d' s)) as (s' & printed & E & Lp).
      rewrite E. cbn [bind].
      exists s', (signal :: printed). split; [reflexivity|].
      cbn [length]. rewrite Lp, (known_set s q d d' rest Gq). reflexivity.
    + apply IH.
Qed.

(** X21.  The handler of a message raises in one case only: a message of
    the ticker channel without an event raises IndexError at [events[0]],
    which the loop's [except ConnectionClosed] does not catch.  A message
    of another channel is ignored, and of a ticker message only the first
    event is read. *)
Theorem stream_message_outcomes :
  forall (N : Numerics) (s : DataFetcherAgent.store) (data : DataFetcherAgent.message),
    (DataFetcherAgent.channel data = Some "ticker"%string ->
     DataFetcherAgent.events data = [] ->
     DataFetcherAgent.on_message s data = (s, Raise IndexError))
    /\ (DataFetcherAgent.channel data <> Some "ticker"%string ->
        DataFetcherAgent.on_message s data = (s, Ok []))
    /\ (forall tickers later,
           DataFetcherAgent.channel data = Some "ticker"%string ->
           DataFetcherAgent.events data = tickers :: later ->
           DataFetcherAgent.on_message s data = DataFetcherAgent.on_tickers s tickers
           /\ exists s' printed,
               DataFetcherAgent.on_message s data = (s', Ok printed)
               /\ length printed = length (Batch.known s tickers)).
Proof.
  intros N s data. unfold DataFetcherAgent.on_message.
  split; [| split].
  - intros -> ->. reflexivity.
  - intros Hc. destruct (DataFetcherAgent.channel data) as [c|]; [| reflexivity].
    destruct (String.eqb_spec c "ticker") as [-> | Hne]; [| reflexivity].
    exfalso. apply Hc. reflexivity.
  - intros tickers later -> ->. cbn [String.eqb].
    split; [reflexivity|].
    apply on_tickers_returns.
Qed.

(** X22.  (Re)subscribing resets exactly the listed products: each of
    them starts from an empty deque, whatever it held, and every other key
    of the dictionary keeps its rows. *)
Theorem subscribe_resets_history :
  forall (product_ids : list string) (s : DataFetcherAgent.store) (p : string),
    DataFetcherAgent.dict_get p (DataFetcherAgent.subscribe product_ids s)
    = if existsb (String.eqb p) product_ids then Some []
      else DataFetcherAgent.dict_get p s.
Proof.
  intros product_ids. unfold DataFetcherAgent.subscribe.
  induction product_ids as [|q rest IH]; intros s p; [reflexivity|].
  cbn [fold_left existsb]. rewrite IH.
  destruct (existsb (String.eqb p) rest).
  - rewrite orb_true_r. reflexivity.
  - rewrite orb_false_r.
    destruct (String.eqb_spec p q) as [-> | Hne].
    + apply dict_get_set_same.
    + apply dict_get_set_other. intros K. apply Hne. symmetry. exact K.
Qed.
